(** * gridstatus EIA client: paged fetch and dataset transforms

    A shallow embedding of [gridstatus/eia.py]: [EIA.__init__],
    [EIA._fetch_page], [EIA.get_dataset] with its nested
    [fetch_page_wrapper], [_handle_time], [_handle_region_data],
    [_handle_rto_interchange] and [DATASET_HANDLERS].

    Python objects that are mutated in place (the header dicts) live in a
    heap indexed by object identity.  The thread pool is a scheduler-driven
    step function: a schedule says which thread moves next, one Python
    statement at a time.  pandas tables are column labels plus rows of
    cells. *)

From Stdlib Require Import ZArith String Ascii List Permutation Sorted Lia.
From stdpp Require Import base option list gmap strings sorting.

#[local] Set Warnings "-register-all,-clear-no-such-hyp".
#[local] Set Default Proof Using "Type".
Local Open Scope string_scope.
Local Open Scope list_scope.
Local Open Scope stdpp_scope.
Local Open Scope Z_scope.

(** ** Exceptions and the error monad *)

Inductive exn :=
| KeyError (key : string)
| ValueError (msg : string)
| TypeError (msg : string)
| JSONDecodeError
| RequestException (msg : string)
| WouldBlock
| Unmodelled (what : string).

Inductive res (A : Type) :=
| Ok (a : A)
| Raise (e : exn).
Arguments Ok {A} a.
Arguments Raise {A} e.

#[global] Instance res_ret : MRet res := fun A a => Ok a.
#[global] Instance res_bind : MBind res := fun A B f m =>
  match m with Ok a => f a | Raise e => Raise e end.
#[global] Instance res_fmap : FMap res := fun A B f m =>
  match m with Ok a => Ok (f a) | Raise e => Raise e end.

Definition is_ok {A} (r : res A) : bool :=
  match r with Ok _ => true | Raise _ => false end.

(** [[f(x) for x in l]]: the first exception, in list order, escapes. *)
Fixpoint res_all {A} (l : list (res A)) : res (list A) :=
  match l with
  | [] => Ok []
  | r :: l' => a ← r; as' ← res_all l'; Ok (a :: as')
  end.

(** ** Cells and tables *)

(** A cell of a table.  [VNull] stands for every pandas missing value
    ([None], [NaN], [NaT], [<NA>]).  [VFloat n d] is the exact quotient
    [n / d]; [VTime ns] is a [datetime64[ns, UTC]] instant. *)
Inductive value :=
| VNull
| VStr (s : string)
| VInt (z : Z)
| VFloat (num : Z) (den : positive)
| VTime (ns : Z).

#[global] Instance value_eq_dec : EqDecision value.
Proof. solve_decision. Defined.

(** One JSON object of [response["data"]]. *)
Definition record := list (string * value).

Record DataFrame := mkDataFrame {
  columns : list string;
  rows : list (list value)
}.

Definition nrows (df : DataFrame) : nat := length (rows df).

(** Keep the first occurrence of every label. *)
Fixpoint first_seen (l : list string) : list string :=
  match l with
  | [] => []
  | x :: l' => x :: filter (fun y => y ≠ x) (first_seen l')
  end.

Fixpoint assoc {A} (k : string) (l : list (string * A)) : option A :=
  match l with
  | [] => None
  | (k', v) :: l' => if decide (k' = k) then Some v else assoc k l'
  end.

Fixpoint index_of (c : string) (l : list string) : option nat :=
  match l with
  | [] => None
  | x :: l' => if decide (x = c) then Some 0%nat else S <$> index_of c l'
  end.

Definition cell_at (row : list value) (i : nat) : value := nth i row VNull.

(** [pd.DataFrame(list_of_dicts)]: columns are the keys in order of first
    appearance, absent keys read as missing. *)
Definition DataFrame_of (data : list record) : DataFrame :=
  let cols := first_seen (flat_map (map fst) data) in
  {| columns := cols;
     rows := map (fun r => map (fun c => default VNull (assoc c r)) cols) data |}.

Definition reindex_row (from to : list string) (row : list value) : list value :=
  map (fun c => match index_of c from with
                | Some i => cell_at row i
                | None => VNull
                end) to.

(** [pd.concat(dfs, ignore_index=True)]: outer join on the columns, rows
    stacked in argument order. *)
Definition pd_concat (dfs : list DataFrame) : DataFrame :=
  let cols := first_seen (flat_map columns dfs) in
  {| columns := cols;
     rows := flat_map (fun df => map (reindex_row (columns df) cols) (rows df)) dfs |}.

(** *** Ordering of cells

    The order pandas sorts and groups by: numbers by value, then strings by
    code point, then instants, missing values last. *)

Definition rank (v : value) : Z :=
  match v with
  | VInt _ | VFloat _ _ => 0
  | VStr _ => 1
  | VTime _ => 2
  | VNull => 3
  end.

Definition num_of (v : value) : Z * positive :=
  match v with
  | VInt z => (z, 1%positive)
  | VFloat n d => (n, d)
  | _ => (0, 1%positive)
  end.

Definition value_leb (a b : value) : bool :=
  match a, b with
  | VStr s1, VStr s2 => String.leb s1 s2
  | VTime t1, VTime t2 => t1 <=? t2
  | VNull, VNull => true
  | (VInt _ | VFloat _ _), (VInt _ | VFloat _ _) =>
      fst (num_of a) * Z.pos (snd (num_of b)) <=? fst (num_of b) * Z.pos (snd (num_of a))
  | _, _ => rank a <? rank b
  end.

(** Tuples of cells, compared left to right. *)
Fixpoint lex_leb (a b : list value) : bool :=
  match a, b with
  | [], _ => true
  | _ :: _, [] => false
  | x :: a', y :: b' =>
      if negb (value_leb y x) then true
      else if negb (value_leb x y) then false
      else lex_leb a' b'
  end.

Definition eqvb {A} (leb : A -> A -> bool) (x y : A) : bool := leb x y && leb y x.

Fixpoint insert_by {A} (leb : A -> A -> bool) (x : A) (l : list A) : list A :=
  match l with
  | [] => [x]
  | y :: l' => if leb x y then x :: y :: l' else y :: insert_by leb x l'
  end.

(** A stable sort: equal elements keep their order. *)
Definition stable_sort {A} (leb : A -> A -> bool) (l : list A) : list A :=
  foldr (insert_by leb) [] l.

(** The distinct elements, each at its first occurrence. *)
Fixpoint nub_by {A} (eqb : A -> A -> bool) (l : list A) : list A :=
  match l with
  | [] => []
  | x :: l' => x :: filter (fun y => eqb x y = false) (nub_by eqb l')
  end.

(** *** Column access *)

Fixpoint positions_from (n : nat) (c : string) (l : list string) : list nat :=
  match l with
  | [] => []
  | x :: l' => if decide (x = c) then n :: positions_from (S n) c l'
               else positions_from (S n) c l'
  end.

Definition positions (c : string) (l : list string) : list nat := positions_from 0 c l.

(** The position of the one column labelled [c]. *)
Definition col_pos (df : DataFrame) (c : string) : res nat :=
  match positions c (columns df) with
  | [] => Raise (KeyError c)
  | [i] => Ok i
  | _ => Raise (ValueError "label is not unique")
  end.

Definition column_at (df : DataFrame) (i : nat) : list value :=
  map (fun r => cell_at r i) (rows df).

(** [df[c]] as a Series. *)
Definition getitem (df : DataFrame) (c : string) : res (list value) :=
  i ← col_pos df c; Ok (column_at df i).

(** Write cell [i] of a row; a row too short to have it is filled up with
    missing cells, which is what reading them with [cell_at] gives. *)
Definition set_cell (i : nat) (v : value) (r : list value) : list value :=
  take i r ++ replicate (i - length r) VNull ++ v :: drop (S i) r.

(** [df[c] = series] for a column that exists: the cells are replaced in
    place, the column keeps its position. *)
Definition set_column (df : DataFrame) (i : nat) (vals : list value) : DataFrame :=
  {| columns := columns df;
     rows := zip_with (fun r v => set_cell i v r) (rows df) vals |}.

(** [df.insert(0, c, series)] *)
Definition insert0 (c : string) (vals : list value) (df : DataFrame) : res DataFrame :=
  if decide (c ∈ columns df)
  then Raise (ValueError "cannot insert, already exists")
  else Ok {| columns := c :: columns df;
             rows := zip_with (fun v r => v :: r) vals (rows df) |}.

Fixpoint drop_where {A} (keep : list bool) (l : list A) : list A :=
  match keep, l with
  | k :: keep', x :: l' => if k then x :: drop_where keep' l' else drop_where keep' l'
  | _, _ => []
  end.

(** [df.drop(c, axis=1)] *)
Definition drop_column (c : string) (df : DataFrame) : res DataFrame :=
  if decide (c ∈ columns df)
  then let keep := map (fun x => bool_decide (x ≠ c)) (columns df) in
       Ok {| columns := drop_where keep (columns df);
             rows := map (drop_where keep) (rows df) |}
  else Raise (KeyError c).


(** [df.rename(mapping, axis=1)]: labels without an entry stay. *)
Definition rename (mapping : list (string * string)) (df : DataFrame) : DataFrame :=
  {| columns := map (fun c => default c (assoc c mapping)) (columns df);
     rows := rows df |}.

(** [df[[c1, ..., cn]]] *)
Definition select (cs : list string) (df : DataFrame) : res DataFrame :=
  ps ← res_all (map (fun c => match positions c (columns df) with
                               | [] => Raise (KeyError c)
                               | l => Ok l
                               end) cs);
  let idx := concat ps in
  Ok {| columns := map (fun i => nth i (columns df) "") idx;
        rows := map (fun r => map (cell_at r) idx) (rows df) |}.

(** [df.sort_values(by)]: ascending, stable, missing values last. *)
Definition sort_values (by_ : list string) (df : DataFrame) : res DataFrame :=
  idx ← res_all (map (col_pos df) by_);
  let key r := map (cell_at r) idx in
  Ok {| columns := columns df;
        rows := stable_sort (fun r1 r2 => lex_leb (key r1) (key r2)) (rows df) |}.

(** [series.map(d)] with a dict of strings. *)
Definition map_dict (d : list (string * string)) (v : value) : value :=
  match v with
  | VStr s => match assoc s d with Some l => VStr l | None => VNull end
  | _ => VNull
  end.

(** *** Aggregation *)

Definition q_add (a b : Z * positive) : Z * positive :=
  (fst a * Z.pos (snd b) + fst b * Z.pos (snd a), (snd a * snd b)%positive).

Definition is_null (v : value) : bool :=
  match v with VNull => true | _ => false end.

Definition is_num (v : value) : bool :=
  match v with VInt _ | VFloat _ _ => true | _ => false end.

(** [mean] of a group, missing values skipped; missing when none is left. *)
Definition mean (vs : list value) : res value :=
  let xs := filter (fun v => is_null v = false) vs in
  match xs with
  | [] => Ok VNull
  | _ =>
      if forallb is_num xs then
        let s := foldl q_add (0, 1%positive) (map num_of xs) in
        Ok (VFloat (fst s) (snd s * Pos.of_nat (length xs)))
      else Raise (TypeError "could not convert to numeric")
  end.

(** ** JSON values, Python strings, dicts on the heap *)

Inductive json :=
| JNull
| JInt (n : Z)
| JStr (s : string)
| JList (l : list json)
| JObj (o : list (string * json)).

(** A Python [str].  Text written by [json.dumps] is kept as the value it
    encodes: [json.loads] inverts [json.dumps] on the values of this
    program (strings, integers, [None], lists and dicts of those). *)
Inductive pystr :=
| Lit (s : string)
| Dumps (v : json).

Definition json_dumps (v : json) : pystr := Dumps v.

Definition json_loads (s : pystr) : res json :=
  match s with
  | Dumps v => Ok v
  | Lit _ => Raise JSONDecodeError
  end.

(** [d[k] = v] on an insertion-ordered dict. *)
Fixpoint dict_setitem {A} (k : string) (v : A) (d : list (string * A)) : list (string * A) :=
  match d with
  | [] => [(k, v)]
  | (k', v') :: d' =>
      if decide (k' = k) then (k, v) :: d' else (k', v') :: dict_setitem k v d'
  end.

(** [params[k] = v] where [params] came out of [json.loads]. *)
Definition json_setitem (k : string) (v : json) (p : json) : res json :=
  match p with
  | JObj o => Ok (JObj (dict_setitem k v o))
  | _ => Raise (TypeError "object does not support item assignment")
  end.

(** The header dict: field name to string. *)
Abbreviation headers_t := (gmap string pystr).

(** Object identity of a dict. *)
Abbreviation loc := nat.

Abbreviation heap_t := (gmap loc headers_t).

(** [h[k]] on the dict at [l]. *)
Definition heap_getitem (h : heap_t) (l : loc) (k : string) : res pystr :=
  match h !! l with
  | Some d => match d !! k with
              | Some v => Ok v
              | None => Raise (KeyError k)
              end
  | None => Raise (KeyError k)
  end.

(** [h[k] = v] on the dict at [l]. *)
Definition heap_setitem (h : heap_t) (l : loc) (k : string) (v : pystr) : heap_t :=
  match h !! l with
  | Some d => <[l := <[k := v]> d]> h
  | None => h
  end.

(** [d.copy()]: a new dict object with the same items. *)
Definition heap_copy (h : heap_t) (l new : loc) : heap_t :=
  match h !! l with
  | Some d => <[new := d]> h
  | None => h
  end.

(** ** The thread pool *)

(** One GET as the remote source sees it. *)
Record request := mkRequest {
  req_url : string;
  req_headers : headers_t
}.

(** Where a call of [fetch_page_wrapper] stands: not started, after each of
    its first three statements, or returned / raised. *)
Inductive frame :=
| Pending
| AtSetOffset (params : json)
| AtDumps (params : json)
| AtFetch
| Done (r : res DataFrame).

(** A submitted call [fetch_page_wrapper(url, headers, page, page_size)];
    [f_headers] is the identity of the dict it was given. *)
Record future := mkFuture {
  f_url : string;
  f_headers : loc;
  f_page : Z;
  f_page_size : Z;
  f_at : frame
}.

Definition set_frame (f : future) (a : frame) : future :=
  {| f_url := f_url f; f_headers := f_headers f; f_page := f_page f;
     f_page_size := f_page_size f; f_at := a |}.

Record pool := mkPool {
  heap : heap_t;
  next_loc : loc;
  todo : list Z;              (* pages the generator [args] has yet to yield *)
  futures : list future;      (* in submission order *)
  requests : list request;    (* GETs received so far, oldest first *)
  completed : list nat        (* futures in order of completion *)
}.

(** What a scheduler can pick: the main thread submits the next call, or
    a worker runs the next statement of future [i]. *)
Inductive action :=
| Submit
| Work (i : nat).

Definition is_pending (f : future) : bool :=
  match f_at f with Pending => true | _ => false end.

Definition is_done (f : future) : bool :=
  match f_at f with Done _ => true | _ => false end.

Definition is_running (f : future) : bool :=
  negb (is_pending f) && negb (is_done f).

Definition running (fs : list future) : nat :=
  length (filter (fun f => is_running f = true) fs).

(** [future.result()] once the pool has been waited for. *)
Definition future_result (f : future) : res DataFrame :=
  match f_at f with
  | Done r => r
  | _ => Raise WouldBlock
  end.

(** [range(lo, hi)] *)
Definition py_range (lo hi : Z) : list Z :=
  map (fun k => lo + Z.of_nat k) (seq 0 (Z.to_nat (hi - lo))).

(** Console output, one constructor per [log], [print] and progress-bar call. *)
Inductive event :=
| LogFetching (url : string)
| LogParams (params : json)
| LogWorkers (n : Z)
| PrintTotalRecords (n : Z)
| PrintTotalPages (n : Z)
| PrintFetching
| BarOpen (total : Z)
| BarUpdate (n : Z)
| BarClose.

(** What a call leaves behind: its return value or exception, the GETs it
    sent, what it wrote to the console, and the dicts on the heap. *)
Record outcome := mkOutcome {
  ret : res DataFrame;
  sent : list request;
  console : list event;
  final_heap : heap_t
}.

Definition BASE_URL : string := "https://api.eia.gov/v2/".

(** [EIA.__init__], lines 18-36: the key the object keeps as
    [self.api_key], given the argument and [os.environ]. *)
Definition __init__ (api_key : option string) (environ : gmap string string)
    : res string :=
  let api_key := match api_key with
                 | None => environ !! "EIA_API_KEY"
                 | Some k => Some k
                 end in
  match api_key with
  | None =>
      Raise (ValueError
        "API key not provided and EIA_API_KEY                 not found in environment variables.")
  | Some k => Ok k
  end.

Definition page_size : Z := 5000.

(** Line 110. *)
Definition total_pages_of (total_records : Z) : Z :=
  (total_records + page_size - 1) `div` page_size.

(** A source that holds [data] and serves the slice a request asks for by
    [offset] and [length], with the size of [data] as [total]. *)
Definition paged_source (data : list record) (rq : request) : res (list record * Z) :=
  match req_headers rq !! "X-Params" with
  | Some (Dumps (JObj o)) =>
      match assoc "offset" o, assoc "length" o with
      | Some (JInt off), Some (JInt len) =>
          Ok (take (Z.to_nat len) (drop (Z.to_nat off) data), Z.of_nat (length data))
      | _, _ => Raise (RequestException "400 Bad Request")
      end
  | _ => Raise (RequestException "400 Bad Request")
  end.

Section EIA.

(** [self.api_key], and the remote end of [self.session]: what a GET
    answers, as the pair [(response["data"], response["total"])] or as the
    exception that [session.get], [.json()] or a subscript raises.  The
    answer depends on the request alone, not on when it is made. *)
Variable api_key : string.
Variable source : request -> res (list record * Z).

(** What pandas reads out of text: the instant, in nanoseconds since the
    epoch, that a non-missing label denotes for [pd.to_datetime(_, utc=True)];
    the length in nanoseconds that [pd.Timedelta] gives a frequency string;
    the integer that [astype("Int64")] makes of a string.  [None] where
    pandas raises. *)
Variable parse_datetime : value -> option Z.
Variable Timedelta : string -> option Z.
Variable int_of_str : string -> option Z.

(** [EIA._fetch_page], lines 48-52, on the header dict as it is when the
    request is sent. *)
Definition _fetch_page (rq : request) : res (DataFrame * Z) :=
  '(data, total) ← source rq; Ok (DataFrame_of data, total).

(** One statement of [fetch_page_wrapper], lines 119-123. *)
Definition advance (f : future) (h : heap_t) : future * heap_t * list request :=
  match f_at f with
  | Pending =>
      match s ← heap_getitem h (f_headers f) "X-Params"; json_loads s with
      | Ok p => (set_frame f (AtSetOffset p), h, [])
      | Raise e => (set_frame f (Done (Raise e)), h, [])
      end
  | AtSetOffset p =>
      match json_setitem "offset" (JInt (f_page f * f_page_size f)) p with
      | Ok p' => (set_frame f (AtDumps p'), h, [])
      | Raise e => (set_frame f (Done (Raise e)), h, [])
      end
  | AtDumps p =>
      (set_frame f AtFetch, heap_setitem h (f_headers f) "X-Params" (json_dumps p), [])
  | AtFetch =>
      let rq := mkRequest (f_url f) (default ∅ (h !! f_headers f)) in
      (set_frame f (Done (fst <$> _fetch_page rq)), h, [rq])
  | Done _ => (f, h, [])
  end.

(** A worker may take future [i] off the queue when a worker is free and
    every earlier future has been taken; it may always go on with a call
    it has started. *)
Definition may_work (n_workers : Z) (fs : list future) (i : nat) (f : future) : bool :=
  if is_pending f
  then bool_decide (Z.of_nat (running fs) < n_workers)
       && forallb (fun g => negb (is_pending g)) (take i fs)
  else true.

(** The generator of line 130 yields its next tuple, with a fresh
    [headers.copy()], and line 131 submits it. *)
Definition submit (url : string) (base : loc) (st : pool) : pool :=
  match todo st with
  | [] => st
  | page :: rest =>
      {| heap := heap_copy (heap st) base (next_loc st);
         next_loc := S (next_loc st);
         todo := rest;
         futures := futures st ++ [mkFuture url (next_loc st) page page_size Pending];
         requests := requests st;
         completed := completed st |}
  end.

Definition work (n_workers : Z) (i : nat) (st : pool) : pool :=
  match futures st !! i with
  | None => st
  | Some f =>
      if may_work n_workers (futures st) i f then
        let '(f', h', rqs) := advance f (heap st) in
        {| heap := h';
           next_loc := next_loc st;
           todo := todo st;
           futures := <[i := f']> (futures st);
           requests := requests st ++ rqs;
           completed := if negb (is_done f) && is_done f'
                        then completed st ++ [i] else completed st |}
      else st
  end.

Definition exec (url : string) (base : loc) (n_workers : Z) (a : action) (st : pool) : pool :=
  match a with
  | Submit => submit url base st
  | Work i => work n_workers i st
  end.

Definition run (url : string) (base : loc) (n_workers : Z) (sched : list action) (st : pool) : pool :=
  foldl (fun s a => exec url base n_workers a s) st sched.

(** Whatever the schedule left open: the list comprehension of line 131
    runs to its end, and the pool is waited for, each future to its end
    in queue order. *)
Definition submit_rest (url : string) (base : loc) (st : pool) : pool :=
  Nat.iter (length (todo st)) (submit url base) st.

Definition finish (n_workers : Z) (st : pool) : pool :=
  foldl (fun s i => Nat.iter 4 (work n_workers i) s) st (seq 0 (length (futures st))).

Definition join (url : string) (base : loc) (n_workers : Z) (st : pool) : pool :=
  finish n_workers (submit_rest url base st).

(** [params] of lines 82-92. *)
Definition params_of (start_str : string) (end_str : option string) : json :=
  JObj [("start", JStr start_str);
        ("end", match end_str with Some e => JStr e | None => JNull end);
        ("frequency", JStr "hourly");
        ("data", JList [JStr "value"]);
        ("facets", JObj []);
        ("offset", JInt 0);
        ("length", JInt 5000)].

(** [headers] of lines 94-97. *)
Definition headers_of (start_str : string) (end_str : option string) : headers_t :=
  <["X-Params" := json_dumps (params_of start_str end_str)]>
    (<["X-Api-Key" := Lit api_key]> ∅).

(** The progress bar of lines 133-141. *)
Definition progress (total_pages : Z) (done_order : list nat) (pages : list Z) : list event :=
  [BarOpen total_pages; BarUpdate 1]
  ++ map (fun _ => BarUpdate 1) (zip done_order pages)
  ++ [BarClose].

(** [EIA.get_dataset], lines 80-145: the raw table.  [start_str] and
    [end_str] are the formatted dates of lines 72-78; [sched] is the order
    in which the threads happen to move. *)
Definition fetch_raw (dataset : string) (start_str : string) (end_str : option string)
    (n_workers : Z) (verbose : bool) (sched : list action) : outcome :=
  let url := BASE_URL +:+ dataset +:+ "/data/" in
  let headers := headers_of start_str end_str in
  let base : loc := 0%nat in
  let h0 : heap_t := {[ base := headers ]} in
  let out0 := if verbose
              then [LogFetching url; LogParams (params_of start_str end_str);
                    LogWorkers n_workers]
              else [] in
  let rq0 := mkRequest url headers in
  match _fetch_page rq0 with
  | Raise e => mkOutcome (Raise e) [rq0] out0 h0
  | Ok (raw_df, total_records) =>
      let total_pages := total_pages_of total_records in
      let out1 := out0 ++ if verbose
                          then [PrintTotalRecords total_records;
                                PrintTotalPages total_pages; PrintFetching]
                          else [] in
      if decide (total_pages > 1) then
        let pages := py_range 1 total_pages in
        if decide (n_workers <= 0) then
          mkOutcome (Raise (ValueError "max_workers must be greater than 0"))
                    [rq0] out1 h0
        else
          let st0 := mkPool h0 1%nat pages [] [rq0] [] in
          let st := join url base n_workers (run url base n_workers sched st0) in
          let out2 := out1 ++ if verbose
                              then progress total_pages (completed st) pages
                              else [] in
          match res_all (map future_result (futures st)) with
          | Raise e => mkOutcome (Raise e) (requests st) out2 (heap st)
          | Ok page_dfs =>
              mkOutcome (Ok (pd_concat (raw_df :: page_dfs))) (requests st) out2 (heap st)
          end
      else mkOutcome (Ok raw_df) [rq0] out1 h0
  end.

(** *** What each page is expected to send and to yield

    The header dict of page [page] as a fresh copy of [hd] with only the
    offset of its parameters replaced, the GET made with it, and the table
    that GET yields. *)

Definition page_headers (hd : headers_t) (o : list (string * json)) (page : Z) : headers_t :=
  <["X-Params" := json_dumps (JObj (dict_setitem "offset" (JInt (page * page_size)) o))]> hd.

Definition page_request (url : string) (hd : headers_t) (o : list (string * json))
    (page : Z) : request :=
  mkRequest url (page_headers hd o page).

Definition page_result (url : string) (hd : headers_t) (o : list (string * json))
    (page : Z) : res DataFrame :=
  fst <$> _fetch_page (page_request url hd o page).

(** The [params] dict of lines 82-92, as the list of its items. *)
Definition params_items (start_str : string) (end_str : option string)
    : list (string * json) :=
  match params_of start_str end_str with
  | JObj o => o
  | _ => []
  end.

(** What holds of a frame of the call for [page] when [cell] is the dict
    that call was given. *)
Definition frame_ok (url : string) (hd : headers_t) (o : list (string * json))
    (cell : option headers_t) (page : Z) (fr : frame) : Prop :=
  match fr with
  | Pending => cell = Some hd
  | AtSetOffset p => p = JObj o ∧ cell = Some hd
  | AtDumps p =>
      p = JObj (dict_setitem "offset" (JInt (page * page_size)) o) ∧ cell = Some hd
  | AtFetch => cell = Some (page_headers hd o page)
  | Done r => r = page_result url hd o page ∧ cell = Some (page_headers hd o page)
  end.

(** The frame after one more statement. *)
Definition next_frame (url : string) (hd : headers_t) (o : list (string * json))
    (page : Z) (fr : frame) : frame :=
  match fr with
  | Pending => AtSetOffset (JObj o)
  | AtSetOffset _ => AtDumps (JObj (dict_setitem "offset" (JInt (page * page_size)) o))
  | AtDumps _ => AtFetch
  | AtFetch => Done (page_result url hd o page)
  | Done r => Done r
  end.

(** The invariant of the pool while the pages [pages] are fetched from
    the base dict [hd], held at location 0, after the first request [rq0]:
    future [i] owns the dict at [S i], nobody writes to location 0, calls
    are started in queue order, and each finished call has sent exactly
    its own request. *)
Record pool_inv (url : string) (hd : headers_t) (o : list (string * json))
    (pages : list Z) (rq0 : request) (st : pool) : Prop := {
  inv_base : heap st !! 0%nat = Some hd;
  inv_next : next_loc st = S (length (futures st));
  inv_todo : todo st = drop (length (futures st)) pages;
  inv_fut : ∀ i f, futures st !! i = Some f →
      f_url f = url ∧ f_headers f = S i ∧ pages !! i = Some (f_page f)
      ∧ f_page_size f = page_size
      ∧ frame_ok url hd o (heap st !! S i) (f_page f) (f_at f);
  inv_fifo : ∀ i j f g, (i ≤ j)%nat →
      futures st !! i = Some f → futures st !! j = Some g →
      is_pending f = true → is_pending g = true;
  inv_nodup : NoDup (completed st);
  inv_completed : ∀ i, i ∈ completed st ↔
      ∃ f, futures st !! i = Some f ∧ is_done f = true;
  inv_requests : requests st =
      rq0 :: map (fun i => page_request url hd o (default 0 (pages !! i))) (completed st)
}.

(** How far a call has got, and: the first [i] futures are finished. *)
Definition frame_rank (fr : frame) : nat :=
  match fr with
  | Pending => 0%nat
  | AtSetOffset _ => 1%nat
  | AtDumps _ => 2%nat
  | AtFetch => 3%nat
  | Done _ => 4%nat
  end.

Definition done_upto (st : pool) (i : nat) : Prop :=
  ∀ j f, (j < i)%nat → futures st !! j = Some f → is_done f = true.

(** The paged fetch as the specification words it: fetch the page at
    offset 0 and read the total; with at most one page return that table;
    otherwise fetch the pages [1 .. total_pages - 1], each at offset
    [page_index * page_size], give up on the first page, in page order,
    whose fetch fails, and concatenate page 0 with the further pages in
    ascending page order. *)
Definition paged_fetch_spec (dataset start_str : string) (end_str : option string)
    : res DataFrame :=
  let url := BASE_URL +:+ dataset +:+ "/data/" in
  let hd := headers_of start_str end_str in
  let o := params_items start_str end_str in
  '(raw_df, total) ← _fetch_page (mkRequest url hd);
  if decide (total_pages_of total > 1) then
    page_dfs ← res_all (map (page_result url hd o) (py_range 1 (total_pages_of total)));
    Ok (pd_concat (raw_df :: page_dfs))
  else Ok raw_df.

(** The GETs a call is expected to send: the first one, and with more than
    one page and a usable pool one per further page. *)
Definition expected_requests (dataset start_str : string) (end_str : option string)
    (n_workers : Z) : list request :=
  let url := BASE_URL +:+ dataset +:+ "/data/" in
  let hd := headers_of start_str end_str in
  let o := params_items start_str end_str in
  mkRequest url hd ::
  match _fetch_page (mkRequest url hd) with
  | Ok (_, total) =>
      if decide (total_pages_of total > 1 ∧ 1 ≤ n_workers)
      then map (page_request url hd o) (py_range 1 (total_pages_of total))
      else []
  | Raise _ => []
  end.

(** The offset a request carries. *)
Definition offset_of (rq : request) : option Z :=
  match req_headers rq !! "X-Params" with
  | Some (Dumps (JObj o)) =>
      match assoc "offset" o with
      | Some (JInt off) => Some off
      | _ => None
      end
  | _ => None
  end.

(** ** The transforms *)

(** [pd.to_datetime(series, utc=True)], cell by cell. *)
Definition to_datetime (v : value) : res value :=
  match v with
  | VNull => Ok VNull
  | _ => match parse_datetime v with
         | Some ns => Ok (VTime ns)
         | None => Raise (ValueError "Unknown datetime string format")
         end
  end.

(** [series - pd.Timedelta(...)] on a column of instants. *)
Definition minus_timedelta (d : Z) (v : value) : res value :=
  match v with
  | VNull => Ok VNull
  | VTime ns => Ok (VTime (ns - d))
  | _ => Raise (TypeError "unsupported operand type(s) for -")
  end.

(** The table [_handle_time] returns when nothing raises: [ends] are the
    parsed labels, [d] the length of the interval. *)
Definition time_frame (d : Z) (ends : list value) (df : DataFrame) : DataFrame :=
  let keep := map (fun x => bool_decide (x ≠ "period")) (columns df) in
  let start_of e := match e with VTime ns => VTime (ns - d) | _ => VNull end in
  {| columns := "Interval Start" :: "Interval End" :: drop_where keep (columns df);
     rows := zip_with (fun e r => start_of e :: e :: drop_where keep r) ends (rows df) |}.

(** [series.astype("Int64")], cell by cell. *)
Definition to_Int64 (v : value) : res value :=
  match v with
  | VNull => Ok VNull
  | VInt z => Ok (VInt z)
  | VFloat n d =>
      if decide (n `mod` Z.pos d = 0) then Ok (VInt (n `div` Z.pos d))
      else Raise (TypeError "cannot safely cast non-equivalent float64 to int64")
  | VStr s => match int_of_str s with
              | Some z => Ok (VInt z)
              | None => Raise (ValueError "invalid literal for int()")
              end
  | VTime _ => Raise (TypeError "cannot astype a datetimelike to Int64")
  end.

(** [df[c] = df[c].astype("Int64")] *)
Definition astype_Int64 (c : string) (df : DataFrame) : res DataFrame :=
  i ← col_pos df c;
  vals ← res_all (map to_Int64 (column_at df i));
  Ok (set_column df i vals).

(** [series.astype("Int64")] on a column of the masked dtype [Float64],
    which is what the means of an [Int64] column are: pandas converts the
    numbers and keeps the mask, so that a number is cut to an integer,
    toward zero, without any check, and a missing cell stays missing. *)
Definition to_Int64_masked (v : value) : res value :=
  match v with
  | VFloat n d => Ok (VInt (Z.quot n (Z.pos d)))
  | _ => to_Int64 v
  end.

(** [df[c] = df[c].astype("Int64")] on such a column. *)
Definition astype_Int64_masked (c : string) (df : DataFrame) : res DataFrame :=
  i ← col_pos df c;
  vals ← res_all (map to_Int64_masked (column_at df i));
  Ok (set_column df i vals).

(** [_handle_time], lines 225-229. *)
Definition _handle_time (df : DataFrame) (frequency : string) : res DataFrame :=
  period ← getitem df "period";
  ends ← res_all (map to_datetime period);
  df1 ← insert0 "Interval End" ends df;
  ends' ← getitem df1 "Interval End";
  d ← match Timedelta frequency with
      | Some d => Ok d
      | None => Raise (ValueError "invalid unit abbreviation")
      end;
  starts ← res_all (map (minus_timedelta d) ends');
  df2 ← insert0 "Interval Start" starts df1;
  drop_column "period" df2.

(** One row of the long table as the pivot reads it: the cells of the
    index columns, the cell that names the output column, the value. *)
Record entry := mkEntry {
  e_key : list value;
  e_label : value;
  e_value : value
}.

(** One aggregated group of the pivot: its index key, its column label and
    the mean of its values. *)
Record group := mkGroup {
  g_key : list value;
  g_label : string;
  g_mean : value
}.

(** Rows fall into one group when they agree on every grouping column. *)
Definition same_group (a b : entry) : bool :=
  eqvb lex_leb (e_key a) (e_key b) && eqvb value_leb (e_label a) (e_label b).

Definition groupable (e : entry) : bool :=
  forallb (fun x => negb (is_null x)) (e_key e) && negb (is_null (e_label e)).

(** The rows that take part in the grouping, as entries: those with no
    missing cell among the grouping columns. *)
Definition entry_of (idx : list nat) (c v : nat) (r : list value) : entry :=
  mkEntry (map (cell_at r) idx) (cell_at r c) (cell_at r v).

Definition live_entries (df : DataFrame) (idx : list nat) (c v : nat) : list entry :=
  filter (fun e => groupable e = true) (map (entry_of idx c v) (rows df)).

(** The values that the cell of index key [k] and column [l] is the mean of. *)
Definition cell_values (live : list entry) (k : list value) (l : string) : list value :=
  map e_value
      (filter (fun e => eqvb lex_leb k (e_key e) && eqvb value_leb (VStr l) (e_label e) = true)
              live).


(** What a pivot with index keys [index_keys], column labels [labels] and
    cells [cell] has to do with the rows it was made from. *)
Definition pivot_of (live : list entry) (width : nat) (index_keys : list (list value))
    (labels : list string) (cell : list value -> string -> value) : Prop :=
  (∀ l, l ∈ labels → ∃ e, e ∈ live ∧ e_label e = VStr l)
  ∧ (∀ k, k ∈ index_keys →
       length k = width
       ∧ ∃ e, e ∈ live ∧ eqvb lex_leb k (e_key e) = true ∧ is_null (e_value e) = false)
  ∧ (∀ e, e ∈ live → is_null (e_value e) = false →
       (∃ k, k ∈ index_keys ∧ eqvb lex_leb k (e_key e) = true)
       ∧ (∃ l, l ∈ labels ∧ e_label e = VStr l))
  ∧ (∀ k l, mean (cell_values live k l) = Ok (cell k l)).

(** A result that does not leave what is modelled here: it is a value or
    one of the Python exceptions. *)
Definition modelled {A} (r : res A) : Prop :=
  ∀ what, r ≠ Raise (Unmodelled what).

Definition label_of (v : value) : res string :=
  match v with
  | VStr s => Ok s
  | _ => Raise (Unmodelled "column label that is not a string")
  end.

(** [df.pivot_table(index=index, columns=cols, values=vals).reset_index()]
    with the defaults [aggfunc="mean"], [dropna=True], [sort=True]:
    rows with a missing key or label are left out of the grouping, each
    group is averaged, groups whose mean is missing are dropped, and what
    is left is laid out with one row per index key and one column per
    label, both in ascending order. *)
Definition pivot_table (index : list string) (cols vals : string) (df : DataFrame)
    : res DataFrame :=
  idx ← res_all (map (col_pos df) index);
  c ← col_pos df cols;
  v ← col_pos df vals;
  let live := live_entries df idx c v in
  groups ← res_all (map (fun e =>
              m ← mean (map e_value (filter (fun e' => same_group e e' = true) live));
              l ← label_of (e_label e);
              Ok (mkGroup (e_key e) l m)) (nub_by same_group live));
  let kept := filter (fun g => is_null (g_mean g) = false) groups in
  let index_keys := stable_sort lex_leb (nub_by (eqvb lex_leb) (map g_key kept)) in
  let labels := stable_sort String.leb (nub_by String.eqb (map g_label kept)) in
  let cell k l :=
    match filter (fun g => eqvb lex_leb k (g_key g) && String.eqb l (g_label g) = true)
                 kept with
    | g :: _ => g_mean g
    | [] => VNull
    end in
  match filter (fun n => n ∈ labels) index with
  | _ :: _ => Raise (ValueError "cannot insert, already exists")
  | [] => Ok {| columns := index ++ labels;
                rows := map (fun k => k ++ map (cell k) labels) index_keys |}
  end.

(** [df[c] = df[c].map(d)] *)
Definition map_column (c : string) (d : list (string * string)) (df : DataFrame)
    : res DataFrame :=
  i ← col_pos df c;
  Ok (set_column df i (map (map_dict d) (column_at df i))).

Definition TYPE_LABELS : list (string * string) :=
  [("D", "Load"); ("TI", "Total Interchange");
   ("NG", "Net Generation"); ("DF", "Load Forecast")].

(** The value columns in the order the pivot lays them out. *)
Definition REGION_VALUES : list string :=
  ["Load"; "Load Forecast"; "Net Generation"; "Total Interchange"].

Definition REGION_INDEX : list string :=
  ["Interval Start"; "Interval End"; "Respondent"; "Respondent Name"].

(** [_handle_region_data], lines 233-255: the long table, one row per
    input row, with its intervals, labels and integer values. *)
Definition region_long (df : DataFrame) : res DataFrame :=
  df ← _handle_time df "1h";
  let df := rename [("value", "MW"); ("respondent", "Respondent");
                    ("respondent-name", "Respondent Name"); ("type", "Type")] df in
  df ← map_column "Type" TYPE_LABELS df;
  astype_Int64 "MW" df.

(** [_handle_region_data], lines 232-270.  The loop of lines 267-268
    casts the columns of the pivot, which hold means of an [Int64] column
    and so have the masked dtype [Float64]. *)
Definition _handle_region_data (df : DataFrame) : res DataFrame :=
  df ← region_long df;
  df ← pivot_table REGION_INDEX "Type" "MW" df;
  df ← astype_Int64_masked "Load" df;
  df ← astype_Int64_masked "Net Generation" df;
  df ← astype_Int64_masked "Load Forecast" df;
  astype_Int64_masked "Total Interchange" df.

Definition INTERCHANGE_COLUMNS : list string :=
  ["Interval Start"; "Interval End"; "From BA"; "From BA Name";
   "To BA"; "To BA Name"; "MW"].

(** [_handle_rto_interchange], lines 273-300. *)
Definition _handle_rto_interchange (df : DataFrame) : res DataFrame :=
  df ← _handle_time df "1h";
  let df := rename [("value", "MW"); ("fromba", "From BA"); ("toba", "To BA");
                    ("fromba-name", "From BA Name"); ("toba-name", "To BA Name")] df in
  df ← select INTERCHANGE_COLUMNS df;
  sort_values ["Interval Start"; "From BA"] df.

(** [_handle_rto_interchange], lines 275-296: the seven columns before the
    rows are sorted. *)
Definition interchange_unsorted (df : DataFrame) : res DataFrame :=
  df ← _handle_time df "1h";
  let df := rename [("value", "MW"); ("fromba", "From BA"); ("toba", "To BA");
                    ("fromba-name", "From BA Name"); ("toba-name", "To BA Name")] df in
  select INTERCHANGE_COLUMNS df.

(** The dict of lines 277-283. *)
Definition INTERCHANGE_NAMES : list (string * string) :=
  [("value", "MW"); ("fromba", "From BA"); ("toba", "To BA");
   ("fromba-name", "From BA Name"); ("toba-name", "To BA Name")].

(** [DATASET_HANDLERS], lines 303-306. *)
Definition DATASET_HANDLERS : gmap string (DataFrame -> res DataFrame) :=
  <["electricity/rto/region-data" := _handle_region_data]>
    (<["electricity/rto/interchange-data" := _handle_rto_interchange]> ∅).

(** [EIA.get_dataset], lines 54-152. *)
Definition get_dataset (dataset : string) (start_str : string) (end_str : option string)
    (n_workers : Z) (verbose : bool) (sched : list action) : outcome :=
  let o := fetch_raw dataset start_str end_str n_workers verbose sched in
  match ret o with
  | Raise e => o
  | Ok raw_df =>
      let df := raw_df in
      match DATASET_HANDLERS !! dataset with
      | Some handler => mkOutcome (handler df) (sent o) (console o) (final_heap o)
      | None => mkOutcome (Ok df) (sent o) (console o) (final_heap o)
      end
  end.

(** ** Sample inputs *)

(** Two period labels of the hourly API and their instants. *)
Definition ex_parse_datetime (v : value) : option Z :=
  match v with
  | VStr s =>
      if String.eqb s "2023-01-01T01" then Some 1672534800000000000
      else if String.eqb s "2023-01-01T02" then Some 1672538400000000000
      else None
  | _ => None
  end.

Definition ex_Timedelta (s : string) : option Z :=
  if String.eqb s "1h" then Some 3600000000000 else None.

Definition ex_int_of_str (s : string) : option Z := None.

Definition region_record (period respondent type : string) (mw : Z) : record :=
  [("period", VStr period); ("respondent", VStr respondent);
   ("respondent-name", VStr (respondent +:+ " name")); ("type", VStr type);
   ("value", VInt mw)].

(** All four codes for one key, a second key with a load only, and a row of
    a code that the transform does not know. *)
Definition ex_region : DataFrame :=
  DataFrame_of
    [region_record "2023-01-01T02" "PJM" "D" 101;
     region_record "2023-01-01T01" "PJM" "D" 100;
     region_record "2023-01-01T01" "PJM" "TI" 5;
     region_record "2023-01-01T01" "MISO" "XX" 7;
     region_record "2023-01-01T01" "PJM" "NG" 110;
     region_record "2023-01-01T01" "PJM" "DF" 98].

Definition ex_region_out : DataFrame :=
  {| columns := ["Interval Start"; "Interval End"; "Respondent"; "Respondent Name";
                 "Load"; "Load Forecast"; "Net Generation"; "Total Interchange"];
     rows := [[VTime 1672531200000000000; VTime 1672534800000000000;
               VStr "PJM"; VStr "PJM name"; VInt 100; VInt 98; VInt 110; VInt 5];
              [VTime 1672534800000000000; VTime 1672538400000000000;
               VStr "PJM"; VStr "PJM name"; VInt 101; VNull; VNull; VNull]] |}.

(** The same input without any row of code DF. *)
Definition ex_region_no_forecast : DataFrame :=
  DataFrame_of
    [region_record "2023-01-01T02" "PJM" "D" 101;
     region_record "2023-01-01T01" "PJM" "D" 100;
     region_record "2023-01-01T01" "PJM" "TI" 5;
     region_record "2023-01-01T01" "PJM" "NG" 110].

Definition interchange_record (period fromba toba : string) (mw : Z) : record :=
  [("period", VStr period); ("fromba", VStr fromba); ("fromba-name", VStr fromba);
   ("toba", VStr toba); ("toba-name", VStr toba); ("value", VInt mw);
   ("value-units", VStr "megawatthours")].

Definition ex_interchange : DataFrame :=
  DataFrame_of
    [interchange_record "2023-01-01T02" "B" "C" 1;
     interchange_record "2023-01-01T01" "B" "C" 2;
     interchange_record "2023-01-01T02" "A" "C" 3;
     interchange_record "2023-01-01T01" "A" "C" 4].

Definition ex_interchange_out : DataFrame :=
  {| columns := ["Interval Start"; "Interval End"; "From BA"; "From BA Name";
                 "To BA"; "To BA Name"; "MW"];
     rows := [[VTime 1672531200000000000; VTime 1672534800000000000;
               VStr "A"; VStr "A"; VStr "C"; VStr "C"; VInt 4];
              [VTime 1672531200000000000; VTime 1672534800000000000;
               VStr "B"; VStr "B"; VStr "C"; VStr "C"; VInt 2];
              [VTime 1672534800000000000; VTime 1672538400000000000;
               VStr "A"; VStr "A"; VStr "C"; VStr "C"; VInt 3];
              [VTime 1672534800000000000; VTime 1672538400000000000;
               VStr "B"; VStr "B"; VStr "C"; VStr "C"; VInt 1]] |}.

(** A source that reports 12000 records and answers every page with one
    record that names the offset it was asked for; and one whose page at
    offset 10000 fails. *)
Definition ex_page (off : Z) : list record :=
  [[("period", VStr "2023-01-01T01"); ("offset", VInt off)]].

Definition ex_source (rq : request) : res (list record * Z) :=
  match offset_of rq with
  | Some off => Ok (ex_page off, 12000)
  | None => Raise (RequestException "400 Bad Request")
  end.

Definition ex_failing_source (rq : request) : res (list record * Z) :=
  match offset_of rq with
  | Some off =>
      if off =? 10000 then Raise (RequestException "503 Service Unavailable")
      else Ok (ex_page off, 12000)
  | None => Raise (RequestException "400 Bad Request")
  end.

(** One key with the four codes and two loads, 1 and 2. *)
Definition ex_region_two_loads : DataFrame :=
  DataFrame_of
    [region_record "2023-01-01T01" "PJM" "D" 1;
     region_record "2023-01-01T01" "PJM" "D" 2;
     region_record "2023-01-01T01" "PJM" "TI" 5;
     region_record "2023-01-01T01" "PJM" "NG" 110;
     region_record "2023-01-01T01" "PJM" "DF" 98].

(** A region table with a net generation and no load. *)
Definition ex_region_no_load : DataFrame :=
  DataFrame_of [region_record "2023-01-01T01" "PJM" "NG" 110].

(** Two records for a source that serves slices. *)
Definition ex_records : list record :=
  [interchange_record "2023-01-01T02" "B" "C" 1;
   interchange_record "2023-01-01T01" "A" "C" 4].

(** A raw table with a period and a value and nothing else. *)
Definition ex_no_fromba : DataFrame :=
  DataFrame_of [[("period", VStr "2023-01-01T01"); ("value", VInt 1)]].

(** Two workers; the call for page 2 overtakes the call for page 1. *)
Definition ex_schedule : list action :=
  [Submit; Work 0; Submit; Work 1; Work 1; Work 1; Work 1; Work 0; Work 0; Work 0].

(** * Facts *)

(** ** The error monad *)

Lemma bind_Ok {A B} (a : A) (f : A -> res B) : (Ok a ≫= f) = f a.
Proof. done. Qed.

Lemma res_all_length {A} (l : list (res A)) (xs : list A) :
  res_all l = Ok xs → length xs = length l.
Proof.
  revert xs. induction l as [|r l IH]; intros xs; simpl.
  - by intros [= <-].
  - destruct r as [a|e]; simpl; [|done].
    destruct (res_all l) as [ys|e]; simpl; [|done].
    intros [= <-]. simpl. f_equal. by apply IH.
Qed.

Lemma res_all_Raise {A B} (f : A -> res B) (l : list A) (e : exn) :
  res_all (map f l) = Raise e → ∃ x, x ∈ l ∧ f x = Raise e.
Proof.
  induction l as [|a l IH]; simpl; [done|].
  destruct (f a) as [b|e'] eqn:Ha; simpl.
  - destruct (res_all (map f l)) as [bs|e'']; simpl; [done|].
    intros [= ->]. destruct IH as (x & Hx & Hfx); [done|].
    exists x. split; [by right|done].
  - intros [= ->]. exists a. split; [by left|done].
Qed.

Lemma bind_modelled {A B} (m : res A) (f : A -> res B) :
  modelled m → (∀ a, m = Ok a → modelled (f a)) → modelled (m ≫= f).
Proof.
  intros Hm Hf what. destruct m as [a|e]; simpl.
  - by apply Hf.
  - intros [= ->]. by apply (Hm what).
Qed.

Lemma res_all_modelled {A B} (f : A -> res B) (l : list A) :
  (∀ x, x ∈ l → modelled (f x)) → modelled (res_all (map f l)).
Proof.
  intros Hall what Hr. apply res_all_Raise in Hr as (x & Hx & Hfx).
  by apply (Hall x Hx what).
Qed.

Lemma res_all_first_raise {A B} (f : A -> res B) (l : list A) :
  (∃ x, x ∈ l ∧ is_ok (f x) = false) →
  ∃ l1 x l2 e, l = l1 ++ x :: l2
               ∧ (∀ y, y ∈ l1 → is_ok (f y) = true)
               ∧ f x = Raise e
               ∧ res_all (map f l) = Raise e.
Proof.
  induction l as [|a l IH]; intros (x & Hx & Hbad).
  - by apply elem_of_nil in Hx.
  - destruct (f a) as [b|e] eqn:Ha.
    + destruct IH as (l1 & y & l2 & e & -> & Hl1 & Hy & Hall).
      { apply elem_of_cons in Hx as [->|Hx]; [by rewrite Ha in Hbad|by exists x]. }
      exists (a :: l1), y, l2, e. repeat split; [|done|].
      * intros z [->|Hz]%elem_of_cons; [by rewrite Ha|by apply Hl1].
      * change (res_all (f a :: map f (l1 ++ y :: l2)) = Raise e).
        simpl. rewrite Ha, Hall. done.
    + exists [], a, l, e. repeat split; [|done|].
      * by intros y ?%elem_of_nil.
      * simpl. by rewrite Ha.
Qed.

Lemma elem_of_py_range (lo hi p : Z) : p ∈ py_range lo hi ↔ lo ≤ p < hi.
Proof.
  unfold py_range. rewrite list_elem_of_In, in_map_iff. split.
  - intros (k & <- & Hk%in_seq). lia.
  - intros Hp. exists (Z.to_nat (p - lo)). split; [lia|]. apply in_seq. lia.
Qed.

Lemma assoc_dict_setitem_eq {A} (k : string) (v : A) (d : list (string * A)) :
  assoc k (dict_setitem k v d) = Some v.
Proof.
  induction d as [|[k' v'] d IH]; simpl.
  - by destruct (decide (k = k)).
  - destruct (decide (k' = k)) as [->|Hne]; simpl.
    + by destruct (decide (k = k)).
    + by destruct (decide (k' = k)).
Qed.

Lemma assoc_dict_setitem_ne {A} (k k' : string) (v : A) (d : list (string * A)) :
  k' ≠ k → assoc k' (dict_setitem k v d) = assoc k' d.
Proof.
  intros Hne. induction d as [|[k0 v0] d IH]; simpl.
  - by destruct (decide (k = k')).
  - destruct (decide (k0 = k)) as [->|Hne0]; simpl.
    + destruct (decide (k = k')); [congruence|done].
    + destruct (decide (k0 = k')); [done|apply IH].
Qed.

(** ** The order on cells *)

Lemma string_compare_trans (s1 s2 s3 : string) :
  String.compare s1 s2 ≠ Gt → String.compare s2 s3 ≠ Gt → String.compare s1 s3 ≠ Gt.
Proof.
  revert s2 s3. induction s1 as [|c1 s1 IH]; intros [|c2 s2] [|c3 s3]; simpl; try done.
  unfold Ascii.compare.
  destruct (N.compare_spec (N_of_ascii c1) (N_of_ascii c2)),
           (N.compare_spec (N_of_ascii c2) (N_of_ascii c3)),
           (N.compare_spec (N_of_ascii c1) (N_of_ascii c3));
    try done; try lia; try (intros; by eapply IH).
Qed.

Lemma string_leb_trans (s1 s2 s3 : string) :
  String.leb s1 s2 = true → String.leb s2 s3 = true → String.leb s1 s3 = true.
Proof.
  unfold String.leb. intros H1 H2.
  pose proof (string_compare_trans s1 s2 s3) as H.
  destruct (String.compare s1 s2), (String.compare s2 s3), (String.compare s1 s3);
    try done; exfalso; by apply H.
Qed.

Lemma q_le_trans (n1 n2 n3 : Z) (d1 d2 d3 : positive) :
  n1 * Z.pos d2 ≤ n2 * Z.pos d1 → n2 * Z.pos d3 ≤ n3 * Z.pos d2 →
  n1 * Z.pos d3 ≤ n3 * Z.pos d1.
Proof.
  intros H1 H2.
  apply (Z.mul_le_mono_pos_r _ _ (Z.pos d2)); [lia|].
  transitivity (n2 * Z.pos d1 * Z.pos d3).
  - replace (n1 * Z.pos d3 * Z.pos d2) with (n1 * Z.pos d2 * Z.pos d3) by lia.
    apply Z.mul_le_mono_nonneg_r; lia.
  - replace (n2 * Z.pos d1 * Z.pos d3) with (n2 * Z.pos d3 * Z.pos d1) by lia.
    replace (n3 * Z.pos d1 * Z.pos d2) with (n3 * Z.pos d2 * Z.pos d1) by lia.
    apply Z.mul_le_mono_nonneg_r; lia.
Qed.

Lemma value_leb_total (a b : value) : value_leb a b = true ∨ value_leb b a = true.
Proof.
  destruct a, b; simpl; try (by left); try (by right);
    try apply String.leb_total; rewrite !Z.leb_le; lia.
Qed.

Lemma value_leb_refl (a : value) : value_leb a a = true.
Proof. by destruct (value_leb_total a a). Qed.

Lemma value_leb_trans (a b c : value) :
  value_leb a b = true → value_leb b c = true → value_leb a c = true.
Proof.
  destruct a, b, c; simpl; try done; try apply string_leb_trans;
    rewrite !Z.leb_le; try lia; try apply q_le_trans;
    intros; eapply q_le_trans; eauto.
Qed.

Lemma lex_leb_total (a b : list value) : lex_leb a b = true ∨ lex_leb b a = true.
Proof.
  revert b. induction a as [|x a IH]; intros [|y b]; simpl; auto.
  destruct (value_leb_total x y) as [H|H]; rewrite H; simpl;
    destruct (value_leb y x) eqn:H1, (value_leb x y) eqn:H2; simpl; auto; done.
Qed.

Lemma lex_leb_trans (a b c : list value) :
  lex_leb a b = true → lex_leb b c = true → lex_leb a c = true.
Proof.
  revert b c. induction a as [|x a IH]; intros [|y b] [|z c]; simpl; try done.
  destruct (value_leb y x) eqn:Hyx, (value_leb x y) eqn:Hxy; simpl; try done;
    destruct (value_leb z y) eqn:Hzy, (value_leb y z) eqn:Hyz; simpl; try done;
    destruct (value_leb z x) eqn:Hzx, (value_leb x z) eqn:Hxz; simpl; try done;
    try (intros; by eapply IH);
    try (destruct (value_leb_total x y); congruence);
    try (destruct (value_leb_total y z); congruence);
    try (destruct (value_leb_total x z); congruence);
    repeat match goal with
           | H1 : value_leb ?a ?b = true, H2 : value_leb ?b ?c = true |- _ =>
               lazymatch goal with
               | _ : value_leb a c = true |- _ => fail
               | _ => pose proof (value_leb_trans a b c H1 H2)
               end
           end;
    congruence.
Qed.

(** ** Sorting *)

Section sorting_facts.

Context {A : Type} (leb : A -> A -> bool).
Hypothesis leb_total : ∀ x y, leb x y = true ∨ leb y x = true.
Hypothesis leb_trans : ∀ x y z, leb x y = true → leb y z = true → leb x z = true.

Lemma insert_by_perm (x : A) (l : list A) : insert_by leb x l ≡ₚ x :: l.
Proof.
  induction l as [|y l IH]; simpl; [done|].
  destruct (leb x y); [done|]. rewrite IH. apply perm_swap.
Qed.

Lemma stable_sort_perm (l : list A) : stable_sort leb l ≡ₚ l.
Proof.
  induction l as [|x l IH]; simpl; [done|].
  fold (stable_sort leb l). by rewrite insert_by_perm, IH.
Qed.

Lemma insert_by_sorted (x : A) (l : list A) :
  StronglySorted (fun a b => leb a b = true) l →
  StronglySorted (fun a b => leb a b = true) (insert_by leb x l).
Proof using leb_trans leb_total.
  induction 1 as [|y l Hl IH Hy]; simpl.
  - repeat constructor.
  - destruct (leb x y) eqn:Hxy.
    + constructor; [by constructor|]. constructor; [done|].
      eapply Forall_impl; [done|]. intros z Hz. by eapply leb_trans.
    + constructor; [done|].
      rewrite (Forall_forall (fun b => leb y b = true)).
      intros z Hz.
      rewrite insert_by_perm in Hz. apply elem_of_cons in Hz as [->|Hz].
      * by destruct (leb_total x y) as [H|H]; [rewrite H in Hxy|].
      * rewrite Forall_forall in Hy. by apply Hy.
Qed.

Lemma stable_sort_sorted (l : list A) :
  StronglySorted (fun a b => leb a b = true) (stable_sort leb l).
Proof using leb_trans leb_total.
  induction l as [|x l IH]; simpl; [constructor|].
  by apply insert_by_sorted.
Qed.

End sorting_facts.

Lemma StronglySorted_lookup {A} (R : A -> A -> Prop) (l : list A) (i j : nat) (x y : A) :
  StronglySorted R l → (i < j)%nat → l !! i = Some x → l !! j = Some y → R x y.
Proof.
  intros Hs. revert i j. induction Hs as [|a l Hs IH Ha]; intros i j Hij Hi Hj; [done|].
  destruct j as [|j]; [lia|]. simpl in Hj. destruct i as [|i]; simpl in Hi.
  - injection Hi as <-. rewrite Forall_forall in Ha.
    apply Ha. by eapply list_elem_of_lookup_2.
  - apply (IH i j); [lia|done..].
Qed.

Lemma StronglySorted_impl {A} (R1 R2 : A -> A -> Prop) (l : list A) :
  (∀ a b, R1 a b → R2 a b) → StronglySorted R1 l → StronglySorted R2 l.
Proof.
  intros Himpl. induction 1 as [|x l Hs IH Hx]; constructor; [done|].
  eapply Forall_impl; [done|]. intros y. apply Himpl.
Qed.

Lemma stable_sort_strict {A} (leb : A -> A -> bool) (l : list A) :
  (∀ x y, leb x y = true ∨ leb y x = true) →
  (∀ x y z, leb x y = true → leb y z = true → leb x z = true) →
  StronglySorted (fun a b => eqvb leb a b = false) l →
  StronglySorted (fun a b => leb a b = true ∧ leb b a = false) (stable_sort leb l).
Proof.
  intros Htot Htrans Hl.
  assert (∀ l' : list A, l' ≡ₚ l →
            ∀ i j a b, l' !! i = Some a → l' !! j = Some b →
                       eqvb leb a b = true → i = j) as Hdist.
  { intros l' Hperm.
    apply Permutation_inj in Hperm as (Hlen & f & Hinj & Hf).
    assert (∀ i j a b, (i < j)%nat → l !! i = Some a → l !! j = Some b →
                       eqvb leb a b = false) as Hlt.
    { intros i j a b Hij Hi Hj.
      apply (StronglySorted_lookup _ l i j a b Hl Hij Hi Hj). }
    intros i j a b Hi Hj Hab. rewrite Hf in Hi, Hj.
    apply Hinj. destruct (Nat.lt_total (f i) (f j)) as [Hc|[Hc|Hc]]; [|done|].
    - by rewrite (Hlt _ _ _ _ Hc Hi Hj) in Hab.
    - unfold eqvb in *. rewrite andb_comm in Hab.
      by rewrite (Hlt _ _ _ _ Hc Hj Hi) in Hab. }
  specialize (Hdist _ (stable_sort_perm leb l)).
  pose proof (stable_sort_sorted leb Htot Htrans l) as Hs.
  revert Hdist. induction Hs as [|x l' Hs IH Hx]; intros Hdist; constructor.
  - apply IH. intros i j a b Hi Hj Hab.
    assert (S i = S j) by (by eapply Hdist). lia.
  - rewrite Forall_forall in Hx |- *. intros y Hy. split; [by apply Hx|].
    apply list_elem_of_lookup in Hy as [j Hj].
    destruct (leb y x) eqn:Hyx; [|done].
    assert (0%nat = S j) as Habs; [|done].
    eapply (Hdist 0%nat (S j) x y); [done..|].
    unfold eqvb. rewrite Hyx, andb_true_r. apply Hx. by eapply list_elem_of_lookup_2.
Qed.

Lemma strict_sorted_eq {A} (R : A -> A -> Prop) (l1 l2 : list A) :
  (∀ a b, R a b → R b a → False) →
  StronglySorted R l1 → StronglySorted R l2 →
  (∀ x, x ∈ l1 ↔ x ∈ l2) → l1 = l2.
Proof.
  intros Hasym H1. revert l2.
  induction H1 as [|a l1 H1 IH Ha]; intros l2 H2 Hel.
  - destruct l2 as [|b l2]; [done|]. exfalso.
    assert (b ∈ []) as Hb by (apply Hel; by left). by apply elem_of_nil in Hb.
  - destruct H2 as [|b l2 H2 Hb].
    { exfalso. assert (a ∈ []) as Hin by (apply Hel; by left).
      by apply elem_of_nil in Hin. }
    rewrite Forall_forall in Ha, Hb.
    assert (a = b) as <-.
    { assert (a ∈ b :: l2) as Hab by (apply Hel; by left).
      assert (b ∈ a :: l1) as Hba by (apply Hel; by left).
      apply elem_of_cons in Hab as [?|Hab]; [done|].
      apply elem_of_cons in Hba as [?|Hba]; [done|].
      exfalso. by apply (Hasym a b); [apply Ha|apply Hb]. }
    f_equal. apply IH; [done|]. intros x. split; intros Hx.
    + assert (x ∈ a :: l2) as Hin by (apply Hel; by right).
      apply elem_of_cons in Hin as [->|?]; [|done].
      exfalso. by apply (Hasym a a); apply Ha.
    + assert (x ∈ a :: l1) as Hin by (apply Hel; by right).
      apply elem_of_cons in Hin as [->|?]; [|done].
      exfalso. by apply (Hasym a a); apply Hb.
Qed.

(** ** Grouping *)

Section nub_facts.

Context {A : Type} (eqb : A -> A -> bool).
Hypothesis eqb_refl : ∀ x, eqb x x = true.
Hypothesis eqb_sym : ∀ x y, eqb x y = eqb y x.
Hypothesis eqb_trans : ∀ x y z, eqb x y = true → eqb y z = true → eqb x z = true.

Lemma nub_by_elem (x : A) (l : list A) : x ∈ nub_by eqb l → x ∈ l.
Proof. clear int_of_str api_key Timedelta.
  induction l as [|a l IH]; simpl; [done|].
  rewrite !elem_of_cons, list_elem_of_filter. naive_solver.
Qed.

Lemma nub_by_rep (x : A) (l : list A) :
  x ∈ l → ∃ y, y ∈ nub_by eqb l ∧ eqb y x = true.
Proof using eqb_trans eqb_refl.
  induction l as [|a l IH]; simpl; [by intros ?%elem_of_nil|].
  intros [->|Hx]%elem_of_cons.
  - exists a. split; [by left|apply eqb_refl].
  - destruct (IH Hx) as (y & Hy & Hyx).
    destruct (eqb a y) eqn:Hay.
    + exists a. split; [by left|]. by eapply eqb_trans.
    + exists y. split; [|done]. right. by apply list_elem_of_filter.
Qed.

Lemma nub_by_distinct (l : list A) :
  StronglySorted (fun a b => eqb a b = false) (nub_by eqb l).
Proof.
  induction l as [|a l IH]; simpl; constructor.
  - clear -IH. induction IH as [|b l' Hs IH' Hb]; [constructor|].
    rewrite filter_cons. destruct (decide (eqb a b = false)); [|done].
    constructor; [done|].
    rewrite Forall_forall in Hb |- *. intros y [_ Hy]%list_elem_of_filter.
    by apply Hb.
  - rewrite Forall_forall. by intros y [Hy _]%list_elem_of_filter.
Qed.

End nub_facts.

Lemma eqvb_refl {A} (leb : A -> A -> bool) (x : A) :
  (∀ x y, leb x y = true ∨ leb y x = true) → eqvb leb x x = true.
Proof. intros Htot. unfold eqvb. by destruct (Htot x x) as [->| ->]. Qed.

Lemma eqvb_sym {A} (leb : A -> A -> bool) (x y : A) : eqvb leb x y = eqvb leb y x.
Proof. unfold eqvb. apply andb_comm. Qed.

Lemma eqvb_trans {A} (leb : A -> A -> bool) (x y z : A) :
  (∀ x y z, leb x y = true → leb y z = true → leb x z = true) →
  eqvb leb x y = true → eqvb leb y z = true → eqvb leb x z = true.
Proof.
  intros Htrans. unfold eqvb.
  intros [H1 H2]%andb_prop [H3 H4]%andb_prop.
  apply andb_true_intro. split; by eapply Htrans.
Qed.

(** ** Tables built from records *)

Lemma filter_id {A} (P : A -> Prop) `{∀ x, Decision (P x)} (l : list A) :
  (∀ x, x ∈ l → P x) → filter P l = l.
Proof.
  induction l as [|a l IH]; intros Hall; [done|].
  rewrite filter_cons_True by (apply Hall; by left).
  f_equal. apply IH. intros x Hx. apply Hall. by right.
Qed.

Lemma elem_of_first_seen (y : string) (l : list string) :
  y ∈ first_seen l ↔ y ∈ l.
Proof. clear int_of_str Timedelta.
  induction l as [|x l IH]; simpl; [done|].
  rewrite !elem_of_cons, list_elem_of_filter, IH.
  destruct (decide (y = x)); naive_solver.
Qed.

Lemma NoDup_first_seen (l : list string) : NoDup (first_seen l).
Proof. clear int_of_str Timedelta.
  induction l as [|x l IH]; simpl; constructor.
  - rewrite list_elem_of_filter. naive_solver.
  - by apply NoDup_filter.
Qed.

Lemma first_seen_NoDup (l : list string) : NoDup l → first_seen l = l.
Proof.
  induction 1 as [|x l Hx _ IH]; simpl; [done|].
  rewrite IH. f_equal. apply filter_id. intros y Hy ->. done.
Qed.

Lemma first_seen_app (l1 l2 : list string) :
  first_seen (l1 ++ l2) = first_seen l1 ++ filter (fun y => y ∉ l1) (first_seen l2).
Proof. clear int_of_str Timedelta.
  induction l1 as [|x l1 IH]; simpl.
  - symmetry. apply filter_id. intros y _. apply not_elem_of_nil.
  - rewrite IH, filter_app, list_filter_filter. f_equal. f_equal.
    apply list_filter_iff. intros y. rewrite elem_of_cons. naive_solver.
Qed.

Lemma first_seen_app_idemp (l1 l2 : list string) :
  first_seen (first_seen l1 ++ l2) = first_seen (l1 ++ l2).
Proof.
  rewrite !first_seen_app, (first_seen_NoDup _ (NoDup_first_seen l1)).
  f_equal. apply list_filter_iff. intros y. by rewrite elem_of_first_seen.
Qed.

Lemma index_of_Some (c : string) (l : list string) (i : nat) :
  index_of c l = Some i → l !! i = Some c.
Proof.
  revert i. induction l as [|x l IH]; intros i; simpl; [done|].
  destruct (decide (x = c)) as [->|Hne].
  - by intros [= <-].
  - destruct (index_of c l) as [j|]; simpl; [|done].
    intros [= <-]. by apply IH.
Qed.

Lemma index_of_None (c : string) (l : list string) :
  index_of c l = None → c ∉ l.
Proof. clear int_of_str Timedelta.
  induction l as [|x l IH]; simpl; [intros _; apply not_elem_of_nil|].
  destruct (decide (x = c)) as [->|Hne]; [done|].
  destruct (index_of c l); simpl; [done|].
  intros _. rewrite elem_of_cons. naive_solver.
Qed.

Lemma assoc_None {A} (k : string) (r : list (string * A)) :
  k ∉ map fst r → assoc k r = None.
Proof. clear int_of_str Timedelta.
  induction r as [|[k' v] r IH]; simpl; [done|].
  rewrite elem_of_cons. intros Hk.
  destruct (decide (k' = k)) as [->|_]; [naive_solver|].
  apply IH. naive_solver.
Qed.

(** Stacking tables built from chunks of records gives the table built
    from all the records. *)
Lemma pd_concat_DataFrame_of (chunks : list (list record)) :
  pd_concat (map DataFrame_of chunks) = DataFrame_of (concat chunks).
Proof.
  assert (∀ cs : list (list record),
            first_seen (flat_map columns (map DataFrame_of cs))
            = first_seen (flat_map (map fst) (concat cs))) as Hcols.
  { induction cs as [|c cs IH]; simpl; [done|].
    rewrite first_seen_app_idemp, flat_map_app, !first_seen_app. by rewrite IH. }
  unfold pd_concat. rewrite Hcols.
  unfold DataFrame_of at 2. f_equal.
  set (cols := first_seen (flat_map (map fst) (concat chunks))).
  assert (∀ cs : list (list record),
            flat_map (fun df => map (reindex_row (columns df) cols) (rows df))
                     (map DataFrame_of cs)
            = map (fun r => map (fun c => default VNull (assoc c r)) cols) (concat cs))
    as Hrows; [|apply Hrows].
  induction cs as [|c cs IH]; simpl; [done|].
  rewrite IH, map_app. f_equal.
  rewrite map_map. apply map_ext_in. intros r Hr.
  unfold reindex_row. apply map_ext. intros col.
  destruct (index_of col _) as [i|] eqn:Hi.
  - apply index_of_Some in Hi. unfold cell_at.
    rewrite nth_lookup, list_lookup_fmap, Hi. done.
  - apply index_of_None in Hi. rewrite elem_of_first_seen in Hi.
    rewrite assoc_None; [done|]. intros Hin. apply Hi.
    apply list_elem_of_In, in_flat_map. exists r. split; [done|].
    by apply list_elem_of_In.
Qed.

(** ** Columns *)

Lemma positions_from_notin (n : nat) (c : string) (l : list string) :
  c ∉ l → positions_from n c l = [].
Proof.
  revert n. induction l as [|x l IH]; intros n Hc; simpl; [done|].
  rewrite not_elem_of_cons in Hc. destruct Hc as [Hne Hc].
  destruct (decide (x = c)); [congruence|]. by apply IH.
Qed.

Lemma positions_from_elem (n i : nat) (c : string) (l : list string) :
  i ∈ positions_from n c l ↔ (n ≤ i)%nat ∧ l !! (i - n)%nat = Some c.
Proof. clear int_of_str Timedelta.
  revert n. induction l as [|x l IH]; intros n; simpl.
  - rewrite elem_of_nil. naive_solver.
  - destruct (decide (x = c)) as [->|Hne].
    + rewrite elem_of_cons, IH. split.
      * intros [->|[Hle Hl]]; [by rewrite Nat.sub_diag|].
        split; [lia|]. by replace (i - n)%nat with (S (i - S n)) by lia.
      * intros [Hle Hl]. destruct (decide (i = n)) as [->|]; [by left|right].
        split; [lia|]. by replace (i - n)%nat with (S (i - S n)) in Hl by lia.
    + rewrite IH. split.
      * intros [Hle Hl]. split; [lia|].
        by replace (i - n)%nat with (S (i - S n)) by lia.
      * intros [Hle Hl]. destruct (decide (i = n)) as [->|].
        -- rewrite Nat.sub_diag in Hl. simpl in Hl. congruence.
        -- split; [lia|]. by replace (i - n)%nat with (S (i - S n)) in Hl by lia.
Qed.

Lemma col_pos_Ok (df : DataFrame) (c : string) (i : nat) :
  col_pos df c = Ok i → columns df !! i = Some c.
Proof.
  unfold col_pos, positions. intros H.
  destruct (positions_from 0 c (columns df)) as [|j [|]] eqn:Hp; try done.
  injection H as <-.
  assert (j ∈ positions_from 0 c (columns df)) as Hj by (rewrite Hp; by left).
  apply positions_from_elem in Hj as [_ Hj]. by rewrite Nat.sub_0_r in Hj.
Qed.

Lemma col_pos_elem (df : DataFrame) (c : string) (i : nat) :
  col_pos df c = Ok i → c ∈ columns df.
Proof. intros H%col_pos_Ok. by eapply list_elem_of_lookup_2. Qed.

Lemma col_pos_head (c : string) (cols : list string) (rws : list (list value)) :
  c ∉ cols → col_pos {| columns := c :: cols; rows := rws |} c = Ok 0%nat.
Proof.
  intros Hc. unfold col_pos, positions. simpl.
  destruct (decide (c = c)); [|done]. by rewrite positions_from_notin.
Qed.

Lemma res_all_map_Ok {A B} (f : A -> res B) (g : A -> B) (l : list A) :
  (∀ x, x ∈ l → f x = Ok (g x)) → res_all (map f l) = Ok (map g l).
Proof.
  induction l as [|x l IH]; intros Hall; simpl; [done|].
  rewrite (Hall x) by (by left). simpl.
  rewrite IH; [done|]. intros y Hy. apply Hall. by right.
Qed.

Lemma res_all_Forall2 {A B} (f : A -> res B) (l : list A) (ys : list B) :
  res_all (map f l) = Ok ys ↔ Forall2 (fun x y => f x = Ok y) l ys.
Proof.
  revert ys. induction l as [|x l IH]; intros ys; simpl.
  - split; [intros [= <-]; constructor | by intros ->%Forall2_nil_inv_l].
  - destruct (f x) as [y|e] eqn:Hx; simpl.
    + destruct (res_all (map f l)) as [ys'|e] eqn:Hl; simpl.
      * split.
        -- intros [= <-]. constructor; [done|]. by apply IH.
        -- intros (y' & ys'' & Hy & Hys & ->)%Forall2_cons_inv_l.
           apply IH in Hys. congruence.
      * split; [done|].
        intros (y' & ys'' & Hy & Hys & ->)%Forall2_cons_inv_l.
        apply IH in Hys. congruence.
    + split; [done|].
      intros (y' & ys'' & Hy & Hys & ->)%Forall2_cons_inv_l. congruence.
Qed.

Lemma zip_with_cons_head (vals : list value) (rws : list (list value)) :
  length vals = length rws →
  map (fun r => cell_at r 0) (zip_with (fun v r => v :: r) vals rws) = vals.
Proof.
  revert rws. induction vals as [|v vals IH]; intros [|r rws]; simpl; try done.
  intros [= Hlen]. by rewrite IH.
Qed.

Lemma drop_where_all (c : string) (cols : list string) {A} (l : list A) :
  c ∉ cols → length l = length cols →
  drop_where (map (fun x => bool_decide (x ≠ c)) cols) l = l.
Proof.
  revert l. induction cols as [|x cols IH]; intros [|y l] Hc Hlen; simpl in *; try done.
  rewrite not_elem_of_cons in Hc. destruct Hc as [Hne Hc].
  rewrite bool_decide_eq_true_2 by done. f_equal. apply IH; [done|lia].
Qed.

Lemma drop_where_unique (c : string) (cols : list string) {A} (l : list A) (n i : nat) :
  positions_from n c cols = [(n + i)%nat] → length l = length cols →
  drop_where (map (fun x => bool_decide (x ≠ c)) cols) l = delete i l.
Proof. clear int_of_str Timedelta.
  revert l n i. induction cols as [|x cols IH]; intros [|y l] n i Hp Hlen;
    simpl in *; try done.
  destruct (decide (x = c)) as [->|Hne].
  - rewrite bool_decide_eq_false_2 by naive_solver.
    injection Hp as Hi Hp. assert (i = 0%nat) as -> by lia. simpl.
    apply drop_where_all; [|lia].
    intros [j Hj]%list_elem_of_lookup.
    assert ((S n + j)%nat ∈ positions_from (S n) c cols) as Hin.
    { apply positions_from_elem. split; [lia|].
      by replace (S n + j - S n)%nat with j by lia. }
    rewrite Hp in Hin. by apply elem_of_nil in Hin.
  - rewrite bool_decide_eq_true_2 by done.
    assert ((n + i)%nat ∈ positions_from (S n) c cols) as Hin
      by (rewrite Hp; by left).
    apply positions_from_elem in Hin as [Hle _].
    destruct i as [|i]; [lia|]. simpl. f_equal.
    apply (IH l (S n) i); [|lia]. by replace (S n + i)%nat with (n + S i)%nat by lia.
Qed.

Lemma col_pos_unique (df : DataFrame) (c : string) (i j : nat) :
  col_pos df c = Ok i → columns df !! j = Some c → j = i.
Proof.
  unfold col_pos, positions. intros H Hj.
  destruct (positions_from 0 c (columns df)) as [|i' [|]] eqn:Hp; try done.
  injection H as <-.
  assert (j ∈ positions_from 0 c (columns df)) as Hin.
  { apply positions_from_elem. split; [lia|]. by rewrite Nat.sub_0_r. }
  rewrite Hp in Hin. by apply list_elem_of_singleton in Hin.
Qed.

Lemma col_pos_positions (df : DataFrame) (c : string) (i : nat) :
  col_pos df c = Ok i → positions_from 0 c (columns df) = [(0 + i)%nat].
Proof.
  unfold col_pos, positions. intros H.
  destruct (positions_from 0 c (columns df)) as [|i' [|]] eqn:Hp; try done.
  by injection H as <-.
Qed.

Lemma cell_at_set_cell_eq (p : nat) (x : value) (r : list value) :
  cell_at (set_cell p x r) p = x.
Proof.
  unfold cell_at, set_cell. rewrite nth_lookup.
  destruct (decide (p ≤ length r)%nat).
  - replace (p - length r)%nat with 0%nat by lia. simpl.
    rewrite lookup_app_r by (rewrite length_take; lia).
    rewrite length_take. by replace (p - p `min` length r)%nat with 0%nat by lia.
  - rewrite lookup_app_r by (rewrite length_take; lia).
    rewrite length_take, lookup_app_r by (rewrite length_replicate; lia).
    rewrite length_replicate.
    by replace (p - p `min` length r - (p - length r))%nat with 0%nat by lia.
Qed.

Lemma cell_at_set_cell_ne (p q : nat) (x : value) (r : list value) :
  p ≠ q → cell_at (set_cell p x r) q = cell_at r q.
Proof.
  intros Hne. unfold cell_at, set_cell. rewrite !nth_lookup.
  destruct (decide (q < p)%nat) as [Hlt|Hge].
  - destruct (decide (q < length r)%nat).
    + rewrite lookup_app_l by (rewrite length_take; lia).
      by rewrite lookup_take_lt.
    + rewrite (lookup_ge_None_2 r q) by lia.
      rewrite lookup_app_r by (rewrite length_take; lia).
      rewrite length_take, lookup_app_l by (rewrite length_replicate; lia).
      rewrite lookup_replicate_2; [done|lia].
  - rewrite lookup_app_r by (rewrite length_take; lia).
    rewrite length_take.
    destruct (decide (p ≤ length r)%nat).
    + replace (p - length r)%nat with 0%nat by lia. simpl.
      replace (q - p `min` length r)%nat with (S (q - S p)) by lia. simpl.
      rewrite lookup_drop. f_equal. f_equal. lia.
    + rewrite lookup_app_r by (rewrite length_replicate; lia).
      rewrite length_replicate.
      replace (q - p `min` length r - (p - length r))%nat with (S (q - S p)) by lia.
      simpl. rewrite lookup_drop, !lookup_ge_None_2 by lia. done.
Qed.

Lemma StronglySorted_Forall2 {A B} (P : A -> B -> Prop) (R1 : A -> A -> Prop)
    (R2 : B -> B -> Prop) (l1 : list A) (l2 : list B) :
  (∀ a b a' b', P a a' → P b b' → R1 a b → R2 a' b') →
  Forall2 P l1 l2 → StronglySorted R1 l1 → StronglySorted R2 l2.
Proof.
  intros HR HP. induction HP as [|a a' l1 l2 Ha HP IH]; intros Hs; [constructor|].
  inversion Hs as [|? ? Hs' Hall]; subst. constructor; [by apply IH|].
  rewrite Forall_forall in Hall. rewrite Forall_forall.
  intros b' [i Hi]%list_elem_of_lookup.
  destruct (Forall2_lookup_r _ _ _ _ _ HP Hi) as (b & Hb & Hbb').
  eapply HR; [done..|]. apply Hall. by eapply list_elem_of_lookup_2.
Qed.

(** ** Leaving rows out *)





(** ** The thread pool *)

Section pool_facts.

Context (url : string) (hd : headers_t) (o : list (string * json)).
Context (pages : list Z) (n_workers : Z) (rq0 : request).
Hypothesis hd_params : hd !! "X-Params" = Some (json_dumps (JObj o)).

Local Abbreviation inv := (pool_inv url hd o pages rq0).
Local Abbreviation fok := (frame_ok url hd o).
Local Abbreviation nxt := (next_frame url hd o).

Lemma set_frame_same (f : future) : set_frame f (f_at f) = f.
Proof. by destruct f. Qed.

Lemma advance_spec (f : future) (h : heap_t) (i : nat) :
  f_url f = url → f_headers f = S i → f_page_size f = page_size →
  fok (h !! S i) (f_page f) (f_at f) →
  advance f h =
    (set_frame f (nxt (f_page f) (f_at f)),
     match f_at f with
     | AtDumps _ => <[S i := page_headers hd o (f_page f)]> h
     | _ => h
     end,
     match f_at f with
     | AtFetch => [page_request url hd o (f_page f)]
     | _ => []
     end).
Proof using hd_params.
  intros Hu Hl Hs Hok. unfold advance.
  destruct (f_at f) as [|p|p| |r] eqn:Hat; simpl in *.
  - unfold heap_getitem. rewrite Hl, Hok, hd_params. done.
  - destruct Hok as [-> _]. simpl. by rewrite Hs.
  - destruct Hok as [-> Hcell]. unfold heap_setitem. rewrite Hl, Hcell. done.
  - rewrite Hl, Hok, Hu. done.
  - destruct Hok as [-> _]. by rewrite <- Hat, set_frame_same.
Qed.

Lemma fok_next (cell : option headers_t) (page : Z) (fr : frame) :
  fok cell page fr →
  fok (match fr with AtDumps _ => Some (page_headers hd o page) | _ => cell end)
      page (nxt page fr).
Proof. clear rq0 int_of_str Timedelta. destruct fr; simpl; naive_solver. Qed.

Lemma work_length (i : nat) (st : pool) :
  length (futures (work n_workers i st)) = length (futures st).
Proof.
  unfold work. destruct (futures st !! i); [|done].
  destruct (may_work _ _ _ _); [|done].
  destruct (advance _ _) as [[f' h'] rqs]. simpl. by rewrite length_insert.
Qed.

Lemma work_other (i j : nat) (st : pool) :
  i ≠ j → futures (work n_workers i st) !! j = futures st !! j.
Proof.
  intros Hne. unfold work. destruct (futures st !! i); [|done].
  destruct (may_work _ _ _ _); [|done].
  destruct (advance _ _) as [[f' h'] rqs]. simpl. by rewrite list_lookup_insert_ne.
Qed.

Lemma inv_init : inv (mkPool {[ 0%nat := hd ]} 1%nat pages [] [rq0] []).
Proof.
  constructor; simpl; try done.
  - constructor.
  - intros i. split; [by intros ?%elem_of_nil | by intros (f & ? & _)].
Qed.

Lemma inv_submit (st : pool) : inv st → inv (submit url 0%nat st).
Proof.
  intros [Hb Hn Ht Hf Hq Hnd Hc Hr]. unfold submit.
  destruct (todo st) as [|page rest] eqn:Htodo;
    [constructor; try done; by rewrite Htodo|].
  assert (pages !! length (futures st) = Some page) as Hpage.
  { pose proof (lookup_drop pages (length (futures st)) 0) as Hd.
    rewrite <- Ht, Nat.add_0_r in Hd. by rewrite <- Hd. }
  unfold heap_copy. rewrite Hb, Hn.
  constructor; simpl.
  - by rewrite lookup_insert_ne.
  - rewrite length_app. simpl. lia.
  - rewrite length_app. simpl. rewrite Nat.add_1_r.
    rewrite (drop_S _ _ _ Hpage) in Ht. by simplify_eq.
  - intros i f Hi. apply lookup_app_Some in Hi as [Hi|[Hge Hi]].
    + pose proof (lookup_lt_Some _ _ _ Hi).
      rewrite lookup_insert_ne by lia. by apply Hf.
    + destruct (i - length (futures st))%nat as [|n] eqn:Hdiff; [|done].
      simpl in Hi. simplify_eq. simpl.
      assert (i = length (futures st)) as -> by lia.
      by rewrite lookup_insert_eq.
  - intros i j f g Hij Hi Hj Hp.
    apply lookup_app_Some in Hj as [Hj|[Hge Hj]].
    + apply lookup_app_Some in Hi as [Hi|[Hge Hi]]; [by eapply Hq|].
      pose proof (lookup_lt_Some _ _ _ Hj). lia.
    + destruct (j - length (futures st))%nat as [|n] eqn:Hdiff; [|done].
      simpl in Hj. by simplify_eq.
  - done.
  - intros i. rewrite Hc. split; intros (f & Hi & Hd).
    + exists f. split; [|done]. by apply lookup_app_l_Some.
    + apply lookup_app_Some in Hi as [Hi|[Hge Hi]]; [by exists f|].
      destruct (i - length (futures st))%nat as [|n]; [|done].
      simpl in Hi. by simplify_eq.
  - done.
Qed.

Lemma nxt_not_pending (f : future) (page : Z) :
  is_pending (set_frame f (nxt page (f_at f))) = false.
Proof. unfold is_pending. simpl. by destruct (f_at f). Qed.

Lemma work_spec (i : nat) (st : pool) (f : future) :
  inv st → futures st !! i = Some f →
  may_work n_workers (futures st) i f = true →
  work n_workers i st =
    {| heap := match f_at f with
               | AtDumps _ => <[S i := page_headers hd o (f_page f)]> (heap st)
               | _ => heap st
               end;
       next_loc := next_loc st;
       todo := todo st;
       futures := <[i := set_frame f (nxt (f_page f) (f_at f))]> (futures st);
       requests := requests st ++ match f_at f with
                                  | AtFetch => [page_request url hd o (f_page f)]
                                  | _ => []
                                  end;
       completed := match f_at f with
                    | AtFetch => completed st ++ [i]
                    | _ => completed st
                    end |}.
Proof using hd_params.
  intros Hinv Hi Hmay. unfold work. rewrite Hi, Hmay.
  destruct (inv_fut _ _ _ _ _ _ Hinv i f Hi) as (Hu & Hl & _ & Hs & Hok).
  rewrite (advance_spec f (heap st) i Hu Hl Hs Hok).
  f_equal. unfold is_done. simpl. by destruct (f_at f).
Qed.

Lemma inv_work (i : nat) (st : pool) : inv st → inv (work n_workers i st).
Proof using hd_params. clear int_of_str api_key Timedelta.
  intros Hinv.
  destruct (futures st !! i) as [f|] eqn:Hi; [|by unfold work; rewrite Hi].
  destruct (may_work n_workers (futures st) i f) eqn:Hmay;
    [|by unfold work; rewrite Hi, Hmay].
  rewrite (work_spec i st f Hinv Hi Hmay).
  pose proof Hinv as [Hb Hn Ht Hf Hq Hnd Hc Hr].
  destruct (Hf i f Hi) as (Hu & Hl & Hpg & Hs & Hok).
  pose proof (lookup_lt_Some _ _ _ Hi) as Hlt.
  constructor; simpl.
  - destruct (f_at f); try done. by rewrite lookup_insert_ne.
  - by rewrite length_insert.
  - by rewrite length_insert.
  - intros j g Hj. destruct (decide (i = j)) as [<-|Hne].
    + rewrite list_lookup_insert_eq in Hj by done. injection Hj as <-. simpl.
      repeat (split; [done|]).
      pose proof (fok_next _ _ _ Hok) as Hok'.
      destruct (f_at f); simpl in *; try done. by rewrite lookup_insert_eq.
    + rewrite list_lookup_insert_ne in Hj by done.
      destruct (Hf j g Hj) as (? & ? & ? & ? & Hokj).
      repeat (split; [done|]).
      destruct (f_at f); try done. rewrite lookup_insert_ne by lia. done.
  - intros a b fa gb Hab Ha Hb' Hp.
    destruct (decide (i = a)) as [<-|Hna].
    { rewrite list_lookup_insert_eq in Ha by done. injection Ha as <-.
      by rewrite nxt_not_pending in Hp. }
    rewrite list_lookup_insert_ne in Ha by done.
    destruct (decide (i = b)) as [<-|Hnb].
    { exfalso. unfold may_work in Hmay.
      destruct (is_pending f) eqn:Hpf.
      - apply andb_prop in Hmay as [_ Hall].
        rewrite forallb_forall in Hall.
        assert (take i (futures st) !! a = Some fa) as Hin.
        { rewrite lookup_take_lt by lia. done. }
        apply list_elem_of_lookup_2, list_elem_of_In, Hall in Hin.
        by rewrite Hp in Hin.
      - by rewrite (Hq a i fa f Hab Ha Hi Hp) in Hpf. }
    rewrite list_lookup_insert_ne in Hb' by done. by eapply Hq.
  - destruct (f_at f) eqn:Hat; try done.
    apply NoDup_app. split; [done|]. split; [|apply NoDup_singleton].
    intros j Hj ->%list_elem_of_singleton.
    apply Hc in Hj as (g & Hg & Hd). rewrite Hi in Hg. injection Hg as <-.
    unfold is_done in Hd. by rewrite Hat in Hd.
  - intros j. destruct (decide (i = j)) as [<-|Hne].
    + rewrite list_lookup_insert_eq by done. split.
      * intros Hj. eexists; split; [done|].
        unfold is_done. simpl.
        destruct (f_at f) eqn:Hat; simpl; try done.
        all: apply Hc in Hj as (g & Hg & Hd); rewrite Hi in Hg; injection Hg as <-;
          unfold is_done in Hd; by rewrite Hat in Hd.
      * intros (g & [= <-] & Hd). unfold is_done in Hd. simpl in Hd.
        destruct (f_at f) eqn:Hat; simpl in Hd; try done.
        -- set_solver.
        -- apply Hc. exists f. split; [done|]. unfold is_done. by rewrite Hat.
    + rewrite list_lookup_insert_ne by done. rewrite <- Hc.
      destruct (f_at f); try done. set_solver.
  - rewrite Hr. destruct (f_at f); rewrite ?app_nil_r; try done.
    rewrite map_app. simpl. by rewrite Hpg.
Qed.

Lemma inv_exec (a : action) (st : pool) : inv st → inv (exec url 0%nat n_workers a st).
Proof using hd_params. destruct a; simpl; [apply inv_submit | apply inv_work]. Qed.

Lemma inv_run (sched : list action) (st : pool) :
  inv st → inv (run url 0%nat n_workers sched st).
Proof using hd_params.
  revert st. unfold run. induction sched as [|a sched IH]; intros st Hinv; simpl; [done|].
  apply IH. by apply inv_exec.
Qed.

Lemma submit_todo (st : pool) : todo (submit url 0%nat st) = tail (todo st).
Proof. unfold submit. destruct (todo st) eqn:Ht; [by rewrite Ht | done]. Qed.

Lemma inv_submit_iter (n : nat) (st : pool) :
  inv st →
  inv (Nat.iter n (submit url 0%nat) st)
  ∧ todo (Nat.iter n (submit url 0%nat) st) = drop n (todo st).
Proof.
  intros Hinv. induction n as [|n [IH1 IH2]]; simpl.
  - by rewrite drop_0.
  - split; [by apply inv_submit|].
    rewrite submit_todo, IH2.
    clear. revert n. induction (todo st) as [|x l IH]; intros [|n]; simpl; done.
Qed.

(** Once the generator is exhausted there is one future per page. *)
Lemma inv_all_submitted (st : pool) :
  inv st → todo st = [] → length (futures st) = length pages.
Proof.
  intros Hinv Ht.
  pose proof (inv_todo _ _ _ _ _ _ Hinv) as Hd. rewrite Ht in Hd.
  assert (length (drop (length (futures st)) pages) = 0%nat) as Hlen
    by (by rewrite <- Hd).
  rewrite length_drop in Hlen.
  destruct (futures st) as [|f fs _] eqn:Hfs using rev_ind; [simpl in *; lia|].
  destruct (inv_fut _ _ _ _ _ _ Hinv (length fs) f) as (_ & _ & Hp & _).
  { rewrite Hfs. by apply list_lookup_middle. }
  apply lookup_lt_Some in Hp. rewrite length_app in *. simpl in *. lia.
Qed.

Lemma inv_submit_rest (st : pool) :
  inv st →
  inv (submit_rest url 0%nat st)
  ∧ length (futures (submit_rest url 0%nat st)) = length pages.
Proof.
  intros Hinv. unfold submit_rest.
  destruct (inv_submit_iter (length (todo st)) st Hinv) as [H1 H2].
  split; [done|]. apply inv_all_submitted; [done|].
  by rewrite H2, drop_all.
Qed.

(** *** Every call runs to its end *)

Lemma running_zero (fs : list future) :
  (∀ g, g ∈ fs → is_running g = false) → running fs = 0%nat.
Proof.
  unfold running. induction fs as [|g fs IH]; intros Hall; [done|].
  rewrite filter_cons. destruct (decide (is_running g = true)) as [Hr|_].
  - rewrite Hall in Hr; [done|]. by left.
  - apply IH. intros g' Hg'. apply Hall. by right.
Qed.

Hypothesis workers_pos : 1 ≤ n_workers.

Lemma may_work_head (i : nat) (st : pool) (f : future) :
  inv st → done_upto st i → futures st !! i = Some f →
  may_work n_workers (futures st) i f = true.
Proof using workers_pos.
  intros Hinv Hdone Hi. unfold may_work.
  destruct (is_pending f) eqn:Hp; [|done].
  apply andb_true_intro. split.
  - apply bool_decide_eq_true. rewrite running_zero; [lia|].
    intros g [j Hj]%list_elem_of_lookup.
    destruct (decide (j < i)%nat) as [Hlt|Hge].
    + unfold is_running. rewrite (Hdone j g Hlt Hj). by rewrite andb_false_r.
    + unfold is_running.
      rewrite (inv_fifo _ _ _ _ _ _ Hinv i j f g); [done|lia|done..].
  - apply forallb_forall. intros g Hg%list_elem_of_In.
    apply list_elem_of_lookup in Hg as [j Hj].
    pose proof (lookup_lt_Some _ _ _ Hj) as Hlt. rewrite length_take in Hlt.
    rewrite lookup_take_lt in Hj by lia.
    assert (is_done g = true) as Hd by (eapply Hdone; [|done]; lia).
    unfold is_done in Hd. unfold is_pending. by destruct (f_at g).
Qed.

Lemma work_advances (i : nat) (st : pool) (f : future) :
  inv st → done_upto st i → futures st !! i = Some f →
  ∃ f', futures (work n_workers i st) !! i = Some f'
        ∧ frame_rank (f_at f') = Nat.min (frame_rank (f_at f) + 1)%nat 4%nat.
Proof using workers_pos hd_params.
  intros Hinv Hdone Hi.
  rewrite (work_spec i st f Hinv Hi (may_work_head i st f Hinv Hdone Hi)). simpl.
  eexists. split.
  - apply list_lookup_insert_eq. by eapply lookup_lt_Some.
  - simpl. by destruct (f_at f).
Qed.

Lemma work_done_upto (i k : nat) (st : pool) :
  (k ≤ i)%nat → done_upto st k → done_upto (work n_workers i st) k.
Proof.
  intros Hle Hdone j f Hj Hf. rewrite work_other in Hf by lia. by eapply Hdone.
Qed.

Lemma work_iter (k i : nat) (st : pool) (f : future) :
  inv st → done_upto st i → futures st !! i = Some f →
  let st' := Nat.iter k (work n_workers i) st in
  inv st' ∧ done_upto st' i ∧ length (futures st') = length (futures st)
  ∧ ∃ f', futures st' !! i = Some f'
          ∧ frame_rank (f_at f') = Nat.min (frame_rank (f_at f) + k)%nat 4%nat.
Proof using workers_pos hd_params.
  intros Hinv Hdone Hi. induction k as [|k IH]; simpl.
  - repeat (split; [done|]). exists f. split; [done|].
    destruct (f_at f); simpl; lia.
  - destruct IH as (Hinv' & Hdone' & Hlen & f' & Hf' & Hrank).
    split; [by apply inv_work|]. split; [by apply work_done_upto|].
    split; [by rewrite work_length|].
    destruct (work_advances i _ f' Hinv' Hdone' Hf') as (f'' & Hf'' & Hrank').
    exists f''. split; [done|]. lia.
Qed.

Lemma finish_from (m i : nat) (st : pool) :
  inv st → done_upto st i → (i + m = length (futures st))%nat →
  let st' := foldl (fun s j => Nat.iter 4 (work n_workers j) s) st (seq i m) in
  inv st' ∧ done_upto st' (i + m) ∧ length (futures st') = length (futures st).
Proof using workers_pos hd_params.
  revert i st. induction m as [|m IH]; intros i st Hinv Hdone Hlen; simpl.
  - by rewrite Nat.add_0_r.
  - destruct (lookup_lt_is_Some_2 (futures st) i) as [f Hf]; [lia|].
    destruct (work_iter 4 i st f Hinv Hdone Hf)
      as (Hinv' & Hdone' & Hlen' & f' & Hf' & Hrank).
    destruct (IH (S i) (Nat.iter 4 (work n_workers i) st)) as (H1 & H2 & H3);
      [done| |simpl in *; lia|].
    + intros j g Hj Hg. destruct (decide (j = i)) as [->|Hne].
      * rewrite Hf' in Hg. injection Hg as <-.
        unfold is_done. destruct (f_at f'), (f_at f); simpl in Hrank; try done; lia.
      * eapply Hdone'; [|done]. lia.
    + split; [done|]. split; [|simpl in *; lia].
      by replace (i + S m)%nat with (S i + m)%nat by lia.
Qed.

(** After the join every page has its future, in page order, and every
    future holds the result of its own page. *)
Lemma join_spec (st : pool) :
  inv st →
  let st' := join url 0%nat n_workers st in
  inv st'
  ∧ map future_result (futures st') = map (page_result url hd o) pages
  ∧ requests st' ≡ₚ rq0 :: map (page_request url hd o) pages.
Proof using workers_pos hd_params.
  intros Hinv. unfold join, finish.
  destruct (inv_submit_rest st Hinv) as [Hinv1 Hlen1].
  set (st1 := submit_rest url 0%nat st) in *.
  destruct (finish_from (length (futures st1)) 0 st1 Hinv1) as (Hinv2 & Hdone & Hlen2);
    [by intros j f Hj; lia | done |].
  set (st2 := foldl _ st1 _) in *. simpl in Hdone. rewrite <- Hlen2 in Hdone.
  rewrite Hlen1 in Hlen2.
  split; [done|]. split.
  - apply list_eq. intros i. rewrite !list_lookup_fmap.
    destruct (futures st2 !! i) as [f|] eqn:Hf; simpl.
    + destruct (inv_fut _ _ _ _ _ _ Hinv2 i f Hf) as (_ & _ & Hp & _ & Hok).
      rewrite Hp. simpl. f_equal.
      pose proof (Hdone i f (lookup_lt_Some _ _ _ Hf) Hf) as Hd.
      unfold is_done, future_result in *.
      destruct (f_at f); try done. by destruct Hok as [-> _].
    + apply lookup_ge_None in Hf. rewrite lookup_ge_None_2; [done|lia].
  - rewrite (inv_requests _ _ _ _ _ _ Hinv2). constructor.
    assert (completed st2 ≡ₚ seq 0 (length pages)) as ->.
    { apply NoDup_Permutation; [by eapply inv_nodup | apply NoDup_seq |].
      intros i. rewrite (inv_completed _ _ _ _ _ _ Hinv2), elem_of_seq. split.
      - intros (f & Hf%lookup_lt_Some & _). lia.
      - intros [_ Hi]. destruct (lookup_lt_is_Some_2 (futures st2) i) as [f Hf]; [lia|].
        exists f. split; [done|]. eapply Hdone; [|done]. lia. }
    assert (map (fun i => page_request url hd o (default 0 (pages !! i)))
                (seq 0 (length pages))
            = map (page_request url hd o) pages) as ->; [|done].
    apply list_eq. intros i. rewrite !list_lookup_fmap.
    destruct (pages !! i) as [p|] eqn:Hp; simpl.
    + rewrite lookup_seq_lt by (by eapply lookup_lt_Some). simpl. by rewrite Hp.
    + rewrite lookup_seq_ge; [done|]. by apply lookup_ge_None.
Qed.

End pool_facts.

(** ** The raw table *)

Lemma headers_of_params (start_str : string) (end_str : option string) :
  headers_of start_str end_str !! "X-Params"
  = Some (json_dumps (JObj (params_items start_str end_str))).
Proof. unfold headers_of. by rewrite lookup_insert_eq. Qed.

(** More than one page, a pool of at least one worker: whatever the
    schedule, the call returns what [paged_fetch_spec] says, has sent the
    first request and one request per further page, and has left the base
    dict as it was. *)
Lemma fetch_raw_pages (dataset start_str : string) (end_str : option string)
    (n_workers : Z) (verbose : bool) (sched : list action)
    (raw_df : DataFrame) (total : Z) :
  let url := BASE_URL +:+ dataset +:+ "/data/" in
  let hd := headers_of start_str end_str in
  let o := params_items start_str end_str in
  let pages := py_range 1 (total_pages_of total) in
  let out := fetch_raw dataset start_str end_str n_workers verbose sched in
  _fetch_page (mkRequest url hd) = Ok (raw_df, total) →
  total_pages_of total > 1 →
  1 ≤ n_workers →
  ret out = (page_dfs ← res_all (map (page_result url hd o) pages);
             Ok (pd_concat (raw_df :: page_dfs)))
  ∧ sent out ≡ₚ mkRequest url hd :: map (page_request url hd o) pages
  ∧ final_heap out !! 0%nat = Some hd.
Proof.
  intros url hd o pages out H0 Hpages Hw. subst out. unfold fetch_raw.
  fold url. fold hd. rewrite H0.
  destruct (decide (total_pages_of total > 1)) as [_|]; [|done].
  destruct (decide (n_workers <= 0)) as [|_]; [lia|].
  fold pages.
  set (st0 := mkPool _ _ _ _ _ _).
  pose proof (inv_init url hd o pages (mkRequest url hd)) as Hinit. fold st0 in Hinit.
  pose proof (inv_run url hd o pages n_workers (mkRequest url hd)
                (headers_of_params _ _) sched st0 Hinit) as Hrun.
  destruct (join_spec url hd o pages n_workers (mkRequest url hd)
              (headers_of_params _ _) Hw _ Hrun) as (Hinv & Hres & Hreq).
  set (st := join _ _ _ _) in *.
  rewrite Hres.
  destruct (res_all (map (page_result url hd o) pages)); simpl;
    (split; [done|]); (split; [done|]); by eapply inv_base.
Qed.

(** With a pool of at least one worker the raw table is that of the
    specification, for every schedule and with or without progress output. *)
Lemma fetch_raw_ret (dataset start_str : string) (end_str : option string)
    (n_workers : Z) (verbose : bool) (sched : list action) :
  1 ≤ n_workers →
  ret (fetch_raw dataset start_str end_str n_workers verbose sched)
  = paged_fetch_spec dataset start_str end_str.
Proof.
  intros Hw. unfold paged_fetch_spec.
  destruct (_fetch_page (mkRequest (BASE_URL +:+ dataset +:+ "/data/")
                                   (headers_of start_str end_str)))
    as [[raw_df total]|e] eqn:H0; simpl.
  - destruct (decide (total_pages_of total > 1)) as [Hp|Hp].
    + by destruct (fetch_raw_pages dataset start_str end_str n_workers verbose sched
                     raw_df total H0 Hp Hw) as (-> & _).
    + unfold fetch_raw. rewrite H0.
      by destruct (decide (total_pages_of total > 1)).
  - unfold fetch_raw. by rewrite H0.
Qed.

(** Without a usable pool the call still does not look at the schedule or
    at [verbose] to decide what it returns. *)
Lemma fetch_raw_ret_no_pool (dataset start_str : string) (end_str : option string)
    (n_workers : Z) (v1 v2 : bool) (s1 s2 : list action) :
  n_workers ≤ 0 →
  ret (fetch_raw dataset start_str end_str n_workers v1 s1)
  = ret (fetch_raw dataset start_str end_str n_workers v2 s2).
Proof.
  intros Hw. unfold fetch_raw.
  destruct (_fetch_page _) as [[raw_df total]|e]; [|done].
  destruct (decide (total_pages_of total > 1)); [|done].
  destruct (decide (n_workers <= 0)); [done|lia].
Qed.

Lemma get_dataset_ret (dataset start_str : string) (end_str : option string)
    (n_workers : Z) (verbose : bool) (sched : list action) :
  ret (get_dataset dataset start_str end_str n_workers verbose sched)
  = match ret (fetch_raw dataset start_str end_str n_workers verbose sched) with
    | Raise e => Raise e
    | Ok raw_df => match DATASET_HANDLERS !! dataset with
                   | Some handler => handler raw_df
                   | None => Ok raw_df
                   end
    end.
Proof.
  unfold get_dataset.
  destruct (ret (fetch_raw _ _ _ _ _ _)) eqn:Hr; [|done].
  by destruct (DATASET_HANDLERS !! dataset).
Qed.

Lemma get_dataset_sent (dataset start_str : string) (end_str : option string)
    (n_workers : Z) (verbose : bool) (sched : list action) :
  sent (get_dataset dataset start_str end_str n_workers verbose sched)
  = sent (fetch_raw dataset start_str end_str n_workers verbose sched).
Proof.
  unfold get_dataset.
  destruct (ret (fetch_raw _ _ _ _ _ _)); [|done].
  by destruct (DATASET_HANDLERS !! dataset).
Qed.

(** C2. For every input, every schedule of the threads and every pool of
    at least one worker, the raw table is page 0's table followed by the
    tables of the further pages in ascending page order, as the
    specification's paged fetch has it; it is the raw table of the run
    with one worker that the scheduler never interrupts, and so is what
    [get_dataset] returns. *)
Theorem C2_page_order_any_schedule (dataset start_str : string)
    (end_str : option string) (n_workers : Z) (verbose : bool) (sched : list action) :
  1 ≤ n_workers →
  ret (fetch_raw dataset start_str end_str n_workers verbose sched)
  = paged_fetch_spec dataset start_str end_str
  ∧ ret (fetch_raw dataset start_str end_str n_workers verbose sched)
    = ret (fetch_raw dataset start_str end_str 1 verbose [])
  ∧ ret (get_dataset dataset start_str end_str n_workers verbose sched)
    = ret (get_dataset dataset start_str end_str 1 verbose []).
Proof.
  intros Hw.
  assert (ret (fetch_raw dataset start_str end_str n_workers verbose sched)
          = ret (fetch_raw dataset start_str end_str 1 verbose [])) as Heq.
  { rewrite !fetch_raw_ret; [done|lia|done]. }
  split; [by apply fetch_raw_ret|]. split; [done|].
  by rewrite !get_dataset_ret, Heq.
Qed.

Lemma fetch_raw_sent (dataset start_str : string) (end_str : option string)
    (n_workers : Z) (verbose : bool) (sched : list action) :
  sent (fetch_raw dataset start_str end_str n_workers verbose sched)
  ≡ₚ expected_requests dataset start_str end_str n_workers.
Proof.
  unfold expected_requests.
  destruct (_fetch_page (mkRequest (BASE_URL +:+ dataset +:+ "/data/")
                                   (headers_of start_str end_str)))
    as [[raw_df total]|e] eqn:H0.
  - destruct (decide (total_pages_of total > 1 ∧ 1 ≤ n_workers)) as [[Hp Hw]|Hno].
    + by destruct (fetch_raw_pages dataset start_str end_str n_workers verbose sched
                     raw_df total H0 Hp Hw) as (_ & -> & _).
    + unfold fetch_raw. rewrite H0.
      destruct (decide (total_pages_of total > 1)); [|done].
      destruct (decide (n_workers <= 0)); [done|lia].
  - unfold fetch_raw. by rewrite H0.
Qed.

Lemma fetch_raw_quiet (dataset start_str : string) (end_str : option string)
    (n_workers : Z) (sched : list action) :
  console (fetch_raw dataset start_str end_str n_workers false sched) = [].
Proof.
  unfold fetch_raw.
  destruct (_fetch_page _) as [[raw_df total]|e]; [|done].
  destruct (decide (total_pages_of total > 1)); [|done].
  destruct (decide (n_workers <= 0)); [done|].
  by destruct (res_all _).
Qed.

(** C3. When the fetch of a page other than the first fails, the call
    raises: the exception is that of the first failing page in page order,
    no table comes back, and every page has been requested once, the
    failing one included. *)
Theorem C3_failed_page_aborts (dataset start_str : string) (end_str : option string)
    (n_workers : Z) (verbose : bool) (sched : list action)
    (raw_df : DataFrame) (total : Z) :
  let url := BASE_URL +:+ dataset +:+ "/data/" in
  let hd := headers_of start_str end_str in
  let o := params_items start_str end_str in
  let pages := py_range 1 (total_pages_of total) in
  let out := get_dataset dataset start_str end_str n_workers verbose sched in
  _fetch_page (mkRequest url hd) = Ok (raw_df, total) →
  1 ≤ n_workers →
  (∃ p, p ∈ pages ∧ is_ok (page_result url hd o p) = false) →
  ∃ before p after e,
    pages = before ++ p :: after
    ∧ (∀ q, q ∈ before → is_ok (page_result url hd o q) = true)
    ∧ page_result url hd o p = Raise e
    ∧ ret out = Raise e
    ∧ is_ok (ret out) = false
    ∧ sent out ≡ₚ mkRequest url hd :: map (page_request url hd o) pages.
Proof.
  intros url hd o pages out H0 Hw Hbad.
  assert (total_pages_of total > 1) as Hp.
  { destruct Hbad as (p & Hin%elem_of_py_range & _). lia. }
  destruct (fetch_raw_pages dataset start_str end_str n_workers verbose sched
              raw_df total H0 Hp Hw) as (Hret & Hsent & _).
  destruct (res_all_first_raise (page_result url hd o) pages Hbad)
    as (before & p & after & e & Hsplit & Hbefore & Hpe & Hall).
  fold url hd o pages in Hret, Hsent. rewrite Hall in Hret. simpl in Hret.
  assert (ret out = Raise e) as Hout.
  { subst out. by rewrite get_dataset_ret, Hret. }
  exists before, p, after, e. repeat (split; [done|]).
  split; [by rewrite Hout|].
  subst out. by rewrite get_dataset_sent.
Qed.

(** C5. For a dataset that has no entry in [DATASET_HANDLERS] the call
    returns the raw table as it is, rows and columns, and the missing
    entry is not an error: the outcome is that of the paged fetch. *)
Theorem C5_unregistered_identity (dataset start_str : string) (end_str : option string)
    (n_workers : Z) (verbose : bool) (sched : list action) :
  DATASET_HANDLERS !! dataset = None →
  get_dataset dataset start_str end_str n_workers verbose sched
  = fetch_raw dataset start_str end_str n_workers verbose sched.
Proof.
  intros Hnone. unfold get_dataset. rewrite Hnone.
  destruct (fetch_raw _ _ _ _ _ _) as [r sn c h]. simpl. by destruct r.
Qed.

(** C9. The value returned, or the exception raised, is the same with
    [verbose] set and unset, whatever the two schedules; the same requests
    are sent; a quiet call writes nothing.  In particular the progress
    output brings no exception of its own. *)
Theorem C9_verbose_noninterference (dataset start_str : string)
    (end_str : option string) (n_workers : Z) (sched1 sched2 : list action) :
  ret (get_dataset dataset start_str end_str n_workers true sched1)
  = ret (get_dataset dataset start_str end_str n_workers false sched2)
  ∧ sent (get_dataset dataset start_str end_str n_workers true sched1)
    ≡ₚ sent (get_dataset dataset start_str end_str n_workers false sched2)
  ∧ console (fetch_raw dataset start_str end_str n_workers false sched2) = [].
Proof.
  split; [|split].
  - rewrite !get_dataset_ret.
    destruct (decide (1 ≤ n_workers)) as [Hw|Hw].
    + by rewrite !fetch_raw_ret.
    + by rewrite (fetch_raw_ret_no_pool _ _ _ _ true false sched1 sched2) by lia.
  - by rewrite !get_dataset_sent, !fetch_raw_sent.
  - apply fetch_raw_quiet.
Qed.

Lemma fetch_raw_base_heap (dataset start_str : string) (end_str : option string)
    (n_workers : Z) (verbose : bool) (sched : list action) :
  final_heap (fetch_raw dataset start_str end_str n_workers verbose sched) !! 0%nat
  = Some (headers_of start_str end_str).
Proof.
  destruct (_fetch_page (mkRequest (BASE_URL +:+ dataset +:+ "/data/")
                                   (headers_of start_str end_str)))
    as [[raw_df total]|e] eqn:H0.
  - destruct (decide (total_pages_of total > 1 ∧ 1 ≤ n_workers)) as [[Hp Hw]|Hno].
    + by destruct (fetch_raw_pages dataset start_str end_str n_workers verbose sched
                     raw_df total H0 Hp Hw) as (_ & _ & ->).
    + unfold fetch_raw. rewrite H0.
      destruct (decide (total_pages_of total > 1)); [|apply lookup_singleton_eq].
      destruct (decide (n_workers <= 0)); [apply lookup_singleton_eq|lia].
  - unfold fetch_raw. rewrite H0. apply lookup_singleton_eq.
Qed.

Lemma get_dataset_final_heap (dataset start_str : string) (end_str : option string)
    (n_workers : Z) (verbose : bool) (sched : list action) :
  final_heap (get_dataset dataset start_str end_str n_workers verbose sched)
  = final_heap (fetch_raw dataset start_str end_str n_workers verbose sched).
Proof.
  unfold get_dataset.
  destruct (ret (fetch_raw _ _ _ _ _ _)); [|done].
  by destruct (DATASET_HANDLERS !! dataset).
Qed.

(** C8. At every point of every schedule each submitted call holds a
    header dict of its own, at a location that is neither the base dict's
    nor another call's, and the base dict is as it was built.  Every GET
    of the call carries the base headers with only [X-Params] rewritten,
    and in the parameters only [offset] differs from the base ones; that
    offset is [p * page_size] for a page index [p >= 0].  When the call
    ends the base dict is still as it was built. *)
Theorem C8_own_copy_offset_only (dataset start_str : string) (end_str : option string)
    (n_workers : Z) (verbose : bool) (sched : list action) :
  let url := BASE_URL +:+ dataset +:+ "/data/" in
  let hd := headers_of start_str end_str in
  let o := params_items start_str end_str in
  let out := get_dataset dataset start_str end_str n_workers verbose sched in
  (∀ (total : Z) (steps : list action),
     let st := run url 0%nat n_workers steps
                 (mkPool {[ 0%nat := hd ]} 1%nat (py_range 1 (total_pages_of total))
                         [] [mkRequest url hd] []) in
     heap st !! 0%nat = Some hd
     ∧ (∀ i f, futures st !! i = Some f →
          f_headers f = S i ∧ f_headers f ≠ 0%nat
          ∧ f_page f = 1 + Z.of_nat i ∧ f_page_size f = page_size)
     ∧ (∀ i j f g, futures st !! i = Some f → futures st !! j = Some g →
          i ≠ j → f_headers f ≠ f_headers g))
  ∧ (∀ rq, rq ∈ sent out →
       ∃ p o', 0 ≤ p
         ∧ req_url rq = url
         ∧ req_headers rq = <["X-Params" := json_dumps (JObj o')]> hd
         ∧ assoc "offset" o' = Some (JInt (p * page_size))
         ∧ (∀ k, k ≠ "offset" → assoc k o' = assoc k o)
         ∧ offset_of rq = Some (p * page_size))
  ∧ final_heap out !! 0%nat = Some hd.
Proof.
  intros url hd o out. split; [|split].
  - intros total steps st.
    pose proof (inv_run url hd o (py_range 1 (total_pages_of total)) n_workers
                  (mkRequest url hd) (headers_of_params _ _) steps _
                  (inv_init url hd o _ (mkRequest url hd))) as Hinv.
    fold st in Hinv. split; [by eapply inv_base|].
    assert (∀ i f, futures st !! i = Some f →
              f_headers f = S i ∧ f_page f = 1 + Z.of_nat i ∧ f_page_size f = page_size)
      as Hfut.
    { intros i f Hf.
      destruct (inv_fut _ _ _ _ _ _ Hinv i f Hf) as (_ & Hl & Hp & Hs & _).
      repeat split; [done| |done].
      unfold py_range in Hp. rewrite list_lookup_fmap in Hp.
      destruct (seq 0 _ !! i) as [k|] eqn:Hk; [|done].
      apply lookup_seq in Hk as [-> _]. simpl in Hp. injection Hp as <-. lia. }
    split.
    + intros i f Hf. destruct (Hfut i f Hf) as (-> & ? & ?). by repeat split.
    + intros i j f g Hf Hg Hne.
      destruct (Hfut i f Hf) as (-> & _), (Hfut j g Hg) as (-> & _). lia.
  - intros rq Hrq. subst out. rewrite get_dataset_sent, fetch_raw_sent in Hrq.
    unfold expected_requests in Hrq. fold url hd o in Hrq.
    assert (∀ p, 0 ≤ p → rq = page_request url hd o p →
              ∃ p o', 0 ≤ p ∧ req_url rq = url
                ∧ req_headers rq = <["X-Params" := json_dumps (JObj o')]> hd
                ∧ assoc "offset" o' = Some (JInt (p * page_size))
                ∧ (∀ k, k ≠ "offset" → assoc k o' = assoc k o)
                ∧ offset_of rq = Some (p * page_size)) as Hpage.
    { intros p Hp ->. exists p, (dict_setitem "offset" (JInt (p * page_size)) o).
      split_and!; [done|done|done|apply assoc_dict_setitem_eq| |].
      - intros k Hk. by apply assoc_dict_setitem_ne.
      - unfold offset_of, page_request, page_headers. cbn [req_headers].
        rewrite lookup_insert_eq. unfold json_dumps. cbv beta iota.
        by rewrite assoc_dict_setitem_eq. }
    apply elem_of_cons in Hrq as [->|Hrq].
    + exists 0, o. split_and!; [done|done| |done|done|done].
      simpl. symmetry. apply insert_id. apply headers_of_params.
    + destruct (_fetch_page _) as [[raw_df total]|e]; [|by apply elem_of_nil in Hrq].
      destruct (decide _); [|by apply elem_of_nil in Hrq].
      apply list_elem_of_fmap in Hrq as (p & -> & Hp%elem_of_py_range).
      apply (Hpage p); [lia|done].
  - subst out. rewrite get_dataset_final_heap. apply fetch_raw_base_heap.
Qed.

(** ** [_handle_time] *)

Lemma to_datetime_shape (v e : value) :
  to_datetime v = Ok e → e = VNull ∨ ∃ ns, e = VTime ns.
Proof. clear int_of_str api_key Timedelta.
  unfold to_datetime. destruct v; [naive_solver|..];
    destruct (parse_datetime _); naive_solver.
Qed.

(** [_handle_time] step by step: which exception it raises, and the table
    it returns otherwise. *)
Lemma _handle_time_eq (df : DataFrame) (frequency : string) :
  _handle_time df frequency =
    i ← col_pos df "period";
    ends ← res_all (map to_datetime (column_at df i));
    if decide ("Interval End" ∈ columns df)
    then Raise (ValueError "cannot insert, already exists")
    else match Timedelta frequency with
         | None => Raise (ValueError "invalid unit abbreviation")
         | Some d =>
             if decide ("Interval Start" ∈ "Interval End" :: columns df)
             then Raise (ValueError "cannot insert, already exists")
             else Ok (time_frame d ends df)
         end.
Proof.
  unfold _handle_time, getitem.
  destruct (col_pos df "period") as [i|e] eqn:Hi; simpl; [|done].
  destruct (res_all (map to_datetime (column_at df i))) as [ends|e] eqn:Hends;
    simpl; [|done].
  unfold insert0 at 2. destruct (decide ("Interval End" ∈ columns df)) as [|Hie];
    simpl; [done|].
  rewrite col_pos_head by done. simpl.
  assert (length ends = length (rows df)) as Hlen.
  { apply res_all_length in Hends. rewrite Hends, length_map.
    unfold column_at. by rewrite length_map. }
  unfold column_at at 1. cbn [rows]. rewrite zip_with_cons_head by done.
  destruct (Timedelta frequency) as [d|]; simpl; [|done].
  set (start_of := fun e => match e with VTime ns => VTime (ns - d) | _ => VNull end).
  rewrite (res_all_map_Ok _ start_of).
  2:{ intros e He. apply res_all_Forall2 in Hends.
      apply list_elem_of_lookup in He as [k Hk].
      destruct (Forall2_lookup_r _ _ _ _ _ Hends Hk) as (v & _ & Hv).
      by destruct (to_datetime_shape _ _ Hv) as [->|[ns ->]]. }
  simpl. unfold insert0. cbn [columns rows].
  destruct (decide ("Interval Start" ∈ "Interval End" :: columns df)) as [|His];
    simpl; [done|].
  unfold drop_column. cbn [columns rows].
  rewrite decide_True.
  2:{ rewrite !elem_of_cons. right. right. by eapply col_pos_elem. }
  f_equal. unfold time_frame. cbn [map].
  rewrite !bool_decide_eq_true_2 by done. cbn [drop_where]. f_equal.
  clear. generalize (rows df). induction ends as [|e ends IH]; intros [|r rws];
    simpl; try done. by rewrite IH.
Qed.

(** C7. On a table with one [period] column whose labels all parse, and
    for a frequency that [pd.Timedelta] understands, [_handle_time] returns
    a table whose first two columns are [Interval Start] and
    [Interval End]; the [period] column is gone and the other columns stay
    in their order.  In every row [Interval End] is the UTC instant the
    label denotes and [Interval Start] is that instant minus the duration,
    so that the end is the start plus the duration. *)
Theorem C7_interval_columns (df : DataFrame) (frequency : string) (i : nat) (d : Z) :
  col_pos df "period" = Ok i →
  Timedelta frequency = Some d →
  "Interval End" ∉ columns df →
  "Interval Start" ∉ columns df →
  (∀ r, r ∈ rows df → length r = length (columns df)) →
  (∀ r, r ∈ rows df →
     cell_at r i ≠ VNull ∧ is_Some (parse_datetime (cell_at r i))) →
  ∃ out,
    _handle_time df frequency = Ok out
    ∧ columns out = "Interval Start" :: "Interval End" :: delete i (columns df)
    ∧ ("period" ∉ columns out)
    ∧ length (rows out) = length (rows df)
    ∧ ∀ k r, rows df !! k = Some r →
        ∃ ns, parse_datetime (cell_at r i) = Some ns
          ∧ rows out !! k = Some (VTime (ns - d) :: VTime ns :: delete i r)
          ∧ ns = (ns - d) + d.
Proof. clear int_of_str.
  intros Hi Hd Hie His Hrect Hparse.
  set (g := fun v => VTime (default 0 (parse_datetime v))).
  assert (res_all (map to_datetime (column_at df i)) = Ok (map g (column_at df i)))
    as Hends.
  { apply res_all_map_Ok. intros v Hv. unfold column_at in Hv.
    apply list_elem_of_fmap in Hv as (r & -> & Hr).
    destruct (Hparse r Hr) as [Hnn [ns Hns]]. unfold to_datetime, g.
    rewrite Hns. by destruct (cell_at r i). }
  rewrite _handle_time_eq, Hi. simpl. rewrite Hends. simpl.
  rewrite decide_False by done. rewrite Hd.
  rewrite decide_False by (rewrite elem_of_cons; naive_solver).
  eexists. split; [done|].
  unfold time_frame. cbn [columns rows].
  pose proof (col_pos_positions df "period" i Hi) as Hpos.
  split; [|split; [|split]].
  - by rewrite (drop_where_unique "period" (columns df) (columns df) 0 i).
  - rewrite (drop_where_unique "period" (columns df) (columns df) 0 i) by done.
    rewrite !not_elem_of_cons. split; [done|]. split; [done|].
    intros [j Hj]%list_elem_of_lookup.
    destruct (decide (j < i)%nat).
    + rewrite list_lookup_delete_lt in Hj by done.
      pose proof (col_pos_unique df "period" i j Hi Hj). lia.
    + rewrite list_lookup_delete_ge in Hj by lia.
      pose proof (col_pos_unique df "period" i (S j) Hi Hj). lia.
  - rewrite length_zip_with, length_map. unfold column_at. rewrite length_map. lia.
  - intros k r Hk.
    assert (r ∈ rows df) as Hr by (by eapply list_elem_of_lookup_2).
    destruct (Hparse r Hr) as [_ [ns Hns]]. exists ns. split; [done|].
    split; [|lia].
    rewrite lookup_zip_with. unfold column_at. rewrite !list_lookup_fmap, Hk. simpl.
    unfold g. rewrite Hns. simpl. do 3 f_equal.
    apply (drop_where_unique "period" (columns df) r 0 i Hpos). by apply Hrect.
Qed.

(** ** [_handle_rto_interchange] *)

Lemma select_columns (cs : list string) (df out : DataFrame) :
  select cs df = Ok out →
  (∀ c, c ∈ columns out → c ∈ cs) ∧ (∀ c, c ∈ cs → c ∈ columns out).
Proof.
  unfold select.
  set (f := fun c => match positions c (columns df) with
                     | [] => Raise (KeyError c)
                     | l => Ok l
                     end).
  destruct (res_all (map f cs)) as [ps|e] eqn:Hps; simpl; [|done].
  intros [= <-]. cbn [columns].
  apply res_all_Forall2 in Hps.
  assert (∀ c p, f c = Ok p →
            p ≠ [] ∧ ∀ i, i ∈ p → nth i (columns df) "" = c) as Hf.
  { intros c p. unfold f, positions.
    destruct (positions_from 0 c (columns df)) as [|i0 l] eqn:Hp; [done|].
    intros [= <-]. split; [done|]. intros i Hi. rewrite <- Hp in Hi.
    apply positions_from_elem in Hi as [_ Hi]. rewrite Nat.sub_0_r in Hi.
    by apply nth_lookup_Some. }
  split.
  - intros c (i & -> & Hi)%list_elem_of_fmap.
    apply list_elem_of_In, in_concat in Hi as (p & Hp & Hi).
    apply list_elem_of_In, list_elem_of_lookup in Hp as [k Hk].
    destruct (Forall2_lookup_r _ _ _ _ _ Hps Hk) as (c & Hc & Hfc).
    destruct (Hf c p Hfc) as [_ Hall].
    rewrite (Hall i) by (by apply list_elem_of_In).
    by eapply list_elem_of_lookup_2.
  - intros c [k Hk]%list_elem_of_lookup.
    destruct (Forall2_lookup_l _ _ _ _ _ Hps Hk) as (p & Hp & Hfc).
    destruct (Hf c p Hfc) as [Hne Hall].
    destruct p as [|i p]; [done|].
    apply list_elem_of_fmap. exists i. split; [symmetry; apply Hall; by left|].
    apply list_elem_of_In, in_concat. exists (i :: p).
    split; [|by left]. apply list_elem_of_In. by eapply list_elem_of_lookup_2.
Qed.

(** C6. Whenever [_handle_rto_interchange] returns a table, its columns
    are the seven canonical ones and no other, [Interval Start] and
    [From BA] occur once each, and of any two rows the earlier one has the
    smaller or equal pair (Interval Start, From BA) in the lexicographic
    order on cells; in particular, of two rows with the same
    [Interval Start] the one with [From BA] "A" stands before the one
    with [From BA] "B". *)
Theorem C6_interchange_sorted (df out : DataFrame) :
  _handle_rto_interchange df = Ok out →
  (∀ c, c ∈ columns out ↔ c ∈ INTERCHANGE_COLUMNS)
  ∧ ∃ i j,
      col_pos out "Interval Start" = Ok i
      ∧ col_pos out "From BA" = Ok j
      ∧ StronglySorted
          (fun r1 r2 => lex_leb [cell_at r1 i; cell_at r1 j]
                                [cell_at r2 i; cell_at r2 j] = true)
          (rows out)
      ∧ (∀ k1 k2 r1 r2,
           rows out !! k1 = Some r1 → rows out !! k2 = Some r2 →
           (k1 < k2)%nat →
           value_leb (cell_at r1 i) (cell_at r2 i) = true
           ∧ (value_leb (cell_at r2 i) (cell_at r1 i) = true →
              value_leb (cell_at r1 j) (cell_at r2 j) = true))
      ∧ (∀ k1 k2 r1 r2,
           rows out !! k1 = Some r1 → rows out !! k2 = Some r2 →
           cell_at r1 i = cell_at r2 i →
           cell_at r1 j = VStr "A" → cell_at r2 j = VStr "B" →
           (k1 < k2)%nat).
Proof.
  unfold _handle_rto_interchange.
  destruct (_handle_time df "1h") as [df1|e]; simpl; [|done].
  set (df1' := rename _ df1).
  destruct (select INTERCHANGE_COLUMNS df1') as [df2|e] eqn:Hsel; simpl; [|done].
  unfold sort_values. cbn [map res_all].
  destruct (col_pos df2 "Interval Start") as [i|e] eqn:Hi; simpl; [|done].
  destruct (col_pos df2 "From BA") as [j|e] eqn:Hj; simpl; [|done].
  intros [= <-]. cbn [columns rows].
  destruct (select_columns _ _ _ Hsel) as [Hsub Hsup].
  split; [intros c; split; [apply Hsub|apply Hsup]|].
  exists i, j. split; [done|]. split; [done|].
  set (leb := fun r1 r2 : list value =>
                lex_leb [cell_at r1 i; cell_at r1 j] [cell_at r2 i; cell_at r2 j]).
  assert (StronglySorted (fun r1 r2 => leb r1 r2 = true) (stable_sort leb (rows df2)))
    as Hsorted.
  { apply stable_sort_sorted.
    - intros x y. apply lex_leb_total.
    - intros x y z. apply lex_leb_trans. }
  split; [done|]. split.
  - intros k1 k2 r1 r2 H1 H2 Hlt.
    pose proof (StronglySorted_lookup _ _ k1 k2 r1 r2 Hsorted Hlt H1 H2) as Hle.
    unfold leb in Hle. simpl in Hle.
    destruct (value_leb_total (cell_at r1 i) (cell_at r2 i)) as [Ht|Ht],
             (value_leb_total (cell_at r1 j) (cell_at r2 j)) as [Ht'|Ht'],
             (value_leb (cell_at r2 i) (cell_at r1 i)) eqn:H21,
             (value_leb (cell_at r1 i) (cell_at r2 i)) eqn:H12;
      simpl in Hle; try done;
      destruct (value_leb (cell_at r2 j) (cell_at r1 j)) eqn:H21',
               (value_leb (cell_at r1 j) (cell_at r2 j)) eqn:H12';
      simpl in Hle; done.
  - intros k1 k2 r1 r2 H1 H2 Hi' HA HB.
    destruct (decide (k1 < k2)%nat) as [|Hge]; [done|exfalso].
    destruct (decide (k1 = k2)) as [->|Hne]; [congruence|].
    assert (k2 < k1)%nat as Hlt by lia.
    pose proof (StronglySorted_lookup _ _ k2 k1 r2 r1 Hsorted Hlt H2 H1) as Hle.
    unfold leb in Hle. simpl in Hle.
    rewrite Hi', HA, HB, value_leb_refl in Hle. by simpl in Hle.
Qed.

(** ** [pivot_table] *)

Lemma eqv_VStr (l : string) (x : value) :
  eqvb value_leb (VStr l) x = true → x = VStr l.
Proof.
  unfold eqvb. destruct x; simpl; try done.
  intros [H1 H2]%andb_prop. f_equal. by apply String.leb_antisym.
Qed.

Lemma mean_is_null (vs : list value) (m : value) :
  mean vs = Ok m → (is_null m = true ↔ ∀ x, x ∈ vs → is_null x = true).
Proof.
  unfold mean. destruct (filter _ vs) as [|x xs] eqn:Hf.
  - intros [= <-]. split; [|done]. intros _ x Hx.
    destruct (is_null x) eqn:Hn; [done|].
    assert (x ∈ filter (fun v => is_null v = false) vs) as Hin
      by (by apply list_elem_of_filter).
    rewrite Hf in Hin. by apply elem_of_nil in Hin.
  - destruct (forallb is_num (x :: xs)); [|done]. intros [= <-]. split; [done|].
    intros Hall. assert (x ∈ filter (fun v => is_null v = false) vs) as Hin
      by (rewrite Hf; by left).
    apply list_elem_of_filter in Hin as [Hn Hin]. by rewrite (Hall x Hin) in Hn.
Qed.

Lemma mean_not_null (vs : list value) (m : value) :
  mean vs = Ok m → is_null m = false → ∃ x, x ∈ vs ∧ is_null x = false.
Proof.
  unfold mean. destruct (filter _ vs) as [|x xs] eqn:Hf; [by intros [= <-]|].
  intros _ _. exists x.
  assert (x ∈ filter (fun v => is_null v = false) vs) as Hin by (rewrite Hf; by left).
  by apply list_elem_of_filter in Hin as [Hn Hin].
Qed.

Lemma same_group_refl (e : entry) : same_group e e = true.
Proof.
  unfold same_group.
  by rewrite (eqvb_refl lex_leb _ lex_leb_total), (eqvb_refl value_leb _ value_leb_total).
Qed.

Lemma same_group_sym (a b : entry) : same_group a b = same_group b a.
Proof.
  unfold same_group.
  by rewrite (eqvb_sym lex_leb), (eqvb_sym value_leb).
Qed.

Lemma same_group_trans (a b c : entry) :
  same_group a b = true → same_group b c = true → same_group a c = true.
Proof.
  unfold same_group. intros [H1 H2]%andb_prop [H3 H4]%andb_prop.
  apply andb_true_intro. split.
  - eapply eqvb_trans; [apply lex_leb_trans|done..].
  - eapply eqvb_trans; [apply value_leb_trans|done..].
Qed.

Lemma cell_values_group (live : list entry) (e : entry) (k : list value) (l : string) :
  eqvb lex_leb k (e_key e) = true → e_label e = VStr l →
  cell_values live k l
  = map e_value (filter (fun e' => same_group e e' = true) live).
Proof.
  intros Hk Hl. unfold cell_values. f_equal. apply list_filter_iff. intros e'.
  unfold same_group. rewrite Hl.
  destruct (eqvb value_leb (VStr l) (e_label e')); [|by rewrite !andb_false_r].
  rewrite !andb_true_r. split; intros H.
  - eapply eqvb_trans; [apply lex_leb_trans| |done]. by rewrite eqvb_sym.
  - eapply eqvb_trans; [apply lex_leb_trans|done..].
Qed.

Lemma cell_values_cases (live : list entry) (k : list value) (l : string) :
  cell_values live k l = []
  ∨ ∃ e, e ∈ live ∧ eqvb lex_leb k (e_key e) = true ∧ e_label e = VStr l.
Proof.
  unfold cell_values. destruct (filter _ live) as [|e M] eqn:HM; [by left|right].
  assert (e ∈ e :: M) as Hin by (by left). rewrite <- HM in Hin.
  apply list_elem_of_filter in Hin as [[Hk Hl%eqv_VStr]%andb_prop He].
  by exists e.
Qed.

Lemma pivot_table_inv (index : list string) (cols vals : string) (df wide : DataFrame) :
  pivot_table index cols vals df = Ok wide →
  ∃ idx c v labels index_keys cell,
    res_all (map (col_pos df) index) = Ok idx
    ∧ col_pos df cols = Ok c
    ∧ col_pos df vals = Ok v
    ∧ columns wide = index ++ labels
    ∧ rows wide = map (fun k => k ++ map (cell k) labels) index_keys
    ∧ StronglySorted (fun a b => String.leb a b = true ∧ String.leb b a = false) labels
    ∧ StronglySorted (fun a b => lex_leb a b = true ∧ lex_leb b a = false) index_keys
    ∧ (∀ n, n ∈ index → n ∉ labels)
    ∧ pivot_of (live_entries df idx c v) (length index) index_keys labels cell.
Proof.
  unfold pivot_table.
  destruct (res_all (map (col_pos df) index)) as [idx|e] eqn:Hidx; simpl; [|done].
  destruct (col_pos df cols) as [c|e] eqn:Hc; simpl; [|done].
  destruct (col_pos df vals) as [v|e] eqn:Hv; simpl; [|done].
  set (live := live_entries df idx c v).
  set (mk := fun e : entry =>
               m ← mean (map e_value (filter (fun e' => same_group e e' = true) live));
               l ← label_of (e_label e);
               Ok (mkGroup (e_key e) l m)).
  destruct (res_all (map mk (nub_by same_group live))) as [groups|e] eqn:Hg;
    simpl; [|done].
  set (kept := filter (fun g => is_null (g_mean g) = false) groups).
  set (index_keys := stable_sort lex_leb (nub_by (eqvb lex_leb) (map g_key kept))).
  set (labels := stable_sort String.leb (nub_by String.eqb (map g_label kept))).
  set (cell := fun (k : list value) (l : string) =>
                 match filter (fun g => eqvb lex_leb k (g_key g)
                                        && String.eqb l (g_label g) = true) kept with
                 | g :: _ => g_mean g
                 | [] => VNull
                 end).
  destruct (filter (fun n => n ∈ labels) index) as [|n0 ns] eqn:Hclash; [|done].
  intros [= <-]. exists idx, c, v, labels, index_keys, cell.
  do 5 (split; [done|]).
  apply res_all_Forall2 in Hg.
  assert (∀ e g, mk e = Ok g →
            g_key g = e_key e ∧ e_label e = VStr (g_label g)
            ∧ mean (map e_value (filter (fun e' => same_group e e' = true) live))
              = Ok (g_mean g)) as Hmk.
  { intros e g. unfold mk.
    destruct (mean _) as [m|]; simpl; [|done].
    destruct (e_label e) as [|l| | |]; simpl; try done. by intros [= <-]. }
  assert (∀ g, g ∈ groups →
            ∃ e, e ∈ live ∧ g_key g = e_key e ∧ e_label e = VStr (g_label g)
              ∧ mean (map e_value (filter (fun e' => same_group e e' = true) live))
                = Ok (g_mean g)) as Hgroups.
  { intros g [i Hi]%list_elem_of_lookup.
    destruct (Forall2_lookup_r _ _ _ _ _ Hg Hi) as (e & He & Heg).
    exists e. split; [|by apply Hmk].
    eapply nub_by_elem. by eapply list_elem_of_lookup_2. }
  assert (∀ e, e ∈ live →
            ∃ g, g ∈ groups ∧ eqvb lex_leb (g_key g) (e_key e) = true
              ∧ e_label e = VStr (g_label g)
              ∧ mean (map e_value (filter (fun e' => same_group e e' = true) live))
                = Ok (g_mean g)) as Hlive.
  { intros e He.
    destruct (nub_by_rep same_group same_group_refl same_group_trans e live He)
      as (e0 & He0 & Hsame).
    apply list_elem_of_lookup in He0 as [i Hi].
    destruct (Forall2_lookup_l _ _ _ _ _ Hg Hi) as (g & Hgi & Heg).
    destruct (Hmk e0 g Heg) as (Hk & Hl & Hm).
    pose proof Hsame as [Hs1 Hs2]%andb_prop. rewrite Hl in Hs2.
    apply eqv_VStr in Hs2.
    exists g. split; [by eapply list_elem_of_lookup_2|]. rewrite Hk.
    split; [done|]. split; [done|]. rewrite <- Hm. do 2 f_equal.
    apply list_filter_iff. intros e'. split; intros H.
    - by eapply same_group_trans.
    - eapply same_group_trans; [|done]. by rewrite same_group_sym. }
  split.
  { apply stable_sort_strict;
      [apply String.leb_total | intros x y z; apply string_leb_trans|].
    eapply StronglySorted_impl; [|apply (nub_by_distinct String.eqb)].
    intros a b Hab. unfold eqvb.
    destruct (String.leb a b) eqn:H1, (String.leb b a) eqn:H2; try done.
    rewrite (String.leb_antisym _ _ H1 H2), String.eqb_refl in Hab. done. }
  split.
  { apply stable_sort_strict; [apply lex_leb_total | apply lex_leb_trans|].
    apply nub_by_distinct. }
  split.
  { intros n Hn Hl.
    assert (n ∈ filter (fun n => n ∈ labels) index) as Hin
      by (by apply list_elem_of_filter).
    rewrite Hclash in Hin. by apply elem_of_nil in Hin. }
  assert (∀ l, l ∈ labels ↔ ∃ g, g ∈ kept ∧ g_label g = l) as Hlabels.
  { intros l. unfold labels. rewrite stable_sort_perm. split.
    - intros Hl%nub_by_elem. apply list_elem_of_fmap in Hl as (g & -> & Hgk).
      by exists g.
    - intros (g & Hgk & <-).
      destruct (nub_by_rep String.eqb String.eqb_refl
                  (fun x y z (H1 : String.eqb x y = true) (H2 : String.eqb y z = true) =>
                     eq_ind_r (fun t => String.eqb t z = true) H2
                              (proj1 (String.eqb_eq x y) H1))
                  (g_label g) (map g_label kept)) as (y & Hy & Hyg).
      + by apply list_elem_of_fmap_2.
      + apply String.eqb_eq in Hyg. by subst y. }
  assert (∀ k, k ∈ index_keys → ∃ g, g ∈ kept ∧ g_key g = k) as Hkeys1.
  { intros k. unfold index_keys. rewrite stable_sort_perm.
    intros Hk%nub_by_elem. apply list_elem_of_fmap in Hk as (g & -> & Hgk).
    by exists g. }
  assert (∀ g, g ∈ kept → ∃ k, k ∈ index_keys ∧ eqvb lex_leb k (g_key g) = true)
    as Hkeys2.
  { intros g Hgk.
    destruct (nub_by_rep (eqvb lex_leb)
                (fun x => eqvb_refl lex_leb x lex_leb_total)
                (fun x y z => eqvb_trans lex_leb x y z lex_leb_trans)
                (g_key g) (map g_key kept)) as (k & Hk & Hkg).
    - by apply list_elem_of_fmap_2.
    - exists k. split; [|done]. unfold index_keys. by rewrite stable_sort_perm. }
  fold live. split; [|split; [|split]].
  - intros l (g & [_ Hgk]%list_elem_of_filter & <-)%Hlabels.
    destruct (Hgroups g Hgk) as (e & He & _ & Hl & _). by exists e.
  - intros k (g & [Hnn Hgk]%list_elem_of_filter & <-)%Hkeys1.
    destruct (Hgroups g Hgk) as (e & He & Hk & Hl & Hm). split.
    + rewrite Hk. unfold live, live_entries in He.
      apply list_elem_of_filter in He as [_ He].
      apply list_elem_of_fmap in He as (r & -> & _). simpl.
      apply res_all_length in Hidx. by rewrite length_map, Hidx, length_map.
    + destruct (mean_not_null _ _ Hm Hnn) as (x & Hx & Hxn).
      apply list_elem_of_fmap in Hx as (e' & -> & [Hsame He']%list_elem_of_filter).
      exists e'. split; [done|]. split; [|done].
      rewrite Hk. by apply andb_prop in Hsame as [? _].
  - intros e He Hnn.
    destruct (Hlive e He) as (g & Hgg & Hk & Hl & Hm).
    assert (g ∈ kept) as Hgk.
    { apply list_elem_of_filter. split; [|done].
      destruct (is_null (g_mean g)) eqn:Hn; [|done].
      destruct (mean_is_null _ _ Hm) as [Hall _].
      rewrite (Hall Hn (e_value e)) in Hnn; [done|].
      apply list_elem_of_fmap_2, list_elem_of_filter.
      split; [apply same_group_refl|done]. }
    split.
    + destruct (Hkeys2 g Hgk) as (k & Hkin & Hkg). exists k. split; [done|].
      eapply eqvb_trans; [apply lex_leb_trans|done..].
    + exists (g_label g). split; [|done]. apply Hlabels. by exists g.
  - intros k l. unfold cell.
    destruct (filter _ kept) as [|g gs] eqn:Hf.
    + destruct (cell_values_cases live k l) as [->|(e' & He' & Hk & Hl)]; [done|].
      destruct (Hlive e' He') as (g & Hgg & Hgk & Hgl & Hm).
      rewrite (cell_values_group live e' k l Hk Hl), Hm. f_equal.
      destruct (is_null (g_mean g)) eqn:Hn; [by destruct (g_mean g)|].
      assert (g ∈ filter (fun g => eqvb lex_leb k (g_key g)
                                   && String.eqb l (g_label g) = true) kept) as Hin.
      { apply list_elem_of_filter. split; [|by apply list_elem_of_filter].
        apply andb_true_intro. split.
        - eapply eqvb_trans; [apply lex_leb_trans|done|]. by rewrite eqvb_sym.
        - apply String.eqb_eq. congruence. }
      rewrite Hf in Hin. by apply elem_of_nil in Hin.
    + assert (g ∈ filter (fun g => eqvb lex_leb k (g_key g)
                                   && String.eqb l (g_label g) = true) kept) as Hin
        by (rewrite Hf; by left).
      apply list_elem_of_filter in Hin
        as [[Hk Hl%String.eqb_eq]%andb_prop [_ Hgg]%list_elem_of_filter].
      destruct (Hgroups g Hgg) as (e & He & Hgk & Hgl & Hm).
      rewrite (cell_values_group live e k l), Hm; [done| |congruence].
      by rewrite <- Hgk.
Qed.

(** ** [_handle_region_data] *)

Lemma col_pos_columns (a b : DataFrame) (c : string) :
  columns a = columns b → col_pos a c = col_pos b c.
Proof. unfold col_pos. by intros ->. Qed.

Lemma to_Int64_shape (v x : value) :
  to_Int64 v = Ok x → x = VNull ∨ ∃ z, x = VInt z.
Proof. clear parse_datetime api_key Timedelta.
  unfold to_Int64. destruct v; try naive_solver.
  - destruct (int_of_str s); naive_solver.
  - destruct (decide _); naive_solver.
Qed.

Lemma astype_Int64_inv (c : string) (w w' : DataFrame) :
  astype_Int64 c w = Ok w' →
  ∃ p, col_pos w c = Ok p
       ∧ columns w' = columns w
       ∧ Forall2 (fun r r' => ∃ x, to_Int64 (cell_at r p) = Ok x ∧ r' = set_cell p x r)
                 (rows w) (rows w').
Proof.
  unfold astype_Int64. destruct (col_pos w c) as [p|e]; simpl; [|done].
  destruct (res_all (map to_Int64 (column_at w p))) as [vals|e] eqn:Hv; simpl; [|done].
  intros [= <-]. exists p. split; [done|]. split; [done|]. simpl.
  apply res_all_Forall2 in Hv. unfold column_at in Hv.
  revert vals Hv. induction (rows w) as [|r rws IH]; intros vals H; simpl in *.
  - apply Forall2_nil_inv_l in H as ->. constructor.
  - apply Forall2_cons_inv_l in H as (x & vals' & Hx & H & ->). simpl.
    constructor; [by exists x|by apply IH].
Qed.

Lemma to_Int64_masked_shape (v x : value) :
  to_Int64_masked v = Ok x → x = VNull ∨ ∃ z, x = VInt z.
Proof. clear parse_datetime api_key Timedelta.
  destruct v; try apply to_Int64_shape. simpl. intros [= <-]. right. by eexists.
Qed.

Lemma astype_Int64_masked_inv (c : string) (w w' : DataFrame) :
  astype_Int64_masked c w = Ok w' →
  ∃ p, col_pos w c = Ok p
       ∧ columns w' = columns w
       ∧ Forall2 (fun r r' => ∃ x, to_Int64_masked (cell_at r p) = Ok x
                                   ∧ r' = set_cell p x r)
                 (rows w) (rows w').
Proof.
  unfold astype_Int64_masked. destruct (col_pos w c) as [p|e]; simpl; [|done].
  destruct (res_all (map to_Int64_masked (column_at w p))) as [vals|e] eqn:Hv;
    simpl; [|done].
  intros [= <-]. exists p. split; [done|]. split; [done|]. simpl.
  apply res_all_Forall2 in Hv. unfold column_at in Hv.
  revert vals Hv. induction (rows w) as [|r rws IH]; intros vals H; simpl in *.
  - apply Forall2_nil_inv_l in H as ->. constructor.
  - apply Forall2_cons_inv_l in H as (x & vals' & Hx & H & ->). simpl.
    constructor; [by exists x|by apply IH].
Qed.

Lemma map_column_inv (c : string) (d : list (string * string)) (w w' : DataFrame) :
  map_column c d w = Ok w' →
  ∃ p, col_pos w c = Ok p
       ∧ columns w' = columns w
       ∧ rows w' = map (fun r => set_cell p (map_dict d (cell_at r p)) r) (rows w).
Proof.
  unfold map_column. destruct (col_pos w c) as [p|e]; simpl; [|done].
  intros [= <-]. exists p. split; [done|]. split; [done|]. simpl.
  unfold column_at. induction (rows w) as [|r rws IH]; simpl; [done|]. by rewrite IH.
Qed.

Lemma map_dict_TYPE_LABELS (v : value) :
  map_dict TYPE_LABELS v = VNull
  ∨ ∃ l, l ∈ REGION_VALUES ∧ map_dict TYPE_LABELS v = VStr l.
Proof. clear int_of_str api_key Timedelta.
  destruct v as [|s| | |]; simpl; try by left.
  unfold REGION_VALUES.
  repeat (destruct (decide _); [right; eexists; split; [|done]; set_solver|]).
  by left.
Qed.

(** The long table: its [Type] cells are labels of the four value columns
    or missing, whatever code the input row had. *)
Lemma region_long_inv (df long : DataFrame) :
  region_long df = Ok long →
  ∃ df1 c v,
    _handle_time df "1h" = Ok df1
    ∧ col_pos long "Type" = Ok c
    ∧ col_pos long "MW" = Ok v
    ∧ c ≠ v
    ∧ Forall2 (fun r r' =>
                 ∃ x, to_Int64 (cell_at r v) = Ok x
                      ∧ r' = set_cell v x (set_cell c (map_dict TYPE_LABELS (cell_at r c)) r))
              (rows df1) (rows long).
Proof.
  unfold region_long.
  destruct (_handle_time df "1h") as [df1|e]; simpl; [|done].
  set (df2 := rename _ df1).
  destruct (map_column "Type" TYPE_LABELS df2) as [df3|e] eqn:H3; simpl; [|done].
  intros H4.
  apply map_column_inv in H3 as (c & Hc & Hcols3 & Hrows3).
  apply astype_Int64_inv in H4 as (v & Hv & Hcols4 & Hrows4).
  exists df1, c, v. split; [done|].
  assert (col_pos long "Type" = Ok c) as Hc'.
  { rewrite <- Hc. apply col_pos_columns. congruence. }
  assert (col_pos long "MW" = Ok v) as Hv'.
  { rewrite <- Hv. apply col_pos_columns. congruence. }
  split; [done|]. split; [done|]. split.
  { intros ->. apply col_pos_Ok in Hc', Hv'. congruence. }
  rewrite Hrows3 in Hrows4. change (rows df2) with (rows df1) in Hrows4.
  apply Forall2_fmap_l in Hrows4. eapply Forall2_impl; [done|].
  intros r r' (x & Hx & ->). exists x. split; [|done].
  rewrite <- Hx. f_equal. rewrite cell_at_set_cell_ne; [done|].
  intros ->. apply col_pos_Ok in Hc', Hv'. congruence.
Qed.

Lemma REGION_VALUES_sorted :
  StronglySorted (fun a b => String.leb a b = true ∧ String.leb b a = false)
                 REGION_VALUES.
Proof.
  unfold REGION_VALUES.
  repeat (apply SSorted_cons;
          [|rewrite Forall_forall; intros y Hy;
            repeat (apply elem_of_cons in Hy as [->|Hy]; [by vm_compute|]);
            by apply elem_of_nil in Hy]).
  apply SSorted_nil.
Qed.

Lemma casts_inv (w out : DataFrame) :
  (w1 ← astype_Int64_masked "Load" w;
   w2 ← astype_Int64_masked "Net Generation" w1;
   w3 ← astype_Int64_masked "Load Forecast" w2;
   astype_Int64_masked "Total Interchange" w3) = Ok out →
  columns out = columns w
  ∧ (∀ l, l ∈ REGION_VALUES → l ∈ columns w)
  ∧ (columns w = REGION_INDEX ++ REGION_VALUES →
     (∀ r, r ∈ rows w → length r = 8%nat) →
     Forall2 (fun r r' =>
                take 4 r' = take 4 r ∧ length r' = 8%nat
                ∧ ∀ n, (n < 4)%nat →
                    to_Int64_masked (cell_at r (4 + n)) = Ok (cell_at r' (4 + n)))
             (rows w) (rows out)).
Proof.
  destruct (astype_Int64_masked "Load" w) as [w1|e] eqn:H1; simpl; [|done].
  destruct (astype_Int64_masked "Net Generation" w1) as [w2|e] eqn:H2; simpl; [|done].
  destruct (astype_Int64_masked "Load Forecast" w2) as [w3|e] eqn:H3; simpl; [|done].
  intros H4.
  apply astype_Int64_masked_inv in H1 as (p0 & Hp0 & Hc1 & HF1).
  apply astype_Int64_masked_inv in H2 as (p1 & Hp1 & Hc2 & HF2).
  apply astype_Int64_masked_inv in H3 as (p2 & Hp2 & Hc3 & HF3).
  apply astype_Int64_masked_inv in H4 as (p3 & Hp3 & Hc4 & HF4).
  rewrite (col_pos_columns w1 w) in Hp1 by done.
  rewrite (col_pos_columns w2 w) in Hp2 by congruence.
  rewrite (col_pos_columns w3 w) in Hp3 by congruence.
  split; [congruence|]. split.
  { intros l Hl. unfold REGION_VALUES in Hl.
    repeat (apply elem_of_cons in Hl as [->|Hl]; [by eapply col_pos_elem|]).
    by apply elem_of_nil in Hl. }
  intros Hcols Hlen.
  apply col_pos_Ok in Hp0, Hp1, Hp2, Hp3. rewrite Hcols in Hp0, Hp1, Hp2, Hp3.
  assert (p0 = 4%nat) as ->
    by (by destruct p0 as [|[|[|[|[|[|[|[|?]]]]]]]]).
  assert (p1 = 6%nat) as ->
    by (by destruct p1 as [|[|[|[|[|[|[|[|?]]]]]]]]).
  assert (p2 = 5%nat) as ->
    by (by destruct p2 as [|[|[|[|[|[|[|[|?]]]]]]]]).
  assert (p3 = 7%nat) as ->
    by (by destruct p3 as [|[|[|[|[|[|[|[|?]]]]]]]]).
  apply Forall2_same_length_lookup. split.
  { rewrite (Forall2_length _ _ _ HF1), (Forall2_length _ _ _ HF2),
            (Forall2_length _ _ _ HF3). by eapply Forall2_length. }
  intros i r r' Hr Hr'.
  destruct (Forall2_lookup_l _ _ _ _ _ HF1 Hr) as (r1 & Hr1 & x0 & Hx0 & ->).
  destruct (Forall2_lookup_l _ _ _ _ _ HF2 Hr1) as (r2 & Hr2 & x1 & Hx1 & ->).
  destruct (Forall2_lookup_l _ _ _ _ _ HF3 Hr2) as (r3 & Hr3 & x2 & Hx2 & ->).
  destruct (Forall2_lookup_l _ _ _ _ _ HF4 Hr3) as (r4 & Hr4 & x3 & Hx3 & ->).
  rewrite Hr4 in Hr'. injection Hr' as <-.
  assert (length r = 8%nat) as Hl by (apply Hlen; by eapply list_elem_of_lookup_2).
  destruct r as [|a0 [|a1 [|a2 [|a3 [|a4 [|a5 [|a6 [|a7 [|]]]]]]]]]; try done.
  cbn in Hx0, Hx1, Hx2, Hx3 |- *. split; [done|]. split; [done|].
  intros [|[|[|[|n]]]] Hn; cbn; try done. lia.
Qed.

Lemma live_entries_elem (df : DataFrame) (idx : list nat) (c v : nat) (e : entry) :
  e ∈ live_entries df idx c v ↔
  ∃ r, r ∈ rows df ∧ e = entry_of idx c v r ∧ groupable e = true.
Proof. clear int_of_str api_key Timedelta.
  unfold live_entries. rewrite list_elem_of_filter, list_elem_of_fmap. naive_solver.
Qed.

(** The region transform stays within what is modelled: the labels it
    pivots on are strings. *)
Lemma col_pos_modelled (df : DataFrame) (c : string) : modelled (col_pos df c).
Proof.
  intros what. unfold col_pos. by destruct (positions c (columns df)) as [|? [|]].
Qed.

Lemma astype_Int64_modelled (c : string) (df : DataFrame) :
  modelled (astype_Int64 c df).
Proof.
  unfold astype_Int64. apply bind_modelled; [apply col_pos_modelled|].
  intros p _. apply bind_modelled; [|by intros].
  apply res_all_modelled. intros x _ what. unfold to_Int64.
  destruct x; try done; [by destruct (int_of_str s)|by destruct (decide _)].
Qed.

Lemma astype_Int64_masked_modelled (c : string) (df : DataFrame) :
  modelled (astype_Int64_masked c df).
Proof.
  unfold astype_Int64_masked. apply bind_modelled; [apply col_pos_modelled|].
  intros p _. apply bind_modelled; [|by intros].
  apply res_all_modelled. intros x _ what. unfold to_Int64_masked, to_Int64.
  destruct x; try done. by destruct (int_of_str s).
Qed.

Lemma _handle_time_modelled (df : DataFrame) (frequency : string) :
  modelled (_handle_time df frequency).
Proof.
  rewrite _handle_time_eq. apply bind_modelled; [apply col_pos_modelled|].
  intros i _. apply bind_modelled.
  - apply res_all_modelled. intros x _ what. unfold to_datetime.
    destruct x; try done; by destruct (parse_datetime _).
  - intros ends _ what. destruct (decide _); [done|].
    destruct (Timedelta frequency); [|done]. by destruct (decide _).
Qed.

Lemma region_long_modelled (df : DataFrame) : modelled (region_long df).
Proof.
  unfold region_long. apply bind_modelled; [apply _handle_time_modelled|].
  intros df1 _. apply bind_modelled; [|intros; apply astype_Int64_modelled].
  unfold map_column. apply bind_modelled; [apply col_pos_modelled|by intros].
Qed.

Lemma _handle_region_data_modelled (df : DataFrame) :
  modelled (_handle_region_data df).
Proof.
  unfold _handle_region_data. apply bind_modelled; [apply region_long_modelled|].
  intros long Hlong. apply bind_modelled.
  2:{ intros w _.
      repeat (apply bind_modelled; [apply astype_Int64_masked_modelled|intros ? _]).
      apply astype_Int64_masked_modelled. }
  unfold pivot_table.
  apply bind_modelled; [apply res_all_modelled; intros; apply col_pos_modelled|].
  intros idx _. apply bind_modelled; [apply col_pos_modelled|]. intros c Hc.
  apply bind_modelled; [apply col_pos_modelled|]. intros v Hv.
  apply bind_modelled.
  2:{ intros groups _ what. by destruct (filter _ REGION_INDEX). }
  apply res_all_modelled. intros e He%nub_by_elem.
  apply live_entries_elem in He as (r & [i Hi]%list_elem_of_lookup & -> & Hg).
  apply bind_modelled.
  { intros what. unfold mean. destruct (filter _ _); [done|].
    by destruct (forallb is_num _). }
  intros m _ what. simpl.
  destruct (region_long_inv df long Hlong) as (df1 & c' & v' & _ & Hc' & _ & Hne & HF).
  rewrite Hc in Hc'. injection Hc' as <-.
  destruct (Forall2_lookup_r _ _ _ _ _ HF Hi) as (r0 & _ & x & _ & ->).
  unfold groupable in Hg. cbn [entry_of e_key e_label] in Hg.
  apply andb_prop in Hg as [_ Hg].
  rewrite cell_at_set_cell_ne, cell_at_set_cell_eq in Hg |- * by done.
  by destruct (map_dict_TYPE_LABELS (cell_at r0 c)) as [Hn|(l & _ & ->)];
    [rewrite Hn in Hg|].
Qed.

(** C4. Whenever [_handle_region_data] returns a table, its columns are
    the four index columns followed by [Load], [Load Forecast],
    [Net Generation] and [Total Interchange], each of which had a row of
    its label in the long table.  Its rows are in strictly ascending order
    of the index key, so there is one row per key; the keys are those
    that some row of the long table has together with a label and a
    value, none of them missing.  Each value cell is the mean of the
    values that the long table has for that key and label, cut to an
    integer toward zero by the cast of lines 267-268, and is an integer or
    missing. *)
Theorem C4_region_pivot (df out : DataFrame) :
  _handle_region_data df = Ok out →
  ∃ long idx c v,
    let live := live_entries long idx c v in
    region_long df = Ok long
    ∧ res_all (map (col_pos long) REGION_INDEX) = Ok idx
    ∧ col_pos long "Type" = Ok c
    ∧ col_pos long "MW" = Ok v
    ∧ columns out = REGION_INDEX ++ REGION_VALUES
    ∧ (∀ l, l ∈ REGION_VALUES → ∃ e, e ∈ live ∧ e_label e = VStr l)
    ∧ StronglySorted
        (fun r1 r2 => lex_leb (take 4 r1) (take 4 r2) = true
                      ∧ lex_leb (take 4 r2) (take 4 r1) = false)
        (rows out)
    ∧ (∀ row, row ∈ rows out →
         length row = 8%nat
         ∧ (∃ e, e ∈ live ∧ eqvb lex_leb (take 4 row) (e_key e) = true
                 ∧ is_null (e_value e) = false)
         ∧ ∀ n l, REGION_VALUES !! n = Some l →
             (m ← mean (cell_values live (take 4 row) l); to_Int64_masked m)
             = Ok (cell_at row (4 + n))
             ∧ (cell_at row (4 + n) = VNull ∨ ∃ z, cell_at row (4 + n) = VInt z))
    ∧ (∀ e, e ∈ live → is_null (e_value e) = false →
         ∃ row, row ∈ rows out ∧ eqvb lex_leb (take 4 row) (e_key e) = true).
Proof.
  unfold _handle_region_data.
  destruct (region_long df) as [long|e] eqn:Hlong; simpl; [|done].
  destruct (pivot_table REGION_INDEX "Type" "MW" long) as [wide|e] eqn:Hpiv;
    simpl; [|done].
  intros Hcasts.
  apply pivot_table_inv in Hpiv
    as (idx & c & v & labels & keys & cell & Hidx & Hc & Hv & Hcols & Hrows
        & Hsl & Hsk & Hclash & HL1 & HK1 & HK2 & HE).
  destruct (casts_inv wide out Hcasts) as (Hcols' & Hmem & Hcast).
  destruct (region_long_inv df long Hlong) as (df1 & c' & v' & _ & Hc' & Hv' & Hne & HF).
  rewrite Hc in Hc'. injection Hc' as <-. rewrite Hv in Hv'. injection Hv' as <-.
  set (live := live_entries long idx c v) in *.
  assert (labels = REGION_VALUES) as ->.
  { apply (strict_sorted_eq
             (fun a b => String.leb a b = true ∧ String.leb b a = false));
      [by intros a b [Hab _] [_ Hba]; rewrite Hab in Hba
      | done
      | apply REGION_VALUES_sorted |].
    intros l. split.
    - intros Hl. destruct (HL1 l Hl) as (e & He & Hel).
      apply live_entries_elem in He as (r & [i Hi]%list_elem_of_lookup & -> & _).
      simpl in Hel.
      destruct (Forall2_lookup_r _ _ _ _ _ HF Hi) as (r0 & _ & x & _ & ->).
      rewrite cell_at_set_cell_ne, cell_at_set_cell_eq in Hel by done.
      destruct (map_dict_TYPE_LABELS (cell_at r0 c)) as [Hn|(l' & Hl' & Hs)];
        congruence.
    - intros Hl. specialize (Hmem l Hl). rewrite Hcols in Hmem.
      apply elem_of_app in Hmem as [Hbad|?]; [|done].
      exfalso. unfold REGION_VALUES, REGION_INDEX in *. set_solver. }
  assert (∀ r, r ∈ rows wide → length r = 8%nat) as Hlen.
  { intros r. rewrite Hrows. intros (k & -> & Hk)%list_elem_of_fmap.
    destruct (HK1 k Hk) as [Hlk _]. rewrite length_app, length_map, Hlk. done. }
  specialize (Hcast Hcols Hlen). rewrite Hrows in Hcast.
  apply Forall2_fmap_l in Hcast.
  assert (Forall2 (fun k r' =>
                     take 4 r' = k ∧ length r' = 8%nat
                     ∧ ∀ n l, REGION_VALUES !! n = Some l →
                         to_Int64_masked (cell k l) = Ok (cell_at r' (4 + n)))
                  keys (rows out)) as Hout.
  { apply Forall2_same_length_lookup. split; [by eapply Forall2_length|].
    intros i k r' Hk Hr'.
    destruct (Forall2_lookup_l _ _ _ _ _ Hcast Hk) as (r'' & Hr'' & Ht & Hl8 & Hcells).
    rewrite Hr' in Hr''. injection Hr'' as <-.
    destruct (HK1 k (list_elem_of_lookup_2 _ _ _ Hk)) as [Hlk _].
    split; [by rewrite Ht, take_app_length'|]. split; [done|].
    intros n l Hnl.
    assert (n < 4)%nat as Hn4 by (by apply lookup_lt_Some in Hnl).
    rewrite <- Hcells by done.
    f_equal. unfold cell_at. rewrite nth_lookup, lookup_app_r by (rewrite Hlk; simpl; lia).
    rewrite Hlk. replace (4 + n - length REGION_INDEX)%nat with n by (simpl; lia).
    by rewrite list_lookup_fmap, Hnl. }
  exists long, idx, c, v. cbv zeta. fold live.
  split; [done|]. split; [done|]. split; [done|]. split; [done|].
  split; [by rewrite Hcols', Hcols|]. split; [apply HL1|]. split.
  { eapply (StronglySorted_Forall2 _ _ _ keys (rows out)); [|done|done].
    by intros a b a' b' (-> & _) (-> & _). }
  split.
  - intros row [i Hi]%list_elem_of_lookup.
    destruct (Forall2_lookup_r _ _ _ _ _ Hout Hi) as (k & Hk & Ht & Hl8 & Hcells).
    apply list_elem_of_lookup_2 in Hk.
    split; [done|]. rewrite Ht. split; [by apply HK1|].
    intros n l Hnl. rewrite HE. simpl. split; [by apply Hcells|].
    eapply to_Int64_masked_shape. by apply Hcells.
  - intros e He Hnn. destruct (HK2 e He Hnn) as [(k & [i Hk]%list_elem_of_lookup & Hke) _].
    destruct (Forall2_lookup_l _ _ _ _ _ Hout Hk) as (row & Hrow & Ht & _).
    exists row. split; [by eapply list_elem_of_lookup_2|]. by rewrite Ht.
Qed.

(** ** Rows with an unrecognised type code *)








(** ** Page arithmetic *)

Lemma total_pages_ceil (total : Z) :
  page_size * (total_pages_of total - 1) < total ≤ page_size * total_pages_of total.
Proof.
  unfold total_pages_of, page_size.
  pose proof (Z.div_mod (total + 5000 - 1) 5000).
  pose proof (Z.mod_pos_bound (total + 5000 - 1) 5000). lia.
Qed.

Lemma offset_of_page_request (url : string) (hd : headers_t)
    (o : list (string * json)) (p : Z) :
  offset_of (page_request url hd o p) = Some (p * page_size).
Proof.
  unfold offset_of, page_request, page_headers. cbn [req_headers].
  rewrite lookup_insert_eq. unfold json_dumps. cbv beta iota.
  by rewrite assoc_dict_setitem_eq.
Qed.

Lemma offset_of_first_request (url start_str : string) (end_str : option string) :
  offset_of (mkRequest url (headers_of start_str end_str)) = Some 0.
Proof.
  unfold offset_of. cbn [req_headers]. by rewrite headers_of_params.
Qed.

Lemma paged_source_page (data : list record) (url start_str : string)
    (end_str : option string) (p : Z) :
  paged_source data
    (page_request url (headers_of start_str end_str) (params_items start_str end_str) p)
  = Ok (take (Z.to_nat page_size) (drop (Z.to_nat (p * page_size)) data),
        Z.of_nat (length data)).
Proof.
  unfold paged_source, page_request, page_headers. cbn [req_headers].
  rewrite lookup_insert_eq. unfold json_dumps. cbv beta iota.
  rewrite assoc_dict_setitem_eq, assoc_dict_setitem_ne by done. done.
Qed.

Lemma paged_source_first (data : list record) (url start_str : string)
    (end_str : option string) :
  paged_source data (mkRequest url (headers_of start_str end_str))
  = Ok (take (Z.to_nat page_size) data, Z.of_nat (length data)).
Proof.
  unfold paged_source. cbn [req_headers]. by rewrite headers_of_params.
Qed.

Lemma three_pages (data : list record) :
  Z.of_nat (length data) = 12000 →
  take (Z.to_nat page_size) data
  ++ take (Z.to_nat page_size) (drop (Z.to_nat (1 * page_size)) data)
  ++ take (Z.to_nat page_size) (drop (Z.to_nat (2 * page_size)) data)
  = data.
Proof.
  intros Hlen. unfold page_size.
  replace (Z.to_nat (1 * 5000)) with (Z.to_nat 5000) by lia.
  replace (Z.to_nat (2 * 5000)) with (Z.to_nat 5000 + Z.to_nat 5000)%nat by lia.
  set (n := Z.to_nat 5000) in *.
  rewrite <- (drop_drop data n n).
  rewrite (take_ge (drop n (drop n data))) by (rewrite !length_drop; lia).
  by rewrite !take_drop.
Qed.

(** C1. With the total that the first page reports, the page count of
    line 110 is the ceiling of [total / page_size] for a page size of
    5000, and the call sends that many GETs (one when the count is below
    one).  A total of at most one page size means one GET and nothing
    else.  A total of 12000 means three GETs, at offsets 0, 5000 and
    10000, and the raw table is the first page followed by the pages at
    5000 and at 10000; served from a source that holds 12000 records, the
    raw table holds exactly these records, in their order. *)
Theorem C1_page_count (dataset start_str : string) (end_str : option string)
    (n_workers : Z) (verbose : bool) (sched : list action)
    (raw_df : DataFrame) (total : Z) :
  let url := BASE_URL +:+ dataset +:+ "/data/" in
  let hd := headers_of start_str end_str in
  let o := params_items start_str end_str in
  let raw := fetch_raw dataset start_str end_str n_workers verbose sched in
  let out := get_dataset dataset start_str end_str n_workers verbose sched in
  _fetch_page (mkRequest url hd) = Ok (raw_df, total) →
  1 ≤ n_workers →
  page_size = 5000
  ∧ page_size * (total_pages_of total - 1) < total ≤ page_size * total_pages_of total
  ∧ Z.of_nat (length (sent out)) = Z.max 1 (total_pages_of total)
  ∧ (total ≤ page_size → sent out = [mkRequest url hd] ∧ ret raw = Ok raw_df)
  ∧ (total = 12000 →
       map offset_of (sent out) ≡ₚ [Some 0; Some 5000; Some 10000]
       ∧ ret raw = (t1 ← page_result url hd o 1;
                    t2 ← page_result url hd o 2;
                    Ok (pd_concat [raw_df; t1; t2]))
       ∧ ∀ data : list record,
           (∀ rq, source rq = paged_source data rq) →
           Z.of_nat (length data) = 12000 →
           ret raw = Ok (DataFrame_of data)
           ∧ rows (DataFrame_of data)
             = map (fun r => map (fun c => default VNull (assoc c r))
                                 (columns (DataFrame_of data))) data
           ∧ Z.of_nat (nrows (DataFrame_of data)) = 12000).
Proof.
  intros url hd o raw out H0 Hw.
  pose proof (total_pages_ceil total) as Hceil.
  split; [done|]. split; [done|].
  assert (sent out = sent raw) as Hsent by apply get_dataset_sent.
  split; [|split].
  - rewrite Hsent. subst raw. rewrite fetch_raw_sent. unfold expected_requests.
    fold url hd o. rewrite H0.
    destruct (decide _) as [[Hp _]|Hno]; simpl.
    + rewrite length_map. unfold py_range. rewrite length_map, length_seq. lia.
    + lia.
  - intros Hle. rewrite Hsent. subst raw. unfold fetch_raw. fold url hd. rewrite H0.
    destruct (decide (total_pages_of total > 1)) as [Hp|_]; [|done].
    unfold page_size in *. lia.
  - intros ->.
    assert (total_pages_of 12000 > 1) as Hp by done.
    destruct (fetch_raw_pages dataset start_str end_str n_workers verbose sched
                raw_df 12000 H0 Hp Hw) as (Hret & Hreq & _).
    fold url hd o raw in Hret, Hreq.
    change (py_range 1 (total_pages_of 12000)) with [1; 2] in Hret, Hreq.
    split; [|split].
    + rewrite Hsent, Hreq. simpl.
      rewrite !offset_of_page_request. subst hd.
      by rewrite offset_of_first_request.
    + rewrite Hret. simpl.
      destruct (page_result url hd o 1); simpl; [|done].
      by destruct (page_result url hd o 2).
    + intros data Hsrc Hlen.
      assert (raw_df = DataFrame_of (take (Z.to_nat page_size) data)) as ->.
      { unfold _fetch_page in H0. subst hd.
        rewrite Hsrc, paged_source_first in H0. simpl in H0. congruence. }
      assert (∀ p, page_result url hd o p
                   = Ok (DataFrame_of (take (Z.to_nat page_size)
                                            (drop (Z.to_nat (p * page_size)) data))))
        as Hpage.
      { intros p. unfold page_result, _fetch_page. subst hd o.
        by rewrite Hsrc, paged_source_page. }
      split; [|split].
      * rewrite Hret. cbn [map res_all]. rewrite !Hpage. cbn [mbind res_bind].
        match goal with
        | |- context [pd_concat [DataFrame_of ?a; DataFrame_of ?b; DataFrame_of ?c]] =>
            change (pd_concat [DataFrame_of a; DataFrame_of b; DataFrame_of c])
              with (pd_concat (map DataFrame_of [a; b; c]))
        end.
        rewrite pd_concat_DataFrame_of. cbn [concat].
        by rewrite app_nil_r, three_pages.
      * done.
      * unfold nrows, DataFrame_of. cbn [rows]. by rewrite length_map.
Qed.

(** ** The pool size and the key *)

(** X2. The pool size is looked at only when there is more than one page.
    With a size of zero or less, a total of at most one page size gives the
    first page's table as the raw table, as any other size does; a larger
    total makes the call raise the [ValueError] of the executor, after the
    first request and before any other. *)
Theorem pool_size_checked_late (dataset start_str : string) (end_str : option string)
    (n_workers : Z) (verbose : bool) (sched : list action)
    (data : list record) (total : Z) :
  let url := BASE_URL +:+ dataset +:+ "/data/" in
  let hd := headers_of start_str end_str in
  let raw := fetch_raw dataset start_str end_str n_workers verbose sched in
  let out := get_dataset dataset start_str end_str n_workers verbose sched in
  source (mkRequest url hd) = Ok (data, total) →
  n_workers ≤ 0 →
  sent out = [mkRequest url hd]
  ∧ (total ≤ page_size → ret raw = Ok (DataFrame_of data))
  ∧ (page_size < total →
     ret out = Raise (ValueError "max_workers must be greater than 0")).
Proof.
  intros url hd raw out H0 Hw. subst raw out.
  pose proof (total_pages_ceil total) as Hceil.
  rewrite get_dataset_sent, get_dataset_ret.
  unfold fetch_raw, _fetch_page. fold url hd. rewrite H0. cbn [mbind res_bind].
  destruct (decide (total_pages_of total > 1)) as [Hp|Hp].
  - destruct (decide (n_workers <= 0)) as [_|]; [|lia].
    cbn [sent ret]. split; [done|]. split; [|done].
    unfold page_size in *. lia.
  - cbn [sent ret]. split; [done|]. split; [done|].
    unfold page_size in *. lia.
Qed.

(** X3. The constructor raises exactly when no key is passed and the
    environment has no [EIA_API_KEY]; a key that is passed wins over the
    environment, the empty string included.  The key it keeps is the one
    that every request of [get_dataset] carries in its [X-Api-Key] header,
    on the first page and on every further one. *)
Theorem key_reaches_every_request (arg : option string) (environ : gmap string string)
    (dataset start_str : string) (end_str : option string)
    (n_workers : Z) (verbose : bool) (sched : list action) :
  (is_ok (__init__ arg environ) = false
   ↔ arg = None ∧ environ !! "EIA_API_KEY" = None)
  ∧ (∀ k, arg = Some k → __init__ arg environ = Ok k)
  ∧ (∀ k, arg = None → environ !! "EIA_API_KEY" = Some k → __init__ arg environ = Ok k)
  ∧ (__init__ arg environ = Ok api_key →
     ∀ rq, rq ∈ sent (get_dataset dataset start_str end_str n_workers verbose sched) →
       req_headers rq !! "X-Api-Key" = Some (Lit api_key)).
Proof.
  split; [|split; [|split]].
  - unfold __init__. destruct arg as [k|]; simpl.
    + split; [done|]. by intros [? _].
    + destruct (environ !! "EIA_API_KEY"); simpl; split; try done. by intros [_ ?].
  - by intros k ->.
  - intros k -> Henv. unfold __init__. by rewrite Henv.
  - intros _ rq. rewrite get_dataset_sent, fetch_raw_sent. unfold expected_requests.
    rewrite elem_of_cons. intros [->|Hin].
    + cbn [req_headers]. unfold headers_of.
      rewrite lookup_insert_ne by done. by rewrite lookup_insert_eq.
    + destruct (_fetch_page _) as [[raw_df total]|e]; [|by apply elem_of_nil in Hin].
      destruct (decide _); [|by apply elem_of_nil in Hin].
      apply list_elem_of_fmap in Hin as (p & -> & _).
      unfold page_request, page_headers, headers_of. cbn [req_headers].
      rewrite !lookup_insert_ne by done. by rewrite lookup_insert_eq.
Qed.

(** ** The windows that the requests ask for *)

Lemma py_range_cons (lo hi : Z) : lo < hi → py_range lo hi = lo :: py_range (lo + 1) hi.
Proof.
  intros Hlt. unfold py_range.
  replace (Z.to_nat (hi - lo)) with (S (Z.to_nat (hi - (lo + 1)))) by lia.
  cbn [seq map]. f_equal; [lia|].
  rewrite <- fmap_S_seq, <- list_fmap_compose.
  apply list_fmap_ext. intros _ k _. simpl. lia.
Qed.

Lemma py_range_nil (lo hi : Z) : hi ≤ lo → py_range lo hi = [].
Proof. intros Hle. unfold py_range. by replace (Z.to_nat (hi - lo)) with 0%nat by lia. Qed.

Lemma NoDup_py_range (lo hi : Z) : NoDup (py_range lo hi).
Proof.
  unfold py_range. apply NoDup_fmap_2; [|apply NoDup_seq].
  intros a b. lia.
Qed.

(** The first request is the first to reach the source. *)
Lemma fetch_raw_sent_head (dataset start_str : string) (end_str : option string)
    (n_workers : Z) (verbose : bool) (sched : list action) :
  ∃ rest, sent (fetch_raw dataset start_str end_str n_workers verbose sched)
          = mkRequest (BASE_URL +:+ dataset +:+ "/data/") (headers_of start_str end_str)
            :: rest.
Proof.
  unfold fetch_raw.
  set (url := BASE_URL +:+ dataset +:+ "/data/"). set (hd := headers_of start_str end_str).
  destruct (_fetch_page (mkRequest url hd)) as [[raw_df total]|e]; [|by eexists].
  destruct (decide (total_pages_of total > 1)); [|by eexists].
  destruct (decide (n_workers <= 0)) as [|Hw]; [by eexists|].
  set (pages := py_range 1 (total_pages_of total)).
  set (st0 := mkPool _ _ _ _ _ _).
  pose proof (inv_init url hd (params_items start_str end_str) pages (mkRequest url hd))
    as Hinit. fold st0 in Hinit.
  pose proof (inv_run url hd _ pages n_workers (mkRequest url hd)
                (headers_of_params _ _) sched st0 Hinit) as Hrun.
  destruct (join_spec url hd _ pages n_workers (mkRequest url hd)
              (headers_of_params _ _) ltac:(lia) _ Hrun) as (Hinv & _ & _).
  set (st := join _ _ _ _) in *.
  exists (map (fun i => page_request url hd (params_items start_str end_str)
                          (default 0 (pages !! i))) (completed st)).
  destruct (res_all _); cbn [sent]; by rewrite (inv_requests _ _ _ _ _ _ Hinv).
Qed.

Lemma sent_offsets (dataset start_str : string) (end_str : option string)
    (n_workers : Z) (verbose : bool) (sched : list action)
    (data : list record) (total : Z) :
  source (mkRequest (BASE_URL +:+ dataset +:+ "/data/") (headers_of start_str end_str))
  = Ok (data, total) →
  1 ≤ n_workers →
  map offset_of (sent (get_dataset dataset start_str end_str n_workers verbose sched))
  ≡ₚ map (fun p => Some (p * page_size)) (py_range 0 (Z.max 1 (total_pages_of total))).
Proof.
  intros H0 Hw. rewrite get_dataset_sent, fetch_raw_sent. unfold expected_requests.
  unfold _fetch_page at 1. rewrite H0. cbn [mbind res_bind fmap map].
  rewrite offset_of_first_request.
  destruct (decide _) as [[Hp _]|Hno].
  - rewrite (py_range_cons 0) by lia. cbn [map]. change (0 + 1) with 1.
    replace (Z.max 1 (total_pages_of total)) with (total_pages_of total) by lia.
    constructor. rewrite <- list_fmap_compose.
    erewrite list_fmap_ext; [done|]. intros _ p _. simpl.
    apply offset_of_page_request.
  - replace (Z.max 1 (total_pages_of total)) with 1 by lia. done.
Qed.

(** X4. With the total that the first page reports and a pool of at least
    one worker, for every schedule: the first request is the first one
    sent; the offsets asked for are [0, page_size, 2 * page_size, ...], one
    per page and none twice; every record index below the total lies in
    the window [offset, offset + page_size) of exactly one request; and
    no request but the first asks for a window that starts at or beyond
    the total. *)
Theorem page_windows_tile (dataset start_str : string) (end_str : option string)
    (n_workers : Z) (verbose : bool) (sched : list action)
    (data : list record) (total : Z) :
  let url := BASE_URL +:+ dataset +:+ "/data/" in
  let hd := headers_of start_str end_str in
  let out := get_dataset dataset start_str end_str n_workers verbose sched in
  source (mkRequest url hd) = Ok (data, total) →
  1 ≤ n_workers →
  (∃ rest, sent out = mkRequest url hd :: rest)
  ∧ map offset_of (sent out)
    ≡ₚ map (fun p => Some (p * page_size)) (py_range 0 (Z.max 1 (total_pages_of total)))
  ∧ NoDup (map offset_of (sent out))
  ∧ (∀ k, 0 ≤ k < total →
       ∃ off, Some off ∈ map offset_of (sent out)
              ∧ off ≤ k < off + page_size
              ∧ ∀ off', Some off' ∈ map offset_of (sent out) →
                        off' ≤ k < off' + page_size → off' = off)
  ∧ (∀ off, Some off ∈ map offset_of (sent out) → off = 0 ∨ 0 < off < total).
Proof.
  intros url hd out H0 Hw.
  pose proof (sent_offsets dataset start_str end_str n_workers verbose sched
                data total H0 Hw) as Hperm.
  fold out in Hperm.
  pose proof (total_pages_ceil total) as Hceil.
  assert (∀ off, Some off ∈ map offset_of (sent out)
                 ↔ ∃ p, off = p * page_size ∧ 0 ≤ p < Z.max 1 (total_pages_of total))
    as Hmem.
  { intros off. rewrite Hperm, list_elem_of_fmap. split.
    - intros (p & [= ->] & Hp%elem_of_py_range). by exists p.
    - intros (p & -> & Hp). exists p. split; [done|]. by apply elem_of_py_range. }
  split; [|split; [done|split; [|split]]].
  - subst out. rewrite get_dataset_sent. apply fetch_raw_sent_head.
  - rewrite Hperm. apply NoDup_fmap_2; [|apply NoDup_py_range].
    intros a b [= Hab]. unfold page_size in Hab. lia.
  - intros k Hk. exists (k `div` page_size * page_size).
    pose proof (Z.div_mod k page_size ltac:(done)) as Hdm.
    pose proof (Z.mod_pos_bound k page_size ltac:(done)) as Hmod.
    split; [|split].
    + apply Hmem. exists (k `div` page_size). split; [done|].
      unfold page_size in *. split; [apply Z.div_pos; lia|].
      apply Z.div_lt_upper_bound; lia.
    + unfold page_size in *. lia.
    + intros off' (p & -> & Hp)%Hmem Hwin. f_equal.
      apply (Z.div_unique k page_size p (k - p * page_size)); unfold page_size in *; lia.
  - intros off (p & -> & Hp)%Hmem. unfold page_size in *. lia.
Qed.

(** ** Paging over a source that serves slices *)

Lemma chunks_concat {A} (s : nat) (data : list A) (n i : nat) :
  concat (map (fun k => take s (drop ((i + k) * s) data)) (seq 0 n))
  = take (n * s) (drop (i * s) data).
Proof.
  revert i. induction n as [|n IH]; intros i; [done|].
  cbn [seq map concat]. rewrite <- fmap_S_seq, <- list_fmap_compose.
  erewrite (list_fmap_ext _ (fun k => take s (drop ((S i + k) * s) data)));
    [|intros _ k _; simpl; do 2 f_equal; lia].
  rewrite IH. replace (i + 0)%nat with i by lia.
  replace (S i * s)%nat with (i * s + s)%nat by lia.
  rewrite <- drop_drop, take_take_drop. f_equal.
Qed.

Lemma paged_chunks (data : list record) (n : Z) :
  Z.of_nat (length data) ≤ page_size * n →
  concat (map (fun p => take (Z.to_nat page_size) (drop (Z.to_nat (p * page_size)) data))
              (py_range 0 n))
  = data.
Proof.
  intros Hlen. unfold py_range. rewrite <- list_fmap_compose.
  erewrite (list_fmap_ext _ (fun k => take (Z.to_nat page_size)
                                       (drop ((0 + k) * Z.to_nat page_size) data)));
    [|intros _ k _; simpl; do 2 f_equal; unfold page_size; lia].
  rewrite chunks_concat. simpl. apply take_ge. unfold page_size in *. lia.
Qed.

(** Over a source that serves slices the raw table is the table of all
    its records. *)
Lemma fetch_raw_paged_source (dataset start_str : string) (end_str : option string)
    (n_workers : Z) (verbose : bool) (sched : list action) (data : list record) :
  (∀ rq, source rq = paged_source data rq) →
  1 ≤ n_workers →
  ret (fetch_raw dataset start_str end_str n_workers verbose sched)
  = Ok (DataFrame_of data).
Proof.
  intros Hsrc Hw.
  rewrite fetch_raw_ret by done. unfold paged_fetch_spec.
  set (url := BASE_URL +:+ dataset +:+ "/data/").
  unfold _fetch_page at 1. rewrite Hsrc, paged_source_first. cbn [mbind res_bind].
  pose proof (total_pages_ceil (Z.of_nat (length data))) as Hceil.
  destruct (decide _) as [Hp|Hp].
  - rewrite (res_all_map_Ok _
               (fun p => DataFrame_of (take (Z.to_nat page_size)
                                            (drop (Z.to_nat (p * page_size)) data)))).
    2:{ intros p _. unfold page_result, _fetch_page.
        by rewrite Hsrc, paged_source_page. }
    cbn [mbind res_bind]. f_equal.
    rewrite <- (paged_chunks data (total_pages_of (Z.of_nat (length data)))) at 3
      by lia.
    rewrite (py_range_cons 0) by lia. cbn [map]. change (0 + 1) with 1.
    change (Z.to_nat (0 * page_size)) with 0%nat. rewrite drop_0.
    rewrite <- pd_concat_DataFrame_of. cbn [map]. f_equal. f_equal.
    by rewrite <- list_fmap_compose.
  - do 2 f_equal. apply take_ge. unfold page_size in *. lia.
Qed.

(** X5. Over a source that holds a fixed list of records and serves the
    slice a request asks for, the paging cannot be seen: for every number
    of records, every schedule and every pool of at least one worker the
    raw table is the table of the whole list, no record lost, repeated or
    out of place, and [get_dataset] returns what the dataset's handler
    makes of that table, or the table itself when there is no handler. *)
Theorem paging_is_transparent (dataset start_str : string) (end_str : option string)
    (n_workers : Z) (verbose : bool) (sched : list action) (data : list record) :
  (∀ rq, source rq = paged_source data rq) →
  1 ≤ n_workers →
  ret (fetch_raw dataset start_str end_str n_workers verbose sched)
  = Ok (DataFrame_of data)
  ∧ ret (get_dataset dataset start_str end_str n_workers verbose sched)
    = match DATASET_HANDLERS !! dataset with
      | Some handler => handler (DataFrame_of data)
      | None => Ok (DataFrame_of data)
      end
  ∧ nrows (DataFrame_of data) = length data.
Proof.
  intros Hsrc Hw.
  pose proof (fetch_raw_paged_source dataset start_str end_str n_workers verbose sched
                data Hsrc Hw) as Hraw.
  split; [done|]. split.
  - by rewrite get_dataset_ret, Hraw.
  - unfold nrows, DataFrame_of. cbn [rows]. by rewrite length_map.
Qed.

(** ** What a verbose call writes *)

Lemma get_dataset_console (dataset start_str : string) (end_str : option string)
    (n_workers : Z) (verbose : bool) (sched : list action) :
  console (get_dataset dataset start_str end_str n_workers verbose sched)
  = console (fetch_raw dataset start_str end_str n_workers verbose sched).
Proof.
  unfold get_dataset.
  destruct (ret (fetch_raw _ _ _ _ _ _)); [|done].
  by destruct (DATASET_HANDLERS !! dataset).
Qed.

Lemma map_const_replicate {A B} (b : B) (l : list A) :
  map (fun _ => b) l = replicate (length l) b.
Proof. induction l as [|a l IH]; [done|]. simpl. by rewrite IH. Qed.

Lemma length_py_range (lo hi : Z) : length (py_range lo hi) = Z.to_nat (hi - lo).
Proof. unfold py_range. by rewrite length_map, length_seq. Qed.

(** X6. A verbose call writes its three log lines, the two totals and the
    heading; with more than one page and a pool of at least one worker it
    then shows one progress bar, opened with the page count, which has
    received exactly that many updates when it is closed: one for the
    first page and one per call that completed, in whatever order the
    calls completed and whether or not one of them failed. *)
Theorem progress_bar_runs_full (dataset start_str : string) (end_str : option string)
    (n_workers : Z) (sched : list action) (data : list record) (total : Z) :
  let url := BASE_URL +:+ dataset +:+ "/data/" in
  let hd := headers_of start_str end_str in
  let pages := total_pages_of total in
  source (mkRequest url hd) = Ok (data, total) →
  1 ≤ n_workers →
  console (get_dataset dataset start_str end_str n_workers true sched)
  = [LogFetching url; LogParams (params_of start_str end_str); LogWorkers n_workers;
     PrintTotalRecords total; PrintTotalPages pages; PrintFetching]
    ++ if decide (pages > 1)
       then BarOpen pages :: replicate (Z.to_nat pages) (BarUpdate 1) ++ [BarClose]
       else [].
Proof.
  intros url hd pages H0 Hw. rewrite get_dataset_console.
  unfold fetch_raw, _fetch_page. fold url hd. rewrite H0. cbn [mbind res_bind].
  fold pages. destruct (decide (pages > 1)) as [Hp|Hp]; [|by rewrite app_nil_r].
  destruct (decide (n_workers <= 0)) as [|_]; [lia|].
  set (st0 := mkPool _ _ _ _ _ _).
  pose proof (inv_init url hd (params_items start_str end_str) (py_range 1 pages)
                (mkRequest url hd)) as Hinit. fold st0 in Hinit.
  pose proof (inv_run url hd _ (py_range 1 pages) n_workers (mkRequest url hd)
                (headers_of_params _ _) sched st0 Hinit) as Hrun.
  destruct (join_spec url hd _ (py_range 1 pages) n_workers (mkRequest url hd)
              (headers_of_params _ _) Hw _ Hrun) as (Hinv & _ & Hreq).
  set (st := join _ _ _ _) in *.
  assert (length (completed st) = length (py_range 1 pages)) as Hlen.
  { apply Permutation_length in Hreq.
    rewrite (inv_requests _ _ _ _ _ _ Hinv) in Hreq. simpl in Hreq.
    rewrite !length_map in Hreq. lia. }
  assert (progress pages (completed st) (py_range 1 pages)
          = BarOpen pages :: replicate (Z.to_nat pages) (BarUpdate 1) ++ [BarClose])
    as Hbar.
  { unfold progress. rewrite map_const_replicate, length_zip_with, Hlen, Nat.min_id.
    rewrite length_py_range.
    replace (Z.to_nat pages) with (S (Z.to_nat (pages - 1))) by lia. done. }
  destruct (res_all _); cbn [console]; by rewrite Hbar, <- app_assoc.
Qed.

(** ** Tables without a [period] column *)

Lemma _handle_time_no_period (df : DataFrame) (frequency : string) :
  "period" ∉ columns df → _handle_time df frequency = Raise (KeyError "period").
Proof.
  intros Hno. unfold _handle_time, getitem, col_pos, positions.
  by rewrite positions_from_notin.
Qed.

Lemma handlers_no_period (dataset : string) (handler : DataFrame -> res DataFrame)
    (df : DataFrame) :
  DATASET_HANDLERS !! dataset = Some handler →
  "period" ∉ columns df → handler df = Raise (KeyError "period").
Proof.
  intros Hh Hno. unfold DATASET_HANDLERS in Hh.
  apply lookup_insert_Some in Hh as [[_ <-]|[_ Hh]].
  - unfold _handle_region_data, region_long. by rewrite _handle_time_no_period.
  - apply lookup_insert_Some in Hh as [[_ <-]|[_ Hh]]; [|done].
    unfold _handle_rto_interchange. by rewrite _handle_time_no_period.
Qed.

(** X7. For the two datasets that have a handler, a raw table without a
    [period] column makes [get_dataset] raise [KeyError] for that label
    instead of returning a table.  This is what happens when the source
    has no record for the dates asked for: the answer is an empty list,
    its table has no column at all, and the call raises, whatever the pool
    size and the schedule. *)
Theorem registered_dataset_needs_period (dataset start_str : string)
    (end_str : option string) (n_workers : Z) (verbose : bool) (sched : list action) :
  let url := BASE_URL +:+ dataset +:+ "/data/" in
  let hd := headers_of start_str end_str in
  let out := get_dataset dataset start_str end_str n_workers verbose sched in
  dataset = "electricity/rto/interchange-data" ∨ dataset = "electricity/rto/region-data" →
  (∀ raw,
     ret (fetch_raw dataset start_str end_str n_workers verbose sched) = Ok raw →
     "period" ∉ columns raw →
     ret out = Raise (KeyError "period"))
  ∧ (∀ total,
       source (mkRequest url hd) = Ok ([], total) →
       total ≤ page_size →
       ret out = Raise (KeyError "period") ∧ sent out = [mkRequest url hd]).
Proof.
  intros url hd out Hreg.
  assert (∃ handler, DATASET_HANDLERS !! dataset = Some handler) as [handler Hh].
  { destruct Hreg as [-> | ->]; by eexists. }
  assert (∀ raw,
            ret (fetch_raw dataset start_str end_str n_workers verbose sched) = Ok raw →
            "period" ∉ columns raw → ret out = Raise (KeyError "period")) as Hgen.
  { intros raw Hraw Hno. subst out. rewrite get_dataset_ret, Hraw, Hh.
    by eapply handlers_no_period. }
  split; [done|]. intros total H0 Hle.
  pose proof (total_pages_ceil total) as Hceil.
  assert (fetch_raw dataset start_str end_str n_workers verbose sched
          = mkOutcome (Ok (DataFrame_of [])) [mkRequest url hd]
              (console (fetch_raw dataset start_str end_str n_workers verbose sched))
              {[ 0%nat := hd ]}) as Hraw.
  { unfold fetch_raw, _fetch_page. fold url hd. rewrite H0. cbn [mbind res_bind].
    destruct (decide (total_pages_of total > 1)) as [Hp|_]; [|done].
    unfold page_size in *. lia. }
  split.
  - apply (Hgen (DataFrame_of [])); [by rewrite Hraw|]. simpl. apply not_elem_of_nil.
  - subst out. by rewrite get_dataset_sent, Hraw.
Qed.

(** ** When [_handle_time] returns *)

Lemma res_all_is_ok {A B} (f : A -> res B) (l : list A) :
  is_ok (res_all (map f l)) = true ↔ ∀ x, x ∈ l → is_ok (f x) = true.
Proof.
  induction l as [|a l IH]; simpl.
  - split; [|done]. intros _ x Hx. by apply elem_of_nil in Hx.
  - destruct (f a) as [b|e] eqn:Hb; simpl.
    + destruct (res_all (map f l)) as [bs|e]; simpl.
      * split; [|done]. intros _ x [->|Hx]%elem_of_cons; [by rewrite Hb|].
        by apply IH.
      * split; [done|]. intros H. apply IH. intros x Hx. apply H.
        apply elem_of_cons. by right.
    + split; [done|]. intros H. specialize (H a). rewrite Hb in H.
      apply H, elem_of_cons. by left.
Qed.

Lemma to_datetime_is_ok (v : value) :
  is_ok (to_datetime v) = true ↔ v = VNull ∨ is_Some (parse_datetime v).
Proof.
  unfold to_datetime.
  destruct v; try (by split; [left|]);
    (destruct (parse_datetime _) eqn:Hp; simpl;
     [split; [by right|done] | split; [done|by intros [|[? ?]]]]).
Qed.

(** X8. [_handle_time] returns a table exactly when the table has one
    column [period], every label in it is missing or parses, the frequency
    is one that [pd.Timedelta] understands, and there is no column
    [Interval End] or [Interval Start] yet.  A row whose label is missing
    is kept, with both instants missing; every other row gets the instant
    of its label as the end and that instant minus the duration as the
    start. *)
Theorem handle_time_returns_iff (df : DataFrame) (frequency : string) :
  (is_ok (_handle_time df frequency) = true
   ↔ (∃ i, col_pos df "period" = Ok i
           ∧ ∀ r, r ∈ rows df →
               cell_at r i = VNull ∨ is_Some (parse_datetime (cell_at r i)))
     ∧ is_Some (Timedelta frequency)
     ∧ ("Interval End" ∉ columns df)
     ∧ ("Interval Start" ∉ columns df))
  ∧ ∀ out i d k r,
      _handle_time df frequency = Ok out →
      col_pos df "period" = Ok i →
      Timedelta frequency = Some d →
      rows df !! k = Some r →
      length r = length (columns df) →
      (cell_at r i = VNull
       ∧ rows out !! k = Some (VNull :: VNull :: delete i r))
      ∨ (∃ ns, cell_at r i ≠ VNull
               ∧ parse_datetime (cell_at r i) = Some ns
               ∧ rows out !! k = Some (VTime (ns - d) :: VTime ns :: delete i r)).
Proof. clear int_of_str.
  split.
  - rewrite _handle_time_eq.
    destruct (col_pos df "period") as [i|e] eqn:Hi; simpl.
    2:{ split; [done|]. by intros [(i & ? & _) _]. }
    assert (is_ok (res_all (map to_datetime (column_at df i))) = true
            ↔ ∀ r, r ∈ rows df →
                cell_at r i = VNull ∨ is_Some (parse_datetime (cell_at r i))) as Hcells.
    { rewrite res_all_is_ok. unfold column_at. split.
      - intros H r Hr. apply to_datetime_is_ok, H, list_elem_of_fmap. by exists r.
      - intros H v (r & -> & Hr)%list_elem_of_fmap. by apply to_datetime_is_ok, H. }
    destruct (res_all (map to_datetime (column_at df i))) as [ends|e]; simpl.
    2:{ split; [done|]. intros [(i' & [= <-] & Hc) _]. by apply Hcells in Hc. }
    destruct (decide ("Interval End" ∈ columns df)) as [Hie|Hie]; simpl.
    { split; [done|]. by intros (_ & _ & ? & _). }
    destruct (Timedelta frequency) as [d|]; simpl.
    2:{ split; [done|]. by intros (_ & [? ?] & _). }
    destruct (decide ("Interval Start" ∈ "Interval End" :: columns df)) as [His|His];
      simpl.
    { split; [done|]. intros (_ & _ & _ & Hn).
      apply elem_of_cons in His as [|]; done. }
    split; [|done]. intros _. split; [|split; [|split]]; try done.
    + exists i. split; [done|]. by apply Hcells.
    + intros ?. apply His, elem_of_cons. by right.
  - intros out i d k r Hout Hi Hd Hk Hlen.
    rewrite _handle_time_eq, Hi in Hout. simpl in Hout.
    destruct (res_all (map to_datetime (column_at df i))) as [ends|e] eqn:Hends;
      simpl in Hout; [|done].
    destruct (decide ("Interval End" ∈ columns df)); [done|].
    rewrite Hd in Hout.
    destruct (decide ("Interval Start" ∈ "Interval End" :: columns df)); [done|].
    injection Hout as <-. unfold time_frame. cbn [rows].
    apply res_all_Forall2 in Hends.
    assert (column_at df i !! k = Some (cell_at r i)) as Hc.
    { unfold column_at. by rewrite list_lookup_fmap, Hk. }
    destruct (Forall2_lookup_l _ _ _ _ _ Hends Hc) as (e & He & Hto).
    rewrite lookup_zip_with, He, Hk. simpl.
    rewrite (drop_where_unique "period" (columns df) r 0 i
               (col_pos_positions df "period" i Hi) Hlen).
    unfold to_datetime in Hto.
    destruct (cell_at r i) eqn:Hcell.
    { left. injection Hto as <-. done. }
    all: right; destruct (parse_datetime _) as [t|]; [|done];
      injection Hto as <-; by exists t.
Qed.

(** ** The rows of the interchange table *)

Section stability.

Context {A : Type} (leb : A -> A -> bool).
Hypothesis leb_trans : ∀ x y z, leb x y = true → leb y z = true → leb x z = true.

Lemma filter_insert_by (k x : A) (l : list A) :
  filter (fun y => eqvb leb k y = true) (insert_by leb x l)
  = if eqvb leb k x
    then x :: filter (fun y => eqvb leb k y = true) l
    else filter (fun y => eqvb leb k y = true) l.
Proof using leb_trans.
  induction l as [|y l IH]; simpl.
  - destruct (eqvb leb k x) eqn:Hx.
    + by rewrite filter_cons_True.
    + rewrite filter_cons_False; [done|]. by rewrite Hx.
  - destruct (leb x y) eqn:Hxy.
    + destruct (eqvb leb k x) eqn:Hx.
      * by rewrite filter_cons_True.
      * rewrite filter_cons_False; [done|]. by rewrite Hx.
    + destruct (eqvb leb k y) eqn:Hy.
      * rewrite !(filter_cons_True _ y) by done. rewrite IH.
        destruct (eqvb leb k x) eqn:Hx; [|done].
        unfold eqvb in Hx, Hy.
        apply andb_prop in Hx as [_ Hxk]. apply andb_prop in Hy as [Hky _].
        by rewrite (leb_trans x k y Hxk Hky) in Hxy.
      * rewrite !(filter_cons_False _ y) by (by rewrite Hy). apply IH.
Qed.

(** The sort is stable: the elements of one class of the order come out in
    the order they went in. *)
Lemma filter_stable_sort (k : A) (l : list A) :
  filter (fun y => eqvb leb k y = true) (stable_sort leb l)
  = filter (fun y => eqvb leb k y = true) l.
Proof using leb_trans.
  induction l as [|x l IH]; [done|].
  unfold stable_sort in *. cbn [foldr]. rewrite filter_insert_by, IH.
  destruct (eqvb leb k x) eqn:Hx.
  - by rewrite filter_cons_True.
  - rewrite filter_cons_False; [done|]. by rewrite Hx.
Qed.

End stability.

Lemma _handle_time_nrows (df out : DataFrame) (frequency : string) :
  _handle_time df frequency = Ok out → length (rows out) = length (rows df).
Proof.
  rewrite _handle_time_eq.
  destruct (col_pos df "period") as [i|]; simpl; [|done].
  destruct (res_all (map to_datetime (column_at df i))) as [ends|] eqn:Hends;
    simpl; [|done].
  destruct (decide _); [done|]. destruct (Timedelta frequency); [|done].
  destruct (decide _); [done|]. intros [= <-].
  unfold time_frame. cbn [rows]. apply res_all_length in Hends.
  rewrite length_zip_with, Hends, length_map. unfold column_at.
  rewrite length_map. lia.
Qed.

Lemma _handle_rto_interchange_eq (df : DataFrame) :
  _handle_rto_interchange df
  = (sel ← interchange_unsorted df; sort_values ["Interval Start"; "From BA"] sel).
Proof.
  unfold _handle_rto_interchange, interchange_unsorted.
  by destruct (_handle_time df "1h").
Qed.

Lemma interchange_unsorted_nrows (df sel : DataFrame) :
  interchange_unsorted df = Ok sel → length (rows sel) = length (rows df).
Proof.
  unfold interchange_unsorted.
  destruct (_handle_time df "1h") as [df1|] eqn:H1; simpl; [|done].
  apply _handle_time_nrows in H1. rewrite <- H1.
  unfold select. destruct (res_all _); simpl; [|done].
  intros [= <-]. cbn [rows]. by rewrite length_map.
Qed.

Lemma _handle_rto_interchange_nrows (df out : DataFrame) :
  _handle_rto_interchange df = Ok out → length (rows out) = length (rows df).
Proof.
  rewrite _handle_rto_interchange_eq.
  destruct (interchange_unsorted df) as [sel|] eqn:Hsel; simpl; [|done].
  apply interchange_unsorted_nrows in Hsel. rewrite <- Hsel.
  unfold sort_values. destruct (res_all _); simpl; [|done].
  intros [= <-]. cbn [rows]. by rewrite stable_sort_perm.
Qed.

(** X9. Whenever [_handle_rto_interchange] returns a table, its rows are
    the rows of the seven-column table of lines 275-296 in another order:
    as many as the input has, none lost and none repeated.  The sort is
    stable: the rows that agree on [Interval Start] and [From BA] stand in
    the order in which the input has them. *)
Theorem interchange_rows_stable (df out : DataFrame) :
  _handle_rto_interchange df = Ok out →
  ∃ sel i j,
    interchange_unsorted df = Ok sel
    ∧ col_pos sel "Interval Start" = Ok i
    ∧ col_pos sel "From BA" = Ok j
    ∧ columns out = columns sel
    ∧ length (rows out) = length (rows df)
    ∧ rows out ≡ₚ rows sel
    ∧ ∀ key : list value,
        filter (fun r => eqvb lex_leb key [cell_at r i; cell_at r j] = true) (rows out)
        = filter (fun r => eqvb lex_leb key [cell_at r i; cell_at r j] = true) (rows sel).
Proof. clear int_of_str.
  rewrite _handle_rto_interchange_eq.
  destruct (interchange_unsorted df) as [sel|] eqn:Hsel; simpl; [|done].
  unfold sort_values. cbn [map res_all].
  destruct (col_pos sel "Interval Start") as [i|] eqn:Hi; simpl; [|done].
  destruct (col_pos sel "From BA") as [j|] eqn:Hj; simpl; [|done].
  intros [= <-]. exists sel, i, j. cbn [columns rows].
  split; [done|]. split; [done|]. split; [done|]. split; [done|].
  set (leb := fun r1 r2 : list value =>
                lex_leb [cell_at r1 i; cell_at r1 j] [cell_at r2 i; cell_at r2 j]).
  change (stable_sort _ (rows sel)) with (stable_sort leb (rows sel)).
  assert (stable_sort leb (rows sel) ≡ₚ rows sel) as Hperm by apply stable_sort_perm.
  split; [|split; [done|]].
  - rewrite Hperm. by apply interchange_unsorted_nrows.
  - intros key.
    assert (∀ x y z, leb x y = true → leb y z = true → leb x z = true) as Htrans.
    { intros x y z. apply lex_leb_trans. }
    set (P := fun r => eqvb lex_leb key [cell_at r i; cell_at r j] = true).
    destruct (filter P (rows sel)) as [|r0 rest] eqn:Hf.
    + apply Permutation_nil_r. by rewrite Hperm, Hf.
    + rewrite <- Hf.
      assert (P r0) as H0.
      { assert (r0 ∈ filter P (rows sel)) as Hin by (rewrite Hf; apply elem_of_cons; by left).
        by apply list_elem_of_filter in Hin as [? _]. }
      assert (∀ r, P r ↔ eqvb leb r0 r = true) as Heq.
      { intros r. unfold P in *.
        change (eqvb leb r0 r)
          with (eqvb lex_leb [cell_at r0 i; cell_at r0 j] [cell_at r i; cell_at r j]).
        split; intros H.
        - apply (eqvb_trans lex_leb _ key); [apply lex_leb_trans| |done].
          by rewrite eqvb_sym.
        - by apply (eqvb_trans lex_leb _ [cell_at r0 i; cell_at r0 j]);
            [apply lex_leb_trans| |]. }
      rewrite !(list_filter_iff P _ _ Heq).
      by apply filter_stable_sort.
Qed.

(** ** Columns that the interchange table needs *)

Lemma elem_of_drop_where {A} (m : list bool) (l : list A) (x : A) :
  x ∈ drop_where m l → x ∈ l.
Proof.
  revert l. induction m as [|b m IH]; intros [|y l]; simpl;
    try (by intros ?%elem_of_nil).
  destruct b.
  - intros [->|H]%elem_of_cons; apply elem_of_cons; [by left|right; by apply IH].
  - intros H. apply elem_of_cons. right. by apply IH.
Qed.

Lemma _handle_time_columns (df out : DataFrame) (frequency c : string) :
  _handle_time df frequency = Ok out →
  c ∈ columns out →
  c = "Interval Start" ∨ c = "Interval End" ∨ c ∈ columns df.
Proof.
  rewrite _handle_time_eq.
  destruct (col_pos df "period") as [i|]; simpl; [|done].
  destruct (res_all (map to_datetime (column_at df i))) as [ends|]; simpl; [|done].
  destruct (decide _); [done|]. destruct (Timedelta frequency); [|done].
  destruct (decide _); [done|]. intros [= <-].
  unfold time_frame. cbn [columns]. rewrite !elem_of_cons.
  intros [->|[->|H]]; [by left|by right; left|].
  right. right. by eapply elem_of_drop_where.
Qed.

(** X10. The interchange transform needs each of the columns that it
    renames.  When the raw table has a usable [period] column but lacks a
    column such as [fromba], and has no column under the new name
    either, the transform raises [KeyError] for one of the seven canonical
    labels and returns no table. *)
Theorem interchange_missing_column (df df1 : DataFrame) (old new : string) :
  _handle_time df "1h" = Ok df1 →
  (old, new) ∈ [("value", "MW"); ("fromba", "From BA"); ("toba", "To BA");
                ("fromba-name", "From BA Name"); ("toba-name", "To BA Name")] →
  old ∉ columns df →
  new ∉ columns df →
  ∃ c, c ∈ INTERCHANGE_COLUMNS
       ∧ _handle_rto_interchange df = Raise (KeyError c)
       ∧ is_ok (_handle_rto_interchange df) = false.
Proof. clear int_of_str.
  intros H1 Hpair Hold Hnew.
  set (mapping := [("value", "MW"); ("fromba", "From BA"); ("toba", "To BA");
                   ("fromba-name", "From BA Name"); ("toba-name", "To BA Name")])
    in *.
  set (df2 := rename mapping df1).
  assert (new ∈ INTERCHANGE_COLUMNS) as Hcanon.
  { unfold mapping in Hpair. unfold INTERCHANGE_COLUMNS.
    repeat (apply elem_of_cons in Hpair as [[= -> ->]|Hpair];
            [rewrite !elem_of_cons; naive_solver|]).
    by apply elem_of_nil in Hpair. }
  assert (new ∉ columns df2) as Hmiss.
  { unfold df2, rename. cbn [columns].
    intros (c & Hc & Hin)%list_elem_of_fmap.
    apply (_handle_time_columns df df1 "1h" c H1) in Hin.
    unfold mapping in Hpair.
    unfold mapping in Hc.
    repeat (apply elem_of_cons in Hpair as [[= -> ->]|Hpair];
            [simpl in Hc; repeat case_decide; simpl in Hc; try discriminate; subst c;
             (destruct Hin as [Hin|[Hin|Hin]]; [discriminate|discriminate|done])|]).
    by apply elem_of_nil in Hpair. }
  set (f := fun c => match positions c (columns df2) with
                     | [] => Raise (KeyError c)
                     | l => Ok l
                     end).
  destruct (res_all_first_raise f INTERCHANGE_COLUMNS) as (l1 & c & l2 & e & Hl & _ & Hc & Hall).
  { exists new. split; [done|]. unfold f, positions.
    by rewrite positions_from_notin. }
  exists c.
  assert (e = KeyError c) as ->.
  { unfold f in Hc. destruct (positions c (columns df2)); congruence. }
  assert (_handle_rto_interchange df = Raise (KeyError c)) as Hres.
  { unfold _handle_rto_interchange. rewrite H1. cbn [mbind res_bind].
    fold mapping. fold df2. unfold select. fold f. by rewrite Hall. }
  split; [|split; [done|by rewrite Hres]].
  rewrite Hl. apply elem_of_app. right. apply elem_of_cons. by left.
Qed.

(** ** The cells of the region table *)

(** What a table that [_handle_region_data] returns has to do with the
    long table it was pivoted from. *)
Lemma _handle_region_data_inv (df out : DataFrame) :
  _handle_region_data df = Ok out →
  ∃ long idx c v,
    let live := live_entries long idx c v in
    region_long df = Ok long
    ∧ res_all (map (col_pos long) REGION_INDEX) = Ok idx
    ∧ col_pos long "Type" = Ok c
    ∧ col_pos long "MW" = Ok v
    ∧ columns out = REGION_INDEX ++ REGION_VALUES
    ∧ (∀ l, l ∈ REGION_VALUES → ∃ e, e ∈ live ∧ e_label e = VStr l)
    ∧ StronglySorted
        (fun r1 r2 => lex_leb (take 4 r1) (take 4 r2) = true
                      ∧ lex_leb (take 4 r2) (take 4 r1) = false)
        (rows out)
    ∧ (∀ row, row ∈ rows out →
         length row = 8%nat
         ∧ (∃ e, e ∈ live ∧ eqvb lex_leb (take 4 row) (e_key e) = true
                 ∧ is_null (e_value e) = false)
         ∧ ∀ n l, REGION_VALUES !! n = Some l →
             (m ← mean (cell_values live (take 4 row) l); to_Int64_masked m)
             = Ok (cell_at row (4 + n))
             ∧ (cell_at row (4 + n) = VNull ∨ ∃ z, cell_at row (4 + n) = VInt z))
    ∧ (∀ e, e ∈ live → is_null (e_value e) = false →
         ∃ row, row ∈ rows out ∧ eqvb lex_leb (take 4 row) (e_key e) = true).
Proof.
  unfold _handle_region_data.
  destruct (region_long df) as [long|e] eqn:Hlong; simpl; [|done].
  destruct (pivot_table REGION_INDEX "Type" "MW" long) as [wide|e] eqn:Hpiv;
    simpl; [|done].
  intros Hcasts.
  apply pivot_table_inv in Hpiv
    as (idx & c & v & labels & keys & cell & Hidx & Hc & Hv & Hcols & Hrows
        & Hsl & Hsk & Hclash & HL1 & HK1 & HK2 & HE).
  destruct (casts_inv wide out Hcasts) as (Hcols' & Hmem & Hcast).
  destruct (region_long_inv df long Hlong) as (df1 & c' & v' & _ & Hc' & Hv' & Hne & HF).
  rewrite Hc in Hc'. injection Hc' as <-. rewrite Hv in Hv'. injection Hv' as <-.
  set (live := live_entries long idx c v) in *.
  assert (labels = REGION_VALUES) as ->.
  { apply (strict_sorted_eq
             (fun a b => String.leb a b = true ∧ String.leb b a = false));
      [by intros a b [Hab _] [_ Hba]; rewrite Hab in Hba
      | done
      | apply REGION_VALUES_sorted |].
    intros l. split.
    - intros Hl. destruct (HL1 l Hl) as (e & He & Hel).
      apply live_entries_elem in He as (r & [i Hi]%list_elem_of_lookup & -> & _).
      simpl in Hel.
      destruct (Forall2_lookup_r _ _ _ _ _ HF Hi) as (r0 & _ & x & _ & ->).
      rewrite cell_at_set_cell_ne, cell_at_set_cell_eq in Hel by done.
      destruct (map_dict_TYPE_LABELS (cell_at r0 c)) as [Hn|(l' & Hl' & Hs)];
        congruence.
    - intros Hl. specialize (Hmem l Hl). rewrite Hcols in Hmem.
      apply elem_of_app in Hmem as [Hbad|?]; [|done].
      exfalso. unfold REGION_VALUES, REGION_INDEX in *. set_solver. }
  assert (∀ r, r ∈ rows wide → length r = 8%nat) as Hlen.
  { intros r. rewrite Hrows. intros (k & -> & Hk)%list_elem_of_fmap.
    destruct (HK1 k Hk) as [Hlk _]. rewrite length_app, length_map, Hlk. done. }
  specialize (Hcast Hcols Hlen). rewrite Hrows in Hcast.
  apply Forall2_fmap_l in Hcast.
  assert (Forall2 (fun k r' =>
                     take 4 r' = k ∧ length r' = 8%nat
                     ∧ ∀ n l, REGION_VALUES !! n = Some l →
                         to_Int64_masked (cell k l) = Ok (cell_at r' (4 + n)))
                  keys (rows out)) as Hout.
  { apply Forall2_same_length_lookup. split; [by eapply Forall2_length|].
    intros i k r' Hk Hr'.
    destruct (Forall2_lookup_l _ _ _ _ _ Hcast Hk) as (r'' & Hr'' & Ht & Hl8 & Hcells).
    rewrite Hr' in Hr''. injection Hr'' as <-.
    destruct (HK1 k (list_elem_of_lookup_2 _ _ _ Hk)) as [Hlk _].
    split; [by rewrite Ht, take_app_length'|]. split; [done|].
    intros n l Hnl.
    assert (n < 4)%nat as Hn4 by (by apply lookup_lt_Some in Hnl).
    rewrite <- Hcells by done.
    f_equal. unfold cell_at. rewrite nth_lookup, lookup_app_r by (rewrite Hlk; simpl; lia).
    rewrite Hlk. replace (4 + n - length REGION_INDEX)%nat with n by (simpl; lia).
    by rewrite list_lookup_fmap, Hnl. }
  exists long, idx, c, v. cbv zeta. fold live.
  split; [done|]. split; [done|]. split; [done|]. split; [done|].
  split; [by rewrite Hcols', Hcols|]. split; [apply HL1|]. split.
  { eapply (StronglySorted_Forall2 _ _ _ keys (rows out)); [|done|done].
    by intros a b a' b' (-> & _) (-> & _). }
  split.
  - intros row [i Hi]%list_elem_of_lookup.
    destruct (Forall2_lookup_r _ _ _ _ _ Hout Hi) as (k & Hk & Ht & Hl8 & Hcells).
    apply list_elem_of_lookup_2 in Hk.
    split; [done|]. rewrite Ht. split; [by apply HK1|].
    intros n l Hnl. rewrite HE. simpl. split; [by apply Hcells|].
    eapply to_Int64_masked_shape. by apply Hcells.
  - intros e He Hnn. destruct (HK2 e He Hnn) as [(k & [i Hk]%list_elem_of_lookup & Hke) _].
    destruct (Forall2_lookup_l _ _ _ _ _ Hout Hk) as (row & Hrow & Ht & _).
    exists row. split; [by eapply list_elem_of_lookup_2|]. by rewrite Ht.
Qed.







(** ** When [_handle_region_data] returns *)

Lemma region_long_cells (df long : DataFrame) (c v : nat) :
  region_long df = Ok long →
  col_pos long "Type" = Ok c →
  col_pos long "MW" = Ok v →
  ∀ r, r ∈ rows long →
    (cell_at r c = VNull ∨ ∃ l, l ∈ REGION_VALUES ∧ cell_at r c = VStr l)
    ∧ (cell_at r v = VNull ∨ ∃ z, cell_at r v = VInt z).
Proof.
  intros Hlong Hc Hv r [i Hi]%list_elem_of_lookup.
  destruct (region_long_inv df long Hlong) as (df1 & c' & v' & _ & Hc' & Hv' & Hne & HF).
  rewrite Hc in Hc'. injection Hc' as <-. rewrite Hv in Hv'. injection Hv' as <-.
  destruct (Forall2_lookup_r _ _ _ _ _ HF Hi) as (r0 & _ & x & Hx & ->).
  split.
  - rewrite cell_at_set_cell_ne, cell_at_set_cell_eq by done.
    apply map_dict_TYPE_LABELS.
  - rewrite cell_at_set_cell_eq. by eapply to_Int64_shape.
Qed.

Lemma mean_ints_ok (vs : list value) :
  (∀ x, x ∈ vs → x = VNull ∨ ∃ z, x = VInt z) → is_ok (mean vs) = true.
Proof.
  intros Hvs. unfold mean.
  destruct (filter (fun v => is_null v = false) vs) as [|y ys] eqn:Hf; [done|].
  rewrite <- Hf.
  assert (forallb is_num (filter (fun v => is_null v = false) vs) = true) as ->; [|done].
  apply Is_true_true, forallb_True, Forall_forall.
  intros x [Hnn Hx]%list_elem_of_filter.
  destruct (Hvs x Hx) as [->|[z ->]]; done.
Qed.


Lemma pivot_table_ok (index : list string) (cols vals : string) (df : DataFrame)
    (idx : list nat) (c v : nat) :
  res_all (map (col_pos df) index) = Ok idx →
  col_pos df cols = Ok c →
  col_pos df vals = Ok v →
  (∀ e, e ∈ live_entries df idx c v →
     (e_value e = VNull ∨ ∃ z, e_value e = VInt z)
     ∧ ∃ l, e_label e = VStr l ∧ l ∉ index) →
  ∃ wide, pivot_table index cols vals df = Ok wide.
Proof.
  intros Hidx Hc Hv Hlive. unfold pivot_table.
  rewrite Hidx, bind_Ok, Hc, bind_Ok, Hv, bind_Ok.
  set (live := live_entries df idx c v) in *.
  set (mk := fun e : entry =>
               m ← mean (map e_value (filter (fun e' => same_group e e' = true) live));
               l ← label_of (e_label e);
               Ok (mkGroup (e_key e) l m)).
  assert (∀ e, e ∈ live → ∃ g, mk e = Ok g ∧ e_label e = VStr (g_label g)) as Hmk.
  { intros e He. destruct (Hlive e He) as [_ (l & Hl & _)]. unfold mk.
    destruct (mean (map e_value (filter (fun e' => same_group e e' = true) live)))
      as [m|err] eqn:Hm.
    - rewrite bind_Ok, Hl. simpl. by eexists.
    - assert (is_ok (mean (map e_value
                 (filter (fun e' => same_group e e' = true) live))) = true) as Hok.
      { apply mean_ints_ok.
        intros x (e' & -> & [_ He']%list_elem_of_filter)%list_elem_of_fmap.
        by destruct (Hlive e' He'). }
      by rewrite Hm in Hok. }
  destruct (res_all (map mk (nub_by same_group live))) as [groups|err] eqn:Hg.
  2:{ apply res_all_Raise in Hg as (e & He%nub_by_elem & Hraise).
      destruct (Hmk e He) as (g & Hg' & _). congruence. }
  rewrite bind_Ok.
  set (kept := filter (fun g => is_null (g_mean g) = false) groups).
  set (labels := stable_sort String.leb (nub_by String.eqb (map g_label kept))).
  destruct (filter (fun n => n ∈ labels) index) as [|n0 ns] eqn:Hclash; [by eexists|].
  exfalso.
  assert (n0 ∈ filter (fun n => n ∈ labels) index) as Hin
    by (rewrite Hclash; apply elem_of_cons; by left).
  apply list_elem_of_filter in Hin as [Hl Hn0].
  unfold labels in Hl. rewrite stable_sort_perm in Hl. apply nub_by_elem in Hl.
  apply list_elem_of_fmap in Hl as (g & -> & [_ Hgg]%list_elem_of_filter).
  apply list_elem_of_lookup in Hgg as [i Hi].
  apply res_all_Forall2 in Hg.
  destruct (Forall2_lookup_r _ _ _ _ _ Hg Hi) as (e & He & Heg).
  apply list_elem_of_lookup_2, nub_by_elem in He.
  destruct (Hmk e He) as (g' & Hg' & Hl'). rewrite Heg in Hg'. injection Hg' as <-.
  destruct (Hlive e He) as [_ (l & Hl & Hnot)]. congruence.
Qed.


(** What the entries of the long table look like: the value is an integer
    or missing, the label one of the four. *)
Lemma region_entries_shape (df long : DataFrame) (idx : list nat) (c v : nat) (e : entry) :
  region_long df = Ok long →
  col_pos long "Type" = Ok c →
  col_pos long "MW" = Ok v →
  e ∈ live_entries long idx c v →
  (e_value e = VNull ∨ ∃ z, e_value e = VInt z)
  ∧ ∃ l, e_label e = VStr l ∧ l ∈ REGION_VALUES.
Proof.
  intros Hlong Hc Hv (r & Hr & -> & Hg)%live_entries_elem.
  destruct (region_long_cells df long c v Hlong Hc Hv r Hr) as [Hl Hval].
  split; [done|]. simpl.
  unfold groupable in Hg. apply andb_prop in Hg as [_ Hg]. simpl in Hg.
  destruct Hl as [Hl|(l & Hl & Hs)]; [by rewrite Hl in Hg|by exists l].
Qed.

(** The pivot of a long table that has the index columns does not raise. *)
Lemma region_pivot_ok (df long : DataFrame) (idx : list nat) (c v : nat) :
  region_long df = Ok long →
  res_all (map (col_pos long) REGION_INDEX) = Ok idx →
  col_pos long "Type" = Ok c →
  col_pos long "MW" = Ok v →
  ∃ wide, pivot_table REGION_INDEX "Type" "MW" long = Ok wide.
Proof.
  intros Hlong Hidx Hc Hv.
  apply (pivot_table_ok REGION_INDEX "Type" "MW" long idx c v Hidx Hc Hv).
  intros e He.
  destruct (region_entries_shape df long idx c v e Hlong Hc Hv He)
    as [Hval (l & Hl & Hin)].
  split; [done|]. exists l. split; [done|].
  unfold REGION_VALUES, REGION_INDEX in *. set_solver.
Qed.





(** ** When [_handle_rto_interchange] returns *)

Lemma NoDup_drop_where {A} (m : list bool) (l : list A) :
  NoDup l → NoDup (drop_where m l).
Proof.
  revert m. induction l as [|x l IH]; intros [|b m] Hnd; simpl; try constructor.
  apply NoDup_cons in Hnd as [Hx Hnd]. destruct b; [|by apply IH].
  apply NoDup_cons. split; [|by apply IH].
  intros Hin. by apply elem_of_drop_where in Hin.
Qed.

Lemma elem_of_drop_where_ne (c x : string) (l : list string) :
  x ∈ l → x ≠ c → x ∈ drop_where (map (fun y => bool_decide (y ≠ c)) l) l.
Proof.
  intros Hx Hne. induction l as [|y l IH]; [by apply elem_of_nil in Hx|].
  simpl. apply elem_of_cons in Hx as [->|Hx].
  - rewrite bool_decide_eq_true_2 by done. apply elem_of_cons. by left.
  - destruct (bool_decide (y ≠ c)); [apply elem_of_cons; right|]; by apply IH.
Qed.

Lemma positions_from_NoDup (n : nat) (c : string) (l : list string) :
  NoDup l → c ∈ l → ∃ i, positions_from n c l = [i] ∧ l !! (i - n)%nat = Some c.
Proof.
  revert n. induction l as [|x l IH]; intros n Hnd Hc; [by apply elem_of_nil in Hc|].
  apply NoDup_cons in Hnd as [Hx Hnd]. simpl.
  destruct (decide (x = c)) as [->|Hne].
  - exists n. rewrite positions_from_notin by done.
    split; [done|]. by replace (n - n)%nat with 0%nat by lia.
  - apply elem_of_cons in Hc as [->|Hc]; [done|].
    destruct (IH (S n) Hnd Hc) as (i & Hi & Hl). exists i. split; [done|].
    assert (S n ≤ i)%nat as Hle.
    { assert (i ∈ positions_from (S n) c l) as Hin
        by (rewrite Hi; apply elem_of_cons; by left).
      by apply positions_from_elem in Hin as [? _]. }
    replace (i - n)%nat with (S (i - S n)) by lia. done.
Qed.

Lemma _handle_time_columns_eq (df out : DataFrame) (frequency : string) :
  _handle_time df frequency = Ok out →
  columns out
  = "Interval Start" :: "Interval End"
    :: drop_where (map (fun x => bool_decide (x ≠ "period")) (columns df)) (columns df)
  ∧ ("Interval End" ∉ columns df)
  ∧ ("Interval Start" ∉ columns df).
Proof.
  rewrite _handle_time_eq.
  destruct (col_pos df "period") as [i|]; simpl; [|done].
  destruct (res_all (map to_datetime (column_at df i))) as [ends|]; simpl; [|done].
  destruct (decide _) as [|Hie]; [done|]. destruct (Timedelta frequency); [|done].
  destruct (decide _) as [|His]; [done|]. intros [= <-].
  split; [done|]. split; [done|].
  intros ?. apply His, elem_of_cons. by right.
Qed.

(** X13. On a raw table whose column labels are distinct, which has the
    five columns that the transform renames and none under a new name,
    whose [period] column [_handle_time] accepts and whose [fromba] cells
    are strings or missing, [_handle_rto_interchange] returns a table.  Its
    columns are the seven canonical ones in the canonical order, whatever
    the order and the number of the input's columns, and its rows are the
    rows of the input, each cut down to these seven cells. *)
Theorem interchange_transform_returns (df df1 : DataFrame) :
  _handle_time df "1h" = Ok df1 →
  NoDup (columns df) →
  (∀ old new, (old, new) ∈ INTERCHANGE_NAMES →
     old ∈ columns df ∧ (new ∉ columns df)) →
  (∀ j r, col_pos df "fromba" = Ok j → r ∈ rows df →
     cell_at r j = VNull ∨ ∃ s, cell_at r j = VStr s) →
  ∃ out ps,
    _handle_rto_interchange df = Ok out
    ∧ columns out = INTERCHANGE_COLUMNS
    ∧ res_all (map (col_pos (rename INTERCHANGE_NAMES df1)) INTERCHANGE_COLUMNS) = Ok ps
    ∧ length (rows out) = length (rows df)
    ∧ rows out ≡ₚ map (fun r => map (cell_at r) ps) (rows df1).
Proof. clear int_of_str.
  intros H1 Hnd Hnames _.
  destruct (_handle_time_columns_eq df df1 "1h" H1) as (Hcols1 & Hie & His).
  set (dw := drop_where _ (columns df)) in Hcols1.
  set (df2 := rename INTERCHANGE_NAMES df1).
  assert (∀ x, x ∈ dw → x ∈ columns df) as Hdw
    by (intros x; apply elem_of_drop_where).
  assert (∀ old new, (old, new) ∈ INTERCHANGE_NAMES → new ∉ columns df1) as Hnew.
  { intros old new Hp. destruct (Hnames old new Hp) as [_ Hn].
    rewrite Hcols1, !not_elem_of_cons. split; [|split].
    - intros ->. unfold INTERCHANGE_NAMES in Hp.
      repeat (apply elem_of_cons in Hp as [Hp|Hp]; [discriminate|]).
      by apply elem_of_nil in Hp.
    - intros ->. unfold INTERCHANGE_NAMES in Hp.
      repeat (apply elem_of_cons in Hp as [Hp|Hp]; [discriminate|]).
      by apply elem_of_nil in Hp.
    - intros Hin. by apply Hn, Hdw. }
  assert (∀ old new, (old, new) ∈ INTERCHANGE_NAMES → old ∈ columns df1) as Hold.
  { intros old new Hp. destruct (Hnames old new Hp) as [Ho _].
    rewrite Hcols1. do 2 (apply elem_of_cons; right).
    apply elem_of_drop_where_ne; [done|].
    intros ->. unfold INTERCHANGE_NAMES in Hp.
    repeat (apply elem_of_cons in Hp as [Hp|Hp]; [discriminate|]).
    by apply elem_of_nil in Hp. }
  assert ("MW" ∉ columns df1) as HnMW
    by (apply (Hnew "value"); unfold INTERCHANGE_NAMES; set_solver).
  assert ("From BA" ∉ columns df1) as HnFB
    by (apply (Hnew "fromba"); unfold INTERCHANGE_NAMES; set_solver).
  assert ("To BA" ∉ columns df1) as HnTB
    by (apply (Hnew "toba"); unfold INTERCHANGE_NAMES; set_solver).
  assert ("From BA Name" ∉ columns df1) as HnFN
    by (apply (Hnew "fromba-name"); unfold INTERCHANGE_NAMES; set_solver).
  assert ("To BA Name" ∉ columns df1) as HnTN
    by (apply (Hnew "toba-name"); unfold INTERCHANGE_NAMES; set_solver).
  assert (NoDup (columns df1)) as Hnd1.
  { rewrite Hcols1. apply NoDup_cons. split.
    - rewrite not_elem_of_cons. split; [done|]. intros Hin. by apply His, Hdw.
    - apply NoDup_cons. split; [intros Hin; by apply Hie, Hdw|].
      by apply NoDup_drop_where. }
  assert (NoDup (columns df2)) as Hnd2.
  { unfold df2, rename. cbn [columns]. apply NoDup_fmap_2_strong; [|done].
    intros x y Hx Hy Heq. unfold INTERCHANGE_NAMES in Heq. simpl in Heq.
    repeat case_decide; simpl in Heq; subst; try done. }
  assert (∀ c, c ∈ INTERCHANGE_COLUMNS → c ∈ columns df2) as Hmem.
  { assert (∀ old new, (old, new) ∈ INTERCHANGE_NAMES → new ∈ columns df2) as Hren.
    { intros old new Hp. unfold df2, rename. cbn [columns].
      apply list_elem_of_fmap. exists old. split; [|by eapply Hold].
      unfold INTERCHANGE_NAMES in Hp |- *.
      repeat (apply elem_of_cons in Hp as [[= -> ->]|Hp]; [reflexivity|]).
      by apply elem_of_nil in Hp. }
    intros c Hc. unfold INTERCHANGE_COLUMNS in Hc.
    apply elem_of_cons in Hc as [->|Hc].
    { unfold df2, rename. cbn [columns]. apply list_elem_of_fmap.
      exists "Interval Start". split; [reflexivity|]. rewrite Hcols1.
      apply elem_of_cons. by left. }
    apply elem_of_cons in Hc as [->|Hc].
    { unfold df2, rename. cbn [columns]. apply list_elem_of_fmap.
      exists "Interval End". split; [reflexivity|]. rewrite Hcols1.
      apply elem_of_cons. right. apply elem_of_cons. by left. }
    apply elem_of_cons in Hc as [->|Hc];
      [apply (Hren "fromba"); unfold INTERCHANGE_NAMES; set_solver|].
    apply elem_of_cons in Hc as [->|Hc];
      [apply (Hren "fromba-name"); unfold INTERCHANGE_NAMES; set_solver|].
    apply elem_of_cons in Hc as [->|Hc];
      [apply (Hren "toba"); unfold INTERCHANGE_NAMES; set_solver|].
    apply elem_of_cons in Hc as [->|Hc];
      [apply (Hren "toba-name"); unfold INTERCHANGE_NAMES; set_solver|].
    apply elem_of_cons in Hc as [->|Hc];
      [apply (Hren "value"); unfold INTERCHANGE_NAMES; set_solver|].
    by apply elem_of_nil in Hc. }
  set (pos := fun c => default 0%nat (head (positions c (columns df2)))).
  assert (∀ c, c ∈ INTERCHANGE_COLUMNS →
            positions c (columns df2) = [pos c]
            ∧ columns df2 !! pos c = Some c) as Hpos.
  { intros c Hc. unfold pos, positions.
    destruct (positions_from_NoDup 0 c (columns df2) Hnd2 (Hmem c Hc)) as (i & -> & Hi).
    simpl. by rewrite Nat.sub_0_r in Hi. }
  set (f := fun c => match positions c (columns df2) with
                     | [] => Raise (KeyError c)
                     | l => Ok l
                     end).
  assert (res_all (map f INTERCHANGE_COLUMNS)
          = Ok (map (fun c => [pos c]) INTERCHANGE_COLUMNS)) as Hsel.
  { apply res_all_map_Ok. intros c Hc. unfold f.
    by destruct (Hpos c Hc) as [-> _]. }
  assert (res_all (map (col_pos df2) INTERCHANGE_COLUMNS)
          = Ok (map pos INTERCHANGE_COLUMNS)) as Hps.
  { apply res_all_map_Ok. intros c Hc. unfold col_pos.
    by destruct (Hpos c Hc) as [-> _]. }
  set (sel := {| columns := INTERCHANGE_COLUMNS;
                 rows := map (fun r => map (cell_at r) (map pos INTERCHANGE_COLUMNS))
                             (rows df1) |}).
  assert (select INTERCHANGE_COLUMNS df2 = Ok sel) as Hselect.
  { unfold select. fold f. rewrite Hsel, bind_Ok. unfold sel. f_equal. f_equal.
    change (concat (map (fun c => [pos c]) INTERCHANGE_COLUMNS))
      with (map pos INTERCHANGE_COLUMNS).
    rewrite <- list_fmap_compose.
    rewrite <- (list_fmap_id INTERCHANGE_COLUMNS) at 2.
    apply list_fmap_ext. intros i c Hc%list_elem_of_lookup_2. simpl.
    apply nth_lookup_Some. by destruct (Hpos c Hc). }
  eexists _, (map pos INTERCHANGE_COLUMNS).
  split.
  { unfold _handle_rto_interchange. rewrite H1, bind_Ok.
    change (rename _ df1) with df2. rewrite Hselect, bind_Ok.
    unfold sort_values. cbn [map res_all].
    change (col_pos sel "Interval Start") with (Ok (A:=nat) 0%nat).
    change (col_pos sel "From BA") with (Ok (A:=nat) 2%nat).
    rewrite !bind_Ok. reflexivity. }
  subst sel. cbn [columns rows]. split; [done|]. split; [done|]. split.
  - rewrite stable_sort_perm, length_map. by eapply _handle_time_nrows.
  - apply stable_sort_perm.
Qed.

(** ** From the source to the interchange table *)

(** X14. For the interchange dataset over a source that serves slices of
    a fixed list of records: whenever [get_dataset] returns a table, the
    table has exactly one row per record of the source, for every schedule
    and every pool of at least one worker, and it is the table that the
    transform makes of all the records at once. *)
Theorem interchange_one_row_per_record (start_str : string) (end_str : option string)
    (n_workers : Z) (verbose : bool) (sched : list action)
    (data : list record) (out : DataFrame) :
  let result := ret (get_dataset "electricity/rto/interchange-data" start_str end_str
                       n_workers verbose sched) in
  (∀ rq, source rq = paged_source data rq) →
  1 ≤ n_workers →
  result = Ok out →
  length (rows out) = length data
  ∧ result = _handle_rto_interchange (DataFrame_of data).
Proof.
  intros result Hsrc Hw Hout.
  assert (result = _handle_rto_interchange (DataFrame_of data)) as Heq.
  { subst result. rewrite get_dataset_ret.
    by rewrite (fetch_raw_paged_source _ start_str end_str n_workers verbose sched
                  data Hsrc Hw). }
  split; [|done]. rewrite Heq in Hout.
  apply _handle_rto_interchange_nrows in Hout. rewrite Hout.
  unfold DataFrame_of. cbn [rows]. by rewrite length_map.
Qed.

(** ** Columns that the region table needs *)

Lemma assoc_elem {A} (k : string) (v : A) (l : list (string * A)) :
  assoc k l = Some v → (k, v) ∈ l.
Proof.
  induction l as [|[k' v'] l IH]; simpl; [done|].
  destruct (decide (k' = k)) as [->|Hne].
  - intros [= ->]. apply elem_of_cons. by left.
  - intros H. apply elem_of_cons. right. by apply IH.
Qed.

Lemma rename_not_elem (mapping : list (string * string)) (cols : list string)
    (old new : string) :
  (∀ o n, (o, n) ∈ mapping → n = new → o = old) →
  old ∉ cols → new ∉ cols →
  new ∉ map (fun c => default c (assoc c mapping)) cols.
Proof.
  intros Hinj Hold Hnew (c & Hc & Hin)%list_elem_of_fmap.
  destruct (assoc c mapping) as [n|] eqn:Ha; simpl in Hc.
  - apply assoc_elem in Ha. apply Hold.
    by rewrite <- (Hinj c n Ha (eq_sym Hc)).
  - by subst c.
Qed.

Lemma region_long_columns (df long : DataFrame) :
  region_long df = Ok long →
  ∃ df1, _handle_time df "1h" = Ok df1
         ∧ columns long
           = columns (rename [("value", "MW"); ("respondent", "Respondent");
                              ("respondent-name", "Respondent Name"); ("type", "Type")]
                             df1).
Proof.
  unfold region_long.
  destruct (_handle_time df "1h") as [df1|e]; simpl; [|done].
  set (df2 := rename _ df1).
  destruct (map_column "Type" TYPE_LABELS df2) as [df3|e] eqn:H3; simpl; [|done].
  intros H4.
  apply map_column_inv in H3 as (c & _ & Hcols3 & _).
  apply astype_Int64_inv in H4 as (v & _ & Hcols4 & _).
  exists df1. split; [done|]. by rewrite Hcols4, Hcols3.
Qed.

(** X15. The region transform needs each of the columns that it renames.
    When the raw table has a usable [period] column but lacks one of
    [value], [respondent], [respondent-name] and [type], and has no column
    under the new name either, the transform raises and returns no
    table. *)
Theorem region_missing_column (df df1 : DataFrame) (old new : string) :
  _handle_time df "1h" = Ok df1 →
  (old, new) ∈ [("value", "MW"); ("respondent", "Respondent");
                ("respondent-name", "Respondent Name"); ("type", "Type")] →
  old ∉ columns df →
  new ∉ columns df →
  is_ok (_handle_region_data df) = false.
Proof.
  intros H1 Hpair Hold Hnew.
  destruct (_handle_region_data df) as [out|e] eqn:Hout; [|done]. exfalso.
  destruct (_handle_region_data_inv df out Hout)
    as (long & idx & c & v & Hlong & Hidx & Hc & Hv & _).
  destruct (region_long_columns df long Hlong) as (df1' & H1' & Hcols).
  rewrite H1 in H1'. injection H1' as <-.
  assert (new ∈ columns long) as Hin.
  { apply res_all_Forall2 in Hidx.
    repeat (apply elem_of_cons in Hpair as [[= -> ->]|Hpair];
            [first [by eapply col_pos_elem
                   |destruct (Forall2_lookup_l _ _ _ _ _ Hidx
                                (eq_refl : REGION_INDEX !! 2%nat = Some "Respondent"))
                      as (i & _ & Hi); by eapply col_pos_elem
                   |destruct (Forall2_lookup_l _ _ _ _ _ Hidx
                                (eq_refl : REGION_INDEX !! 3%nat = Some "Respondent Name"))
                      as (i & _ & Hi); by eapply col_pos_elem]|]).
    by apply elem_of_nil in Hpair. }
  rewrite Hcols in Hin. unfold rename in Hin. cbn [columns] in Hin.
  eapply (rename_not_elem _ (columns df1) old new); [| | |exact Hin].
  - intros o n Ho Hn. subst n.
    repeat (apply elem_of_cons in Hpair as [[= -> ->]|Hpair];
            [repeat (apply elem_of_cons in Ho as [Ho|Ho]; [congruence|]);
             by apply elem_of_nil in Ho|]).
    by apply elem_of_nil in Hpair.
  - intros [->|[->|Hin']]%(_handle_time_columns df df1 "1h" old H1); [| |done].
    + repeat (apply elem_of_cons in Hpair as [Hpair|Hpair]; [discriminate|]).
      by apply elem_of_nil in Hpair.
    + repeat (apply elem_of_cons in Hpair as [Hpair|Hpair]; [discriminate|]).
      by apply elem_of_nil in Hpair.
  - intros [->|[->|Hin']]%(_handle_time_columns df df1 "1h" new H1); [| |done].
    + repeat (apply elem_of_cons in Hpair as [Hpair|Hpair]; [discriminate|]).
      by apply elem_of_nil in Hpair.
    + repeat (apply elem_of_cons in Hpair as [Hpair|Hpair]; [discriminate|]).
      by apply elem_of_nil in Hpair.
Qed.

(** ** A region table without a load *)

(** X16. When the long table has the index columns but no row labelled
    [Load] (no row of code D with a complete key), the pivot has no [Load]
    column, and [_handle_region_data] raises [KeyError] for [Load], the
    first column that the loop of lines 267-268 reads. *)
Theorem region_without_load_raises (df long : DataFrame) (idx : list nat) (c v : nat) :
  let live := live_entries long idx c v in
  region_long df = Ok long →
  res_all (map (col_pos long) REGION_INDEX) = Ok idx →
  col_pos long "Type" = Ok c →
  col_pos long "MW" = Ok v →
  (∀ e, e ∈ live → e_label e ≠ VStr "Load") →
  _handle_region_data df = Raise (KeyError "Load")
  ∧ ∃ wide, pivot_table REGION_INDEX "Type" "MW" long = Ok wide
            ∧ "Load" ∉ columns wide.
Proof.
  intros live Hlong Hidx Hc Hv Hnone.
  destruct (region_pivot_ok df long idx c v Hlong Hidx Hc Hv) as [wide Hpiv].
  pose proof Hpiv as Hinv.
  apply pivot_table_inv in Hinv
    as (idx' & c' & v' & labels & keys & cell & Hidx' & Hc' & Hv' & Hcols & _
        & _ & _ & _ & HL1 & _).
  rewrite Hidx in Hidx'. injection Hidx' as <-.
  rewrite Hc in Hc'. injection Hc' as <-. rewrite Hv in Hv'. injection Hv' as <-.
  fold live in HL1.
  assert ("Load" ∉ columns wide) as Hno.
  { rewrite Hcols. intros [Hin|Hin]%elem_of_app.
    - unfold REGION_INDEX in Hin.
      repeat (apply elem_of_cons in Hin as [Hin|Hin]; [discriminate|]).
      by apply elem_of_nil in Hin.
    - destruct (HL1 "Load" Hin) as (e & He & Hl). by apply (Hnone e He). }
  split; [|by exists wide].
  unfold _handle_region_data. rewrite Hlong, bind_Ok, Hpiv, bind_Ok.
  unfold astype_Int64_masked at 4. unfold col_pos, positions.
  by rewrite positions_from_notin.
Qed.

End EIA.

(** * The theorems at sample inputs *)

Lemma C1_witness :
  1 ≤ 2
  ∧ _fetch_page ex_source
      (mkRequest (BASE_URL +:+ "electricity/rto/fuel-type-data" +:+ "/data/")
                 (headers_of "KEY" "2023-01-01T00" None))
    = Ok (DataFrame_of (ex_page 0), 12000)
  ∧ map offset_of
        (sent (get_dataset "KEY" ex_source ex_parse_datetime ex_Timedelta ex_int_of_str
                 "electricity/rto/fuel-type-data" "2023-01-01T00" None 2 false
                 ex_schedule))
    ≡ₚ [Some 0; Some 5000; Some 10000].
Proof.
  assert (_fetch_page ex_source
            (mkRequest (BASE_URL +:+ "electricity/rto/fuel-type-data" +:+ "/data/")
                       (headers_of "KEY" "2023-01-01T00" None))
          = Ok (DataFrame_of (ex_page 0), 12000)) as H0 by reflexivity.
  assert (1 ≤ 2) as Hw by lia.
  split; [exact Hw|]. split; [exact H0|].
  destruct (C1_page_count "KEY" ex_source ex_parse_datetime ex_Timedelta ex_int_of_str
              "electricity/rto/fuel-type-data" "2023-01-01T00" None 2 false
              ex_schedule (DataFrame_of (ex_page 0)) 12000 H0 Hw)
    as (_ & _ & _ & _ & H12).
  destruct (H12 eq_refl) as [Hperm _]. exact Hperm.
Defined.

Lemma C2_witness :
  1 ≤ 2
  ∧ ret (fetch_raw "KEY" ex_source "electricity/rto/fuel-type-data" "2023-01-01T00"
           None 2 true ex_schedule)
    = ret (fetch_raw "KEY" ex_source "electricity/rto/fuel-type-data" "2023-01-01T00"
             None 1 true []).
Proof.
  assert (1 ≤ 2) as Hw by lia. split; [exact Hw|].
  destruct (C2_page_order_any_schedule "KEY" ex_source ex_parse_datetime ex_Timedelta
              ex_int_of_str "electricity/rto/fuel-type-data" "2023-01-01T00" None 2
              true ex_schedule Hw) as (_ & H & _).
  exact H.
Defined.

Lemma C3_witness :
  1 ≤ 2
  ∧ is_ok (page_result ex_failing_source
             (BASE_URL +:+ "electricity/rto/interchange-data" +:+ "/data/")
             (headers_of "KEY" "2023-01-01T00" None)
             (params_items "2023-01-01T00" None) 2) = false
  ∧ is_ok (ret (get_dataset "KEY" ex_failing_source ex_parse_datetime ex_Timedelta
                  ex_int_of_str "electricity/rto/interchange-data" "2023-01-01T00"
                  None 2 false ex_schedule)) = false.
Proof.
  assert (1 ≤ 2) as Hw by lia.
  assert (is_ok (page_result ex_failing_source
                   (BASE_URL +:+ "electricity/rto/interchange-data" +:+ "/data/")
                   (headers_of "KEY" "2023-01-01T00" None)
                   (params_items "2023-01-01T00" None) 2) = false) as Hfail
    by reflexivity.
  split; [exact Hw|]. split; [exact Hfail|].
  destruct (C3_failed_page_aborts "KEY" ex_failing_source ex_parse_datetime
              ex_Timedelta ex_int_of_str "electricity/rto/interchange-data"
              "2023-01-01T00" None 2 false ex_schedule (DataFrame_of (ex_page 0)) 12000
              eq_refl Hw
              (ex_intro _ 2 (conj (proj2 (elem_of_py_range 1 3 2) (conj Hw (eq_refl Lt)))
                                  Hfail)))
    as (before & p & after & e & _ & _ & _ & _ & Hno & _).
  exact Hno.
Defined.

Lemma C4_witness :
  _handle_region_data ex_parse_datetime ex_Timedelta ex_int_of_str ex_region
  = Ok ex_region_out
  ∧ columns ex_region_out = REGION_INDEX ++ REGION_VALUES.
Proof.
  assert (_handle_region_data ex_parse_datetime ex_Timedelta ex_int_of_str ex_region
          = Ok ex_region_out) as H by (vm_compute; reflexivity).
  split; [exact H|].
  destruct (C4_region_pivot ex_parse_datetime ex_Timedelta ex_int_of_str ex_region
              ex_region_out H) as (long & idx & c & v & _ & _ & _ & _ & Hcols & _).
  exact Hcols.
Defined.

(** The claim as the specification has it fails: without a row of code DF
    the transform raises, and no table with a [Load Forecast] column comes
    back; and a key that has only rows of an unrecognised code has no row
    in the output. *)
Lemma C4_counterexample :
  _handle_region_data ex_parse_datetime ex_Timedelta ex_int_of_str ex_region_no_forecast
  = Raise (KeyError "Load Forecast")
  ∧ ¬ (∃ out,
         _handle_region_data ex_parse_datetime ex_Timedelta ex_int_of_str
           ex_region_no_forecast = Ok out
         ∧ "Load Forecast" ∈ columns out)
  ∧ (∃ r, r ∈ rows ex_region ∧ cell_at r 1 = VStr "MISO")
  ∧ ∃ out,
      _handle_region_data ex_parse_datetime ex_Timedelta ex_int_of_str ex_region = Ok out
      ∧ ¬ (∃ row, row ∈ rows out ∧ cell_at row 2 = VStr "MISO").
Proof.
  assert (_handle_region_data ex_parse_datetime ex_Timedelta ex_int_of_str
            ex_region_no_forecast = Raise (KeyError "Load Forecast")) as H
    by (vm_compute; reflexivity).
  split; [exact H|]. split.
  { intros (out & Hout & _). rewrite H in Hout. discriminate. }
  split.
  { exists [VStr "2023-01-01T01"; VStr "MISO"; VStr "MISO name"; VStr "XX"; VInt 7].
    split; [|reflexivity]. simpl. rewrite !elem_of_cons. right. right. right. by left. }
  exists ex_region_out. split; [vm_compute; reflexivity|].
  intros (row & Hrow & Hcell). simpl in Hrow.
  repeat (apply elem_of_cons in Hrow as [->|Hrow]; [discriminate|]).
  by apply elem_of_nil in Hrow.
Qed.

(** Two loads of 1 and 2 for one key: the mean 3/2 is cut to 1, and the
    transform returns. *)
Lemma region_mean_is_cut :
  _handle_region_data ex_parse_datetime ex_Timedelta ex_int_of_str ex_region_two_loads
  = Ok {| columns := REGION_INDEX ++ REGION_VALUES;
          rows := [[VTime 1672531200000000000; VTime 1672534800000000000;
                    VStr "PJM"; VStr "PJM name"; VInt 1; VInt 98; VInt 110; VInt 5]] |}.
Proof. vm_compute. reflexivity. Qed.

Lemma C5_witness :
  DATASET_HANDLERS ex_parse_datetime ex_Timedelta ex_int_of_str
    !! "electricity/rto/fuel-type-data" = None
  ∧ ret (get_dataset "KEY" ex_source ex_parse_datetime ex_Timedelta ex_int_of_str
           "electricity/rto/fuel-type-data" "2023-01-01T00" None 2 false ex_schedule)
    = ret (fetch_raw "KEY" ex_source "electricity/rto/fuel-type-data" "2023-01-01T00"
             None 2 false ex_schedule).
Proof.
  assert (DATASET_HANDLERS ex_parse_datetime ex_Timedelta ex_int_of_str
            !! "electricity/rto/fuel-type-data" = None) as H by reflexivity.
  split; [exact H|].
  exact (f_equal ret
           (C5_unregistered_identity "KEY" ex_source ex_parse_datetime ex_Timedelta
              ex_int_of_str "electricity/rto/fuel-type-data" "2023-01-01T00" None 2
              false ex_schedule H)).
Defined.

Lemma C6_witness :
  _handle_rto_interchange ex_parse_datetime ex_Timedelta ex_interchange
  = Ok ex_interchange_out
  ∧ ∀ c, c ∈ columns ex_interchange_out ↔ c ∈ INTERCHANGE_COLUMNS.
Proof.
  assert (_handle_rto_interchange ex_parse_datetime ex_Timedelta ex_interchange
          = Ok ex_interchange_out) as H by (vm_compute; reflexivity).
  split; [exact H|].
  exact (proj1 (C6_interchange_sorted ex_parse_datetime ex_Timedelta ex_interchange
                  ex_interchange_out H)).
Defined.

Lemma C7_witness :
  col_pos ex_interchange "period" = Ok 0%nat
  ∧ ex_Timedelta "1h" = Some 3600000000000
  ∧ ∃ out,
      _handle_time ex_parse_datetime ex_Timedelta ex_interchange "1h" = Ok out
      ∧ columns out
        = "Interval Start" :: "Interval End" :: delete 0%nat (columns ex_interchange).
Proof.
  assert (col_pos ex_interchange "period" = Ok 0%nat) as Hi by reflexivity.
  assert (ex_Timedelta "1h" = Some 3600000000000) as Hd by reflexivity.
  split; [exact Hi|]. split; [exact Hd|].
  assert ("Interval End" ∉ columns ex_interchange) as Hie.
  { intros H. simpl in H.
    repeat (apply elem_of_cons in H as [H|H]; [discriminate|]).
    by apply elem_of_nil in H. }
  assert ("Interval Start" ∉ columns ex_interchange) as His.
  { intros H. simpl in H.
    repeat (apply elem_of_cons in H as [H|H]; [discriminate|]).
    by apply elem_of_nil in H. }
  assert (∀ r, r ∈ rows ex_interchange → length r = length (columns ex_interchange))
    as Hrect.
  { intros r H. simpl in H.
    repeat (apply elem_of_cons in H as [->|H]; [reflexivity|]).
    by apply elem_of_nil in H. }
  assert (∀ r, r ∈ rows ex_interchange →
            cell_at r 0 ≠ VNull ∧ is_Some (ex_parse_datetime (cell_at r 0))) as Hparse.
  { intros r H. simpl in H.
    repeat (apply elem_of_cons in H as [->|H];
            [split; [discriminate|eexists; reflexivity]|]).
    by apply elem_of_nil in H. }
  destruct (C7_interval_columns ex_parse_datetime ex_Timedelta ex_interchange "1h"
              0%nat 3600000000000 Hi Hd Hie His Hrect Hparse)
    as (out & Hout & Hcols & _).
  exists out. split; [exact Hout|exact Hcols].
Defined.


(** ** Further theorems at sample inputs *)

Lemma pool_size_checked_late_witness :
  0 ≤ 0
  ∧ ex_source (mkRequest (BASE_URL +:+ "electricity/rto/fuel-type-data" +:+ "/data/")
                         (headers_of "KEY" "2023-01-01T00" None))
    = Ok (ex_page 0, 12000)
  ∧ ret (get_dataset "KEY" ex_source ex_parse_datetime ex_Timedelta ex_int_of_str
           "electricity/rto/fuel-type-data" "2023-01-01T00" None 0 false [])
    = Raise (ValueError "max_workers must be greater than 0").
Proof.
  assert (0 ≤ 0) as Hw by lia.
  split; [exact Hw|]. split; [reflexivity|].
  destruct (pool_size_checked_late "KEY" ex_source ex_parse_datetime ex_Timedelta
              ex_int_of_str "electricity/rto/fuel-type-data" "2023-01-01T00" None 0
              false [] (ex_page 0) 12000 eq_refl Hw) as (_ & _ & H).
  apply H. reflexivity.
Defined.

Lemma page_windows_tile_witness :
  1 ≤ 2
  ∧ NoDup (map offset_of
             (sent (get_dataset "KEY" ex_source ex_parse_datetime ex_Timedelta
                      ex_int_of_str "electricity/rto/fuel-type-data" "2023-01-01T00"
                      None 2 false ex_schedule))).
Proof.
  assert (1 ≤ 2) as Hw by lia. split; [exact Hw|].
  destruct (page_windows_tile "KEY" ex_source ex_parse_datetime ex_Timedelta
              ex_int_of_str "electricity/rto/fuel-type-data" "2023-01-01T00" None 2
              false ex_schedule (ex_page 0) 12000 eq_refl Hw) as (_ & _ & H & _).
  exact H.
Defined.

Lemma paging_is_transparent_witness :
  1 ≤ 2
  ∧ ret (fetch_raw "KEY" (paged_source ex_records) "electricity/rto/interchange-data"
           "2023-01-01T00" None 2 false ex_schedule)
    = Ok (DataFrame_of ex_records).
Proof.
  assert (1 ≤ 2) as Hw by lia. split; [exact Hw|].
  exact (proj1 (paging_is_transparent "KEY" (paged_source ex_records) ex_parse_datetime
                  ex_Timedelta ex_int_of_str "electricity/rto/interchange-data"
                  "2023-01-01T00" None 2 false ex_schedule ex_records
                  (fun rq => eq_refl) Hw)).
Defined.

Lemma progress_bar_runs_full_witness :
  1 ≤ 2
  ∧ console (get_dataset "KEY" ex_source ex_parse_datetime ex_Timedelta ex_int_of_str
               "electricity/rto/fuel-type-data" "2023-01-01T00" None 2 true ex_schedule)
    = [LogFetching (BASE_URL +:+ "electricity/rto/fuel-type-data" +:+ "/data/");
       LogParams (params_of "2023-01-01T00" None); LogWorkers 2;
       PrintTotalRecords 12000; PrintTotalPages 3; PrintFetching;
       BarOpen 3; BarUpdate 1; BarUpdate 1; BarUpdate 1; BarClose].
Proof.
  assert (1 ≤ 2) as Hw by lia. split; [exact Hw|].
  exact (progress_bar_runs_full "KEY" ex_source ex_parse_datetime ex_Timedelta
           ex_int_of_str "electricity/rto/fuel-type-data" "2023-01-01T00" None 2
           ex_schedule (ex_page 0) 12000 eq_refl Hw).
Defined.

Lemma registered_dataset_needs_period_witness :
  ret (get_dataset "KEY" (paged_source []) ex_parse_datetime ex_Timedelta ex_int_of_str
         "electricity/rto/interchange-data" "2023-01-01T00" None 2 false [])
  = Raise (KeyError "period").
Proof.
  destruct (registered_dataset_needs_period "KEY" (paged_source []) ex_parse_datetime
              ex_Timedelta ex_int_of_str "electricity/rto/interchange-data"
              "2023-01-01T00" None 2 false [] (or_introl eq_refl)) as [_ H].
  assert (0 ≤ page_size) as Hle by (unfold page_size; lia).
  exact (proj1 (H 0 eq_refl Hle)).
Defined.

Lemma interchange_rows_stable_witness :
  _handle_rto_interchange ex_parse_datetime ex_Timedelta ex_interchange
  = Ok ex_interchange_out
  ∧ length (rows ex_interchange_out) = length (rows ex_interchange).
Proof.
  assert (_handle_rto_interchange ex_parse_datetime ex_Timedelta ex_interchange
          = Ok ex_interchange_out) as H by (vm_compute; reflexivity).
  split; [exact H|].
  destruct (interchange_rows_stable ex_parse_datetime ex_Timedelta ex_interchange
              ex_interchange_out H) as (sel & i & j & _ & _ & _ & _ & Hlen & _).
  exact Hlen.
Defined.

Lemma interchange_missing_column_witness :
  ("fromba" ∉ columns ex_no_fromba)
  ∧ is_ok (_handle_rto_interchange ex_parse_datetime ex_Timedelta ex_no_fromba) = false.
Proof.
  destruct (_handle_time ex_parse_datetime ex_Timedelta ex_no_fromba "1h")
    as [df1|e] eqn:H1; [|vm_compute in H1; discriminate].
  assert (("fromba", "From BA")
          ∈ [("value", "MW"); ("fromba", "From BA"); ("toba", "To BA");
             ("fromba-name", "From BA Name"); ("toba-name", "To BA Name")]) as Hp.
  { apply elem_of_cons. right. apply elem_of_cons. left. reflexivity. }
  assert ("fromba" ∉ columns ex_no_fromba) as Ho.
  { intros H. simpl in H.
    repeat (apply elem_of_cons in H as [H|H]; [discriminate|]).
    by apply elem_of_nil in H. }
  assert ("From BA" ∉ columns ex_no_fromba) as Hn.
  { intros H. simpl in H.
    repeat (apply elem_of_cons in H as [H|H]; [discriminate|]).
    by apply elem_of_nil in H. }
  split; [exact Ho|].
  destruct (interchange_missing_column ex_parse_datetime ex_Timedelta ex_no_fromba df1
              "fromba" "From BA" H1 Hp Ho Hn) as (c & _ & _ & H).
  exact H.
Defined.



Lemma interchange_transform_returns_witness :
  NoDup (columns ex_interchange)
  ∧ ∃ out,
      _handle_rto_interchange ex_parse_datetime ex_Timedelta ex_interchange = Ok out
      ∧ columns out = INTERCHANGE_COLUMNS.
Proof.
  destruct (_handle_time ex_parse_datetime ex_Timedelta ex_interchange "1h")
    as [df1|e] eqn:H1; [|vm_compute in H1; discriminate].
  assert (NoDup (columns ex_interchange)) as Hnd.
  { apply (bool_decide_unpack _). vm_compute. exact I. }
  assert (∀ old new, (old, new) ∈ INTERCHANGE_NAMES →
            old ∈ columns ex_interchange ∧ (new ∉ columns ex_interchange)) as Hnames.
  { intros old new Hp. unfold INTERCHANGE_NAMES in Hp.
    repeat (apply elem_of_cons in Hp as [[= -> ->]|Hp];
            [split;
             [simpl; repeat (apply elem_of_cons; first [left; reflexivity|right])
             |intros H; simpl in H;
              repeat (apply elem_of_cons in H as [H|H]; [discriminate|]);
              by apply elem_of_nil in H]|]).
    by apply elem_of_nil in Hp. }
  assert (∀ j r, col_pos ex_interchange "fromba" = Ok j → r ∈ rows ex_interchange →
            cell_at r j = VNull ∨ ∃ s, cell_at r j = VStr s) as Hstr.
  { intros j r Hj Hr. vm_compute in Hj. injection Hj as <-. simpl in Hr.
    repeat (apply elem_of_cons in Hr as [->|Hr]; [right; eexists; reflexivity|]).
    by apply elem_of_nil in Hr. }
  split; [exact Hnd|].
  destruct (interchange_transform_returns ex_parse_datetime ex_Timedelta ex_interchange
              df1 H1 Hnd Hnames Hstr) as (out & ps & Hout & Hcols & _).
  exists out. split; [exact Hout|exact Hcols].
Defined.

Lemma interchange_one_row_per_record_witness :
  1 ≤ 2
  ∧ ∃ out,
      ret (get_dataset "KEY" (paged_source ex_records) ex_parse_datetime ex_Timedelta
             ex_int_of_str "electricity/rto/interchange-data" "2023-01-01T00" None 2
             false ex_schedule) = Ok out
      ∧ length (rows out) = 2%nat.
Proof.
  assert (1 ≤ 2) as Hw by lia. split; [exact Hw|].
  destruct (ret (get_dataset "KEY" (paged_source ex_records) ex_parse_datetime
                   ex_Timedelta ex_int_of_str "electricity/rto/interchange-data"
                   "2023-01-01T00" None 2 false ex_schedule))
    as [out|e] eqn:Hout; [|vm_compute in Hout; discriminate].
  exists out. split; [reflexivity|].
  exact (proj1 (interchange_one_row_per_record "KEY" (paged_source ex_records)
                  ex_parse_datetime ex_Timedelta ex_int_of_str "2023-01-01T00" None 2
                  false ex_schedule ex_records out (fun rq => eq_refl) Hw Hout)).
Defined.

Lemma region_missing_column_witness :
  ("respondent" ∉ columns ex_no_fromba)
  ∧ is_ok (_handle_region_data ex_parse_datetime ex_Timedelta ex_int_of_str ex_no_fromba)
    = false.
Proof.
  destruct (_handle_time ex_parse_datetime ex_Timedelta ex_no_fromba "1h")
    as [df1|e] eqn:H1; [|vm_compute in H1; discriminate].
  assert (("respondent", "Respondent")
          ∈ [("value", "MW"); ("respondent", "Respondent");
             ("respondent-name", "Respondent Name"); ("type", "Type")]) as Hp.
  { apply elem_of_cons. right. apply elem_of_cons. left. reflexivity. }
  assert ("respondent" ∉ columns ex_no_fromba) as Ho.
  { intros H. simpl in H.
    repeat (apply elem_of_cons in H as [H|H]; [discriminate|]).
    by apply elem_of_nil in H. }
  assert ("Respondent" ∉ columns ex_no_fromba) as Hn.
  { intros H. simpl in H.
    repeat (apply elem_of_cons in H as [H|H]; [discriminate|]).
    by apply elem_of_nil in H. }
  split; [exact Ho|].
  exact (region_missing_column ex_parse_datetime ex_Timedelta ex_int_of_str ex_no_fromba
           df1 "respondent" "Respondent" H1 Hp Ho Hn).
Defined.

Lemma region_without_load_raises_witness :
  _handle_region_data ex_parse_datetime ex_Timedelta ex_int_of_str ex_region_no_load
  = Raise (KeyError "Load").
Proof.
  destruct (region_long ex_parse_datetime ex_Timedelta ex_int_of_str ex_region_no_load)
    as [long|e] eqn:Hlong; [|vm_compute in Hlong; discriminate].
  assert (res_all (map (col_pos long) REGION_INDEX) = Ok [0; 1; 2; 3]%nat
          ∧ col_pos long "Type" = Ok 4%nat
          ∧ col_pos long "MW" = Ok 5%nat
          ∧ ∀ e, e ∈ live_entries long [0; 1; 2; 3]%nat 4 5 → e_label e ≠ VStr "Load")
    as (Hidx & Hc & Hv & Hnone).
  { vm_compute in Hlong. injection Hlong as <-.
    split; [reflexivity|]. split; [reflexivity|]. split; [reflexivity|].
    intros e (r & Hr & -> & _)%live_entries_elem. simpl in Hr.
    repeat (apply elem_of_cons in Hr as [->|Hr]; [simpl; discriminate|]).
    by apply elem_of_nil in Hr. }
  exact (proj1 (region_without_load_raises ex_parse_datetime ex_Timedelta ex_int_of_str
                  ex_region_no_load long [0; 1; 2; 3]%nat 4 5 Hlong Hidx Hc Hv Hnone)).
Defined.
